(** * utils-ts: asset amounts and number formatting

    A shallow embedding of [packages/utils-ts/src/asset-amount.ts] (class
    [AssetAmount]) and [packages/utils-ts/src/format.ts] ([formatNumber],
    [roundToFirstNonZeroDecimal], [formatShortAddress]), with the
    properties of the design document stated over it, and then those of
    the rest of the two files.

    The arbitrary-precision decimals of bignumber.js and the numbers of the
    JavaScript host are modelled first; the two source files follow. *)

From Stdlib Require Import ZArith QArith Qround Bool List Lia.
From Stdlib Require Import Ascii String DecimalString.
From Stdlib Require DecimalZ DecimalPos.
From Stdlib Require Import Floats.
Import ListNotations.

#[local] Open Scope Z_scope.

(* ================================================================== *)
(** * Decimal digits *)
(* ================================================================== *)

Module Digits.

(** The digits of a natural number. *)
Definition digits (n : Z) : string :=
  NilZero.string_of_uint (N.to_uint (Z.to_N n)).

Fixpoint zeros (n : nat) : string :=
  match n with
  | O => EmptyString
  | S n => String "0" (zeros n)
  end.

(** The digits of [f] on [n] places. *)
Definition padded (n : nat) (f : Z) : string :=
  (zeros (n - String.length (digits f)) ++ digits f)%string.

(** Trailing zeros dropped, down to [keep] characters. *)
Fixpoint strip_rev (keep : nat) (l : list ascii) : list ascii :=
  match l with
  | c :: r =>
      if (Ascii.eqb c "0" && Nat.ltb keep (List.length l))%bool
      then strip_rev keep r else l
  | [] => []
  end.

Definition strip (keep : nat) (s : string) : string :=
  string_of_list_ascii (rev (strip_rev keep (rev (list_ascii_of_string s)))).

(** A fraction after its point, if there is one. *)
Definition point (f : string) : string :=
  match f with
  | EmptyString => EmptyString
  | _ => String "." f
  end.

End Digits.

(* ================================================================== *)
(** * bignumber.js *)
(* ================================================================== *)

(** The library is used under its default configuration:
    [DECIMAL_PLACES = 20] and [ROUNDING_MODE = ROUND_HALF_UP], which govern
    [dividedBy], and [TO_EXP_NEG = -7] and [TO_EXP_POS = 21], the decimal
    exponents from which [toString] writes exponential notation, as a
    JavaScript number does.

    Values are the finite ones: a decimal [coeff / 10^scale]. [NaN] and the
    infinities only arise from a text that is no number and from a division
    by zero; the one unguarded division of the program, in [percentageOf],
    has its result in [xt]. *)
Module BigNumber.

Record t : Set := mk { coeff : Z; scale : nat }.

Definition pow10 (n : nat) : Z := 10 ^ Z.of_nat n.

(** The rational a decimal denotes. *)
Definition toQ (x : t) : Q := inject_Z (coeff x) / inject_Z (pow10 (scale x)).

(** [new BigNumber(n)] for an integer [n]. *)
Definition ofZ (z : Z) : t := mk z 0.

(** [BigNumber.ROUND_UP] ... [BigNumber.ROUND_HALF_FLOOR], the library's
    rounding modes 0 to 8. *)
Inductive RoundingMode : Set :=
| ROUND_UP          (* away from zero *)
| ROUND_DOWN        (* towards zero *)
| ROUND_CEIL        (* towards +Infinity *)
| ROUND_FLOOR       (* towards -Infinity *)
| ROUND_HALF_UP     (* to nearest, a tie away from zero *)
| ROUND_HALF_DOWN   (* to nearest, a tie towards zero *)
| ROUND_HALF_EVEN   (* to nearest, a tie to the even neighbour *)
| ROUND_HALF_CEIL   (* to nearest, a tie towards +Infinity *)
| ROUND_HALF_FLOOR. (* to nearest, a tie towards -Infinity *)

(** Where a tie (the quotient is halfway between [q] and [q + 1]) goes. *)
Definition tie_up (rm : RoundingMode) (nonneg : bool) (q : Z) : bool :=
  match rm with
  | ROUND_HALF_UP => nonneg
  | ROUND_HALF_DOWN => negb nonneg
  | ROUND_HALF_EVEN => Z.odd q
  | ROUND_HALF_CEIL => true
  | _ => false
  end.

(** The quotient [n / d] ([0 < d]) rounded to an integer: [q] is its floor
    and [r] what is left of [n]. *)
Definition round_quotient (rm : RoundingMode) (n d : Z) : Z :=
  let q := n / d in
  let r := n mod d in
  if r =? 0 then q
  else
    match rm with
    | ROUND_UP => if 0 <=? n then q + 1 else q
    | ROUND_DOWN => if 0 <=? n then q else q + 1
    | ROUND_CEIL => q + 1
    | ROUND_FLOOR => q
    | _ =>
        match 2 * r ?= d with
        | Lt => q
        | Gt => q + 1
        | Eq => if tie_up rm (0 <=? n) q then q + 1 else q
        end
    end.

Definition DECIMAL_PLACES : nat := 20.
Definition ROUNDING_MODE : RoundingMode := ROUND_HALF_UP.

Definition isZero (x : t) : bool := coeff x =? 0.
Definition isNegative (x : t) : bool := coeff x <? 0.

(** [x.isPositive()]: the sign is not the negative one. The zero of this
    model is the positive zero, the one [new BigNumber(0)] is. *)
Definition isPositive (x : t) : bool := negb (isNegative x).

Definition compare (x y : t) : comparison :=
  coeff x * pow10 (scale y) ?= coeff y * pow10 (scale x).

Definition isEqualTo (x y : t) : bool :=
  match compare x y with Eq => true | _ => false end.
Definition isGreaterThan (x y : t) : bool :=
  match compare x y with Gt => true | _ => false end.
Definition isLessThan (x y : t) : bool :=
  match compare x y with Lt => true | _ => false end.
Definition isGreaterThanOrEqualTo (x y : t) : bool := negb (isLessThan x y).
Definition isLessThanOrEqualTo (x y : t) : bool := negb (isGreaterThan x y).

Definition plus (x y : t) : t :=
  let s := Nat.max (scale x) (scale y) in
  mk (coeff x * pow10 (s - scale x) + coeff y * pow10 (s - scale y)) s.

Definition minus (x y : t) : t :=
  let s := Nat.max (scale x) (scale y) in
  mk (coeff x * pow10 (s - scale x) - coeff y * pow10 (s - scale y)) s.

Definition multipliedBy (x y : t) : t :=
  mk (coeff x * coeff y) (scale x + scale y).

(** [x.pow(n)] for a non-negative integer [n]: exact. *)
Definition pow (x : t) (n : nat) : t :=
  mk (coeff x ^ Z.of_nat n) (scale x * n).

(** [x.integerValue(rm)]. *)
Definition integerValue (rm : RoundingMode) (x : t) : t :=
  ofZ (round_quotient rm (coeff x) (pow10 (scale x))).

(** [x.dividedBy(y)] for [y] other than zero: the quotient rounded to
    [DECIMAL_PLACES] decimal places by [ROUNDING_MODE]. *)
Definition quotient (x y : t) : t :=
  let n := coeff x * pow10 (scale y + DECIMAL_PLACES) in
  let d := coeff y * pow10 (scale x) in
  mk (if d <? 0 then round_quotient ROUNDING_MODE (- n) (- d)
      else round_quotient ROUNDING_MODE n d)
     DECIMAL_PLACES.

(** A BigNumber that may be other than finite. *)
Inductive xt : Set :=
| Finite (x : t)
| Infinite (negative : bool)
| NaN.

(** [x.dividedBy(y)], [y] any finite value: a division by zero gives an
    infinity (of the sign of [x]), and [NaN] for [0 / 0]. *)
Definition dividedBy (x y : t) : xt :=
  if isZero y then
    if isZero x then NaN else Infinite (isNegative x)
  else Finite (quotient x y).

(** [x.multipliedBy(y)] ([y] finite, not zero) on an [xt]. *)
Definition xmultipliedBy (x : xt) (y : t) : xt :=
  match x with
  | Finite x => Finite (multipliedBy x y)
  | Infinite s => Infinite (xorb s (isNegative y))
  | NaN => NaN
  end.

(** ** Text *)

(** The text of a number: the string [toString()] returns, a [bigint]
    prints as, and [new BigNumber(text)] and [BigInt(text)] read. It is
    kept as the value it spells and the notation it is written in:
    positional ("-12.5", "1000") or with an exponent ("1e+21", "1.5e-7").
    The constructor reads back the value [toString] wrote; [BigInt], which
    is the host's, goes by the characters, [chars]. *)
Inductive text : Set :=
| Positional (x : t)
| Exponential (x : t).

Definition sign (x : t) : string :=
  if coeff x <? 0 then "-"%string else EmptyString.

(** "-12.5": the integer part, and the fraction without trailing zeros. *)
Definition positional (x : t) : string :=
  let c := Z.abs (coeff x) in
  let p := pow10 (scale x) in
  (sign x ++ Digits.digits (c / p)
     ++ Digits.point (Digits.strip 0 (Digits.padded (scale x) (c mod p))))%string.

(** "1.5e+21": the first digit, the others without trailing zeros, and
    the decimal exponent. *)
Definition exponential (x : t) : string :=
  let d := Digits.digits (Z.abs (coeff x)) in
  let e := Z.of_nat (String.length d) - 1 - Z.of_nat (scale x) in
  let mantissa :=
    match Digits.strip 0 d with
    | EmptyString => "0"%string
    | String c r => String c (Digits.point r)
    end in
  let esign := if e <? 0 then "-"%string else "+"%string in
  ((sign x ++ mantissa) ++ String "e" (esign ++ Digits.digits (Z.abs e)))%string.

Definition chars (s : text) : string :=
  match s with
  | Positional x => positional x
  | Exponential x => exponential x
  end.

(** The value has a decimal exponent of 21 or more: [10^21 <= |x|]. *)
Definition exponent_ge_21 (x : t) : bool :=
  pow10 (21 + scale x) <=? Z.abs (coeff x).

(** The value has a decimal exponent of -7 or less: [0 < |x| < 10^-6]. *)
Definition exponent_le_m7 (x : t) : bool :=
  negb (isZero x) && (Z.abs (coeff x) * pow10 6 <? pow10 (scale x)).

(** [x.toString()]: exponential notation at an exponent of [TO_EXP_POS =
    21] and above, and of [TO_EXP_NEG = -7] and below. *)
Definition toString (x : t) : text :=
  if exponent_ge_21 x || exponent_le_m7 x then Exponential x
  else Positional x.

(** [new BigNumber(text)]. *)
Definition ofString (s : text) : t :=
  match s with
  | Positional x => x
  | Exponential x => x
  end.

(** [x.toNumber()]: the double nearest to the decimal. *)
Definition Z2SF (z : Z) : spec_float :=
  match z with
  | Z0 => S754_zero false
  | Zpos p => S754_finite false p 0
  | Zneg p => S754_finite true p 0
  end.

Definition toNumber (x : t) : float :=
  SF2Prim (SFdiv prec emax (Z2SF (coeff x)) (Z2SF (pow10 (scale x)))).

Definition xtoNumber (x : xt) : float :=
  match x with
  | Finite x => toNumber x
  | Infinite false => infinity
  | Infinite true => neg_infinity
  | NaN => nan
  end.

End BigNumber.

(* ================================================================== *)
(** * Exceptions *)
(* ================================================================== *)

(** [number | bigint]: an asset id. A [number] id is taken at its integer
    value. The two kinds never compare equal under [===]. *)
Inductive AssetId : Set :=
| IdNumber (n : Z)
| IdBigInt (n : Z).

(** What the program throws: its own [new Error(message)], each under the
    name the design document gives it, and the [SyntaxError] of [BigInt]. *)
Inductive exn : Set :=
| AssetIdentityMismatch (verb : string) (this_id other_id : AssetId)
| DecimalsMismatch (verb : string)
| DivisionByZero
| ZeroPrice
| ZeroPercentageBase
| SyntaxError (text : string).

Inductive result (A : Type) : Type :=
| Ok (a : A)
| Throw (e : exn).

Arguments Ok {A} a.
Arguments Throw {A} e.

Definition bind {A B : Type} (c : result A) (k : A -> result B) : result B :=
  match c with
  | Ok a => k a
  | Throw e => Throw e
  end.

Notation "x <- c ;; k" := (bind c (fun x => k))
  (at level 61, c at next level, right associativity).

(** [`${id}`] *)
Definition AssetId_toString (i : AssetId) : string :=
  match i with
  | IdNumber n | IdBigInt n => NilZero.string_of_int (Z.to_int n)
  end.

(** The [message] of the [Error] thrown. *)
Definition message (e : exn) : string :=
  match e with
  | AssetIdentityMismatch verb a b =>
      ("Cannot " ++ verb ++ " AssetAmounts with different asset IDs ("
         ++ AssetId_toString a ++ " and " ++ AssetId_toString b ++ ")")%string
  | DecimalsMismatch verb =>
      ("Cannot " ++ verb ++ " AssetAmounts with different decimals")%string
  | DivisionByZero => "Division by zero"%string
  | ZeroPrice => "Asset price cannot be zero"%string
  | ZeroPercentageBase => "Cannot calculate percentage of zero"%string
  | SyntaxError text => ("Cannot convert " ++ text ++ " to a BigInt")%string
  end.

(** [BigInt(text)]: the integer the characters spell, an optional minus
    sign and digits, and a [SyntaxError] on any other character. *)
Definition BigInt (s : BigNumber.text) : result Z :=
  match NilZero.int_of_string (BigNumber.chars s) with
  | Some d => Ok (Z.of_int d)
  | None => Throw (SyntaxError (BigNumber.chars s))
  end.

(** [n.toString()] for a [bigint]: all its digits. *)
Definition bigint_toString (n : Z) : BigNumber.text :=
  BigNumber.Positional (BigNumber.ofZ n).

(* ================================================================== *)
(** * asset-amount.ts *)
(* ================================================================== *)

(** [interface AssetInfo] *)
Module AssetInfo.

Record t : Set := mk {
  id : AssetId;
  decimals : nat;
  unitName : option string;
  name : option string
}.

End AssetInfo.

(** An [AssetInfo] is a JavaScript object: what the program passes around
    and stores is a reference to it, and the object can be written to by
    whoever holds a reference. *)
Definition ref : Set := nat.
Definition store : Set := ref -> AssetInfo.t.

(** [Object.assign(r, o)], or an assignment to the fields of [r]. *)
Definition mutate (sigma : store) (r : ref) (o : AssetInfo.t) : store :=
  fun r' => if Nat.eqb r' r then o else sigma r'.

Definition AssetId_eqb (a b : AssetId) : bool :=
  match a, b with
  | IdNumber n, IdNumber m => n =? m
  | IdBigInt n, IdBigInt m => n =? m
  | _, _ => false
  end.

Module AssetAmount.

(** [class AssetAmount]: its two private fields. *)
Record t : Set := mk {
  _microUnits : BigNumber.t;
  _assetInfo : ref
}.

(** The [amount] a factory takes: [bigint | number | BigNumber | string].
    A number, a BigNumber and the text of a number are the decimal they
    stand for; a text that is no number, which bignumber.js reads as NaN,
    is left out. *)
Inductive amount : Set :=
| OfBigInt (n : Z)
| OfDecimal (x : BigNumber.t).

(** [amount.toString()] *)
Definition amount_toString (v : amount) : BigNumber.text :=
  match v with
  | OfBigInt n => bigint_toString n
  | OfDecimal x => BigNumber.toString x
  end.

(** The second argument of the constructor. *)
Inductive params : Set :=
| ofStandardUnits (v : BigNumber.t)
| ofMicroUnits (v : amount).

Section Methods.

Variable sigma : store.

(** [get decimals] *)
Definition decimals (this : t) : nat :=
  AssetInfo.decimals (sigma (_assetInfo this)).

(** [get assetId] *)
Definition assetId (this : t) : AssetId :=
  AssetInfo.id (sigma (_assetInfo this)).

(** [get assetInfo]: the reference, and the object it leads to. *)
Definition assetInfo (this : t) : ref := _assetInfo this.
Definition assetInfo_value (this : t) : AssetInfo.t := sigma (_assetInfo this).

(** [constructor(assetInfo, params)] *)
Definition new (assetInfo : ref) (p : params) : t :=
  match p with
  | ofStandardUnits v =>
      let standardAmount := v in
      mk (BigNumber.integerValue BigNumber.ROUND_DOWN
            (BigNumber.multipliedBy standardAmount
               (BigNumber.pow (BigNumber.ofZ 10)
                  (AssetInfo.decimals (sigma assetInfo)))))
         assetInfo
  | ofMicroUnits v =>
      mk (BigNumber.ofString (amount_toString v)) assetInfo
  end.

(** [get microUnits] *)
Definition microUnits (this : t) : result Z :=
  BigInt (BigNumber.toString
            (BigNumber.integerValue BigNumber.ROUND_DOWN (_microUnits this))).

(** [get microBigNum] *)
Definition microBigNum (this : t) : BigNumber.t := _microUnits this.

(** [get standardBigNum] *)
Definition standardBigNum (this : t) : BigNumber.t :=
  BigNumber.quotient (_microUnits this)
    (BigNumber.pow (BigNumber.ofZ 10) (decimals this)).

(** [get standardUnits] *)
Definition standardUnits (this : t) : float :=
  BigNumber.toNumber (standardBigNum this).

(** [static StandardUnits], [static MicroUnits], [static zero] *)
Definition StandardUnits (assetInfo : ref) (v : BigNumber.t) : t :=
  new assetInfo (ofStandardUnits v).

Definition MicroUnits (assetInfo : ref) (v : amount) : t :=
  new assetInfo (ofMicroUnits v).

Definition zero (assetInfo : ref) : t :=
  new assetInfo (ofMicroUnits (OfDecimal (BigNumber.ofZ 0))).

(** [static fromCurrency] *)
Definition fromCurrency (assetInfo : ref) (currencyAmount assetPrice : BigNumber.t)
  : result t :=
  let currency := currencyAmount in
  let price := assetPrice in
  if BigNumber.isZero price then Throw ZeroPrice
  else
    let standardAmount := BigNumber.quotient currency price in
    Ok (StandardUnits assetInfo standardAmount).

(** The two checks every binary method starts with. *)
Definition same_asset (verb : string) (this other : t) : result unit :=
  if negb (AssetId_eqb (assetId this) (assetId other)) then
    Throw (AssetIdentityMismatch verb (assetId this) (assetId other))
  else if negb (Nat.eqb (decimals this) (decimals other)) then
    Throw (DecimalsMismatch verb)
  else Ok tt.

(** [other.microUnits.toString()], as a BigNumber operand. *)
Definition operand (other : t) : result BigNumber.t :=
  n <- microUnits other ;;
  Ok (BigNumber.ofString (bigint_toString n)).

(** [add(other)] *)
Definition add (this other : t) : result t :=
  _ <- same_asset "add" this other ;;
  o <- operand other ;;
  Ok (MicroUnits (_assetInfo this)
        (OfDecimal (BigNumber.plus (_microUnits this) o))).

(** [subtract(other)] *)
Definition subtract (this other : t) : result t :=
  _ <- same_asset "subtract" this other ;;
  o <- operand other ;;
  Ok (MicroUnits (_assetInfo this)
        (OfDecimal (BigNumber.minus (_microUnits this) o))).

(** [multiply(scalar)] *)
Definition multiply (this : t) (scalar : BigNumber.t) : t :=
  let multiplier := scalar in
  MicroUnits (_assetInfo this)
    (OfDecimal (BigNumber.integerValue BigNumber.ROUND_DOWN
                  (BigNumber.multipliedBy (_microUnits this) multiplier))).

(** [divide(scalar)] *)
Definition divide (this : t) (scalar : BigNumber.t) : result t :=
  let divisor := scalar in
  if BigNumber.isZero divisor then Throw DivisionByZero
  else
    Ok (MicroUnits (_assetInfo this)
          (OfDecimal (BigNumber.integerValue BigNumber.ROUND_DOWN
                        (BigNumber.quotient (_microUnits this) divisor)))).

(** [round(decimalPlaces = 0, roundingMode = BigNumber.ROUND_HALF_UP)] *)
Definition round (this : t) (decimalPlaces : Z)
    (roundingMode : BigNumber.RoundingMode) : t :=
  if Z.of_nat (decimals this) <=? decimalPlaces then this
  else
    let digitsToRemove := Z.of_nat (decimals this) - decimalPlaces in
    let divisor := BigNumber.pow (BigNumber.ofZ 10) (Z.to_nat digitsToRemove) in
    let rounded :=
      BigNumber.multipliedBy
        (BigNumber.integerValue roundingMode
           (BigNumber.quotient (_microUnits this) divisor))
        divisor in
    MicroUnits (_assetInfo this) (OfDecimal rounded).

(** [isZero()] *)
Definition isZero (this : t) : bool := BigNumber.isZero (_microUnits this).

(** [isPositive()], [isNegative()] *)
Definition isPositive (this : t) : bool := BigNumber.isPositive (_microUnits this).
Definition isNegative (this : t) : bool := BigNumber.isNegative (_microUnits this).

(** [valueOf()] *)
Definition valueOf (this : t) : float := BigNumber.toNumber (_microUnits this).

(** [percentageOf(other)] *)
Definition percentageOf (this other : t) : result float :=
  _ <- same_asset "compare" this other ;;
  if isZero other then Throw ZeroPercentageBase
  else
    o <- operand other ;;
    Ok (BigNumber.xtoNumber
          (BigNumber.xmultipliedBy
             (BigNumber.dividedBy (_microUnits this) o)
             (BigNumber.ofZ 100))).

(** [isGreaterThan(other)] and the three other orderings *)
Definition isGreaterThan (this other : t) : result bool :=
  _ <- same_asset "compare" this other ;;
  o <- operand other ;;
  Ok (BigNumber.isGreaterThan (_microUnits this) o).

Definition isLessThan (this other : t) : result bool :=
  _ <- same_asset "compare" this other ;;
  o <- operand other ;;
  Ok (BigNumber.isLessThan (_microUnits this) o).

Definition isGreaterThanOrEqualTo (this other : t) : result bool :=
  _ <- same_asset "compare" this other ;;
  o <- operand other ;;
  Ok (BigNumber.isGreaterThanOrEqualTo (_microUnits this) o).

Definition isLessThanOrEqualTo (this other : t) : result bool :=
  _ <- same_asset "compare" this other ;;
  o <- operand other ;;
  Ok (BigNumber.isLessThanOrEqualTo (_microUnits this) o).

(** [equals(other)]: [&&] evaluates its right operand only when the left
    one is true. *)
Definition equals (this other : t) : result bool :=
  if AssetId_eqb (assetId this) (assetId other) then
    if Nat.eqb (decimals this) (decimals other) then
      o <- operand other ;;
      Ok (BigNumber.isEqualTo (_microUnits this) o)
    else Ok false
  else Ok false.

(** [toJSON()] and [static fromJSON(json)] *)
Record json : Set := mkjson {
  json_assetInfo : ref;
  json_microUnits : BigNumber.text
}.

Definition toJSON (this : t) : json :=
  mkjson (_assetInfo this) (BigNumber.toString (_microUnits this)).

Definition fromJSON (j : json) : t :=
  MicroUnits (json_assetInfo j) (OfDecimal (BigNumber.ofString (json_microUnits j))).

End Methods.

End AssetAmount.

(* ================================================================== *)
(** * format.ts *)
(* ================================================================== *)

Module Format.

(** [type FormatOptions]; an absent field is [None]. *)
Inductive Style : Set := currency | decimal.
Inductive Compact : Set := compact_is (b : bool) | auto.

Record FormatOptions : Set := mkOptions {
  style : option Style;
  compact : option Compact;
  fractionDigits : option nat;
  adaptiveDecimals : option bool
}.

(** [string | number | bigint], and what is left of it after the first
    line of [formatNumber]: [number | bigint]. *)
Inductive amount : Set :=
| AString (s : string)
| ANumber (x : float)
| ABigInt (n : Z).

Inductive value : Set :=
| VNumber (x : float)
| VBigInt (n : Z).

(** The options [formatNumber] builds an [Intl.NumberFormat('en-US', _)]
    with ([currency: 'USD'] goes with the currency style). *)
Record NumberFormatOptions : Set := mkNumberFormat {
  nf_style : Style;
  maximumFractionDigits : nat;
  minimumFractionDigits : nat
}.

(** What [formatNumber] asks of the JavaScript host. *)
Record Host : Type := mkHost {
  (** [Number(s)] *)
  Number_ofString : string -> float;
  (** [Math.pow(10, e)] *)
  Math_pow10 : Z -> float;
  (** [new Intl.NumberFormat('en-US', o).format(v)] *)
  NumberFormat_format : NumberFormatOptions -> value -> string;
  (** [parseInt(num.toExponential().split('e')[1])] *)
  exponentOf : float -> float;
  (** [num.toFixed(digits)] *)
  toFixed : float -> float -> string
}.

(** ** Comparing a number with a bigint *)

(** A double against an integer, by their exact values: [None] for NaN. *)
Definition compare_float_Z (x : float) (n : Z) : option comparison :=
  match Prim2SF x with
  | S754_nan => None
  | S754_zero _ => Some (0 ?= n)
  | S754_infinity s => Some (if s then Lt else Gt)
  | S754_finite s m e =>
      let m := if s then Zneg m else Zpos m in
      Some (if 0 <=? e then m * 2 ^ e ?= n else m ?= n * 2 ^ (- e))
  end.

(** [x >= n] and [n >= x] for a number [x] and a bigint [n]. *)
Definition float_ge_Z (x : float) (n : Z) : bool :=
  match compare_float_Z x n with
  | Some Lt | None => false
  | Some _ => true
  end.

Definition Z_ge_float (n : Z) (x : float) : bool :=
  match compare_float_Z x n with
  | Some Gt | None => false
  | Some _ => true
  end.

(** [v >= n] for a bigint [n], and [v >= x] for a number [x]. *)
Definition ge_bigint (v : value) (n : Z) : bool :=
  match v with
  | VNumber x => float_ge_Z x n
  | VBigInt m => n <=? m
  end.

Definition ge_number (v : value) (x : float) : bool :=
  match v with
  | VNumber y => (x <=? y)%float
  | VBigInt m => Z_ge_float m x
  end.

(** [Number(n)] for a bigint [n]: the nearest double, a tie to even. *)
Definition Number_ofBigInt (n : Z) : float :=
  SF2Prim (binary_normalize prec emax n 0 false).

(** [Number(value)] *)
Definition Number (v : value) : float :=
  match v with
  | VNumber x => x
  | VBigInt n => Number_ofBigInt n
  end.

(** ** formatNumber *)

Definition DEFAULT_COMPACT_THRESHOLD : Z := 100000.

Record Tier : Set := mkTier {
  threshold : float;
  suffix : string;
  divisor : float
}.

Definition tiers : list Tier :=
  [ mkTier 1e12 "T" 1e12;
    mkTier 1e9 "B" 1e9;
    mkTier 1e6 "M" 1e6;
    mkTier 1e3 "K" 1e3 ]%string.

(** [a ?? b] *)
Definition orElse {A : Type} (a : option A) (b : A) : A :=
  match a with Some x => x | None => b end.

Section WithHost.

Variable host : Host.

(** [roundToFirstNonZeroDecimal(num)] *)
Definition roundToFirstNonZeroDecimal (num : float) : float :=
  if (num =? 0)%float then 0%float
  else
    let exponent := exponentOf host num in
    let decimalPlaces := abs exponent in
    Number_ofString host (toFixed host num decimalPlaces).

(** [value]: the amount, a string turned into a number. *)
Definition value_of (a : amount) : value :=
  match a with
  | AString s => VNumber (Number_ofString host s)
  | ANumber x => VNumber x
  | ABigInt n => VBigInt n
  end.

Definition absValue (v : value) : value :=
  match v with
  | VBigInt n => VBigInt (if n <? 0 then - n else n)
  | VNumber x => VNumber (abs x)
  end.

Definition shouldUseCompact (options : FormatOptions) (v : value) : bool :=
  match orElse (compact options) (compact_is false) with
  | auto => ge_bigint (absValue v) DEFAULT_COMPACT_THRESHOLD
  | compact_is b => b
  end.

Definition useRounding (options : FormatOptions) (v : value) : bool :=
  let numValue := Number v in
  orElse (adaptiveDecimals options) false
  && negb (numValue =? 0)%float
  && (abs numValue
        <? Math_pow10 host (- Z.of_nat (orElse (fractionDigits options) 2%nat)))%float.

Definition baseFormatter (options : FormatOptions) (v : value) : NumberFormatOptions :=
  let digits := orElse (fractionDigits options) 2%nat in
  mkNumberFormat (orElse (style options) decimal)
    (if useRounding options v then 20%nat else digits)
    (if useRounding options v then 0%nat else digits).

Definition compactFormatter (options : FormatOptions) : NumberFormatOptions :=
  let digits := orElse (fractionDigits options) 1%nat in
  mkNumberFormat (orElse (style options) decimal) digits digits.

(** The rendering without a suffix: lines 61 to 66 and 90 to 94. *)
Definition formatBase (options : FormatOptions) (v : value) : string :=
  if useRounding options v then
    NumberFormat_format host (baseFormatter options v)
      (VNumber (roundToFirstNonZeroDecimal (Number v)))
  else NumberFormat_format host (baseFormatter options v) v.

(** [tiers.find((t) => absValue >= t.threshold)] *)
Definition findTier (v : value) : option Tier :=
  find (fun t => ge_number (absValue v) (threshold t)) tiers.

Definition formatNumber (a : amount) (options : FormatOptions) : string :=
  let v := value_of a in
  if negb (shouldUseCompact options v) then formatBase options v
  else
    match findTier v with
    | Some tier =>
        let scaled := (Number v / divisor tier)%float in
        let formatted :=
          NumberFormat_format host (compactFormatter options) (VNumber scaled) in
        (formatted ++ suffix tier)%string
    | None => formatBase options v
    end.

End WithHost.

(** ** formatShortAddress *)

(** A string is the sequence of its code units, and a length or an index
    an integer. *)
Definition units (s : string) : list ascii := list_ascii_of_string s.

(** Where [slice] takes an index to: counted from the end when negative,
    and kept within the string. *)
Definition relative (len i : Z) : Z :=
  if i <? 0 then Z.max (len + i) 0 else Z.min i len.

(** [s.slice(start, end)], and [s.slice(start)] when [end] is [None]. *)
Definition slice (s : string) (start : Z) (end_ : option Z) : string :=
  let len := Z.of_nat (String.length s) in
  let from := relative len start in
  let to := match end_ with Some e => relative len e | None => len end in
  let span := Z.max (to - from) 0 in
  string_of_list_ascii (firstn (Z.to_nat span) (skipn (Z.to_nat from) (units s))).

(** [formatShortAddress(address, prefixLength = 5, suffixLength = 5)]: an
    [address] of [None] is [undefined] or [null], and a length of [None]
    an argument that is not given. *)
Definition formatShortAddress
    (address : option string) (prefixLength suffixLength : option Z) : string :=
  let prefixLength := orElse prefixLength 5 in
  let suffixLength := orElse suffixLength 5 in
  match address with
  | None => EmptyString
  | Some EmptyString => EmptyString
  | Some address =>
      if Z.of_nat (String.length address) <=? prefixLength + suffixLength
      then address
      else (slice address 0 (Some prefixLength) ++ "..."
              ++ slice address (- suffixLength) None)%string
  end.

End Format.

(* ================================================================== *)
(** * A host to run [formatNumber] on *)
(* ================================================================== *)

(** The operations of [Format.Host] computed from the exact value of a
    double, as ECMA-262 and ECMA-402 define them: a decimal rendering
    rounds the exact value, a tie away from zero; [toExponential()] prints
    the fewest digits that read back as the same double; [Number(s)] is
    the double nearest to the decimal [s] spells. A [RangeError] of
    [toFixed] (more than 100 digits) is not modelled. *)
Module ReferenceHost.

(** The magnitude of a finite double as a fraction [p / q]. *)
Definition magnitude (x : float) : option (Z * Z) :=
  match Prim2SF x with
  | S754_zero _ => Some (0, 1)
  | S754_finite _ m e =>
      Some (if 0 <=? e then (Zpos m * 2 ^ e, 1) else (Zpos m, 2 ^ (- e)))
  | _ => None
  end.

(** The double nearest to [p / q] ([0 <= p], [0 < q]), with a sign. *)
Definition ofRatio (negative : bool) (p q : Z) : float :=
  let x := SF2Prim (SFdiv prec emax (BigNumber.Z2SF p) (BigNumber.Z2SF q)) in
  if negative then (- x)%float else x.

(** [p / q * 10^s] as a fraction, [s] of any sign. *)
Definition shift10 (p q s : Z) : Z * Z :=
  if 0 <=? s then (p * 10 ^ s, q) else (p, q * 10 ^ (- s)).

(** The integer nearest to [p / q], a tie upwards. *)
Definition nearest (pq : Z * Z) : Z :=
  let (p, q) := pq in (2 * p + q) / (2 * q).

(** A comma before every group of three digits. *)
Fixpoint group_rev (l : list ascii) (k : nat) : list ascii :=
  match l with
  | [] => []
  | c :: r =>
      match k with
      | 3%nat => ","%char :: c :: group_rev r 1
      | _ => c :: group_rev r (S k)
      end
  end.

Definition grouped (s : string) : string :=
  string_of_list_ascii (rev (group_rev (rev (list_ascii_of_string s)) 0)).

(** The decimal rendering of [p / q] to at most [dmax] and at least [dmin]
    fraction digits. *)
Definition fixed (grouping : bool) (dmax dmin : nat) (pq : Z * Z) : string :=
  let (p, q) := pq in
  let n := nearest (shift10 p q (Z.of_nat dmax)) in
  let ip := Digits.digits (n / 10 ^ Z.of_nat dmax) in
  let fp := Digits.strip dmin (Digits.padded dmax (n mod 10 ^ Z.of_nat dmax)) in
  ((if grouping then grouped ip else ip) ++ Digits.point fp)%string.

Definition infinity_sign : string :=
  String (ascii_of_nat 226) (String (ascii_of_nat 136) (String (ascii_of_nat 158) EmptyString)).

(** [new Intl.NumberFormat('en-US', o).format(v)] *)
Definition NumberFormat_format (o : Format.NumberFormatOptions) (v : Format.value)
  : string :=
  let unit :=
    match Format.nf_style o with
    | Format.currency => "$"%string
    | Format.decimal => EmptyString
    end in
  let render (negative : bool) (body : string) :=
    ((if negative then "-" else "") ++ unit ++ body)%string in
  let dmax := Format.maximumFractionDigits o in
  let dmin := Format.minimumFractionDigits o in
  match v with
  | Format.VBigInt n => render (n <? 0) (fixed true dmax dmin (Z.abs n, 1))
  | Format.VNumber x =>
      match Prim2SF x, magnitude x with
      | S754_nan, _ => "NaN"%string
      | S754_infinity s, _ => render s infinity_sign
      | _, Some pq => render (get_sign x) (fixed true dmax dmin pq)
      | _, None => "NaN"%string
      end
  end.

(** [floor(log10(p / q))] for [0 < p] and [0 < q]. *)
Fixpoint log10_up (fuel : nat) (p q : Z) (j : Z) : Z :=
  match fuel with
  | O => j
  | S fuel => if q * 10 <=? p then log10_up fuel p (q * 10) (j + 1) else j
  end.

Fixpoint log10_down (fuel : nat) (p q : Z) (j : Z) : Z :=
  match fuel with
  | O => j
  | S fuel => if p <? q then log10_down fuel (p * 10) q (j - 1) else j
  end.

Definition log10 (p q : Z) : Z :=
  if q <=? p then log10_up 400 p q 0 else log10_down 400 p q 0.

(** The shortest decimal [n * 10^s] that reads back as [x = p / q]: with
    [k] digits, the two neighbours of [x] are tried, the nearer first. *)
Definition candidate (x : float) (n s : Z) : bool :=
  let (p, q) := shift10 n 1 s in (ofRatio false p q =? abs x)%float.

Fixpoint shortest (fuel : nat) (x : float) (p q e0 k : Z) : Z * Z :=
  let s := e0 - k + 1 in
  let (p', q') := shift10 p q (- s) in
  let lo := p' / q' in
  let up_nearer := q' <? 2 * (p' mod q') in
  let first := if up_nearer then lo + 1 else lo in
  let second := if up_nearer then lo else lo + 1 in
  match fuel with
  | O => (first, s)
  | S fuel =>
      if candidate x first s then (first, s)
      else if candidate x second s then (second, s)
      else shortest fuel x p q e0 (k + 1)
  end.

Definition shortest_digits (x : float) : option (Z * Z) :=
  match magnitude x with
  | Some (p, q) =>
      if p =? 0 then Some (0, 0)
      else Some (shortest 17 x p q (log10 p q) 1)
  | None => None
  end.

(** The exponent [toExponential()] prints. *)
Definition exponent10 (ns : Z * Z) : Z :=
  let (n, s) := ns in
  if n =? 0 then 0 else s + log10 n 1.

Definition exponentOf (x : float) : float :=
  match shortest_digits x with
  | Some ns => Format.Number_ofBigInt (exponent10 ns)
  | None => nan
  end.

(** [ToIntegerOrInfinity(x)], for the finite and NaN. *)
Definition toInteger (x : float) : Z :=
  match magnitude x with
  | Some (p, q) => if get_sign x then - (p / q) else p / q
  | None => 0
  end.

(** The digits of a positive integer without its trailing zeros. *)
Fixpoint significand (fuel : nat) (n : Z) : Z :=
  match fuel with
  | O => n
  | S fuel => if (n mod 10 =? 0) && negb (n =? 0) then significand fuel (n / 10) else n
  end.

(** [String(x)] for [1e21 <= |x|]: "d.ddde+NN". *)
Definition exponential (ns : Z * Z) : string :=
  let d := Digits.digits (significand 400 (fst ns)) in
  match d with
  | EmptyString => EmptyString
  | String c r =>
      (String c (Digits.point r) ++ "e+" ++ Digits.digits (exponent10 ns))%string
  end.

(** [x.toFixed(digits)] *)
Definition toFixed (x digits : float) : string :=
  let f := Z.to_nat (toInteger digits) in
  match Prim2SF x, magnitude x, shortest_digits x with
  | S754_nan, _, _ => "NaN"%string
  | S754_infinity s, _, _ => ((if s then "-" else "") ++ "Infinity")%string
  | _, Some (p, q), Some ns =>
      let body :=
        if q * 10 ^ 21 <=? p then exponential ns else fixed false f f (p, q) in
      ((if (x <? 0)%float then "-" else "") ++ body)%string
  | _, _, _ => "NaN"%string
  end.

(** [Number(s)] for the text of a decimal: an optional sign, digits, an
    optional fraction and an optional exponent. *)
Fixpoint split_at (c : ascii) (s : string) : string * option string :=
  match s with
  | EmptyString => (EmptyString, None)
  | String a r =>
      if Ascii.eqb a c then (EmptyString, Some r)
      else let (h, t) := split_at c r in (String a h, t)
  end.

Definition natural (s : string) : option Z :=
  match s with
  | EmptyString => None
  | _ => option_map Z.of_uint (NilEmpty.uint_of_string s)
  end.

Definition signed (s : string) : option Z :=
  match s with
  | String "-" r => option_map Z.opp (natural r)
  | String "+" r => natural r
  | _ => natural s
  end.

Definition Number_ofString (s : string) : float :=
  let (negative, body) :=
    match s with
    | String "-" r => (true, r)
    | String "+" r => (false, r)
    | _ => (false, s)
    end in
  if String.eqb body "Infinity" then (if negative then neg_infinity else infinity)
  else if String.eqb s "" then 0%float
  else
    let (mantissa, e) := split_at "e" body in
    let (ip, fp) := split_at "." mantissa in
    let fp := match fp with Some f => f | None => EmptyString end in
    let e := match e with Some e => signed e | None => Some 0 end in
    match natural (ip ++ fp), e with
    | Some n, Some e =>
        let (p, q) := shift10 n 1 (e - Z.of_nat (String.length fp)) in
        ofRatio negative p q
    | _, _ => nan
    end.

(** [Math.pow(10, e)] *)
Definition Math_pow10 (e : Z) : float :=
  let (p, q) := shift10 1 1 e in ofRatio false p q.

Definition host : Format.Host :=
  Format.mkHost Number_ofString Math_pow10 NumberFormat_format exponentOf toFixed.

Definition formatNumber := Format.formatNumber host.
Definition roundToFirstNonZeroDecimal := Format.roundToFirstNonZeroDecimal host.

End ReferenceHost.

(* ================================================================== *)
(** * asset-amount.ts: [format] *)
(* ================================================================== *)

(** The method of [AssetAmount] that renders through [formatNumber]. The
    [RangeError] of [Intl.NumberFormat] on a number of fraction digits out
    of its range is not modelled. *)
Module AssetAmountFormat.

(** The [options] of [format]; an absent field is [None]. *)
Record Options : Set := mkOptions {
  showSymbol : option bool;
  symbol : option string;
  decimalPlaces : option nat;
  showMicrounits : option bool;
  trimZeroes : option bool
}.

(** [s.includes('.')] *)
Definition includes_point (s : string) : bool :=
  existsb (Ascii.eqb ".") (Format.units s).

(** [s.replace(/\.?0+$/, '')]. A match ends the string and is zeros, one
    at least, after at most one point: the leftmost match, the one that is
    replaced, is the whole run of zeros the string ends with, and the
    point before the run where there is one. *)
Fixpoint drop_zeros (l : list ascii) : list ascii :=
  match l with
  | c :: r => if Ascii.eqb c "0" then drop_zeros r else l
  | [] => []
  end.

Definition drop_point (l : list ascii) : list ascii :=
  match l with
  | c :: r => if Ascii.eqb c "." then r else l
  | [] => []
  end.

Definition replace_trailing_zeros (s : string) : string :=
  match rev (Format.units s) with
  | c :: r =>
      if Ascii.eqb c "0"
      then string_of_list_ascii (rev (drop_point (drop_zeros r)))
      else s
  | [] => s
  end.

(** [a || b || ''] on strings that may be absent: the first that is
    neither absent nor empty. *)
Definition or_string (a b : option string) : string :=
  match a with
  | Some (String c r) => String c r
  | _ =>
      match b with
      | Some s => s
      | None => EmptyString
      end
  end.

Section WithHost.

Variable host : Format.Host.
Variable sigma : store.

(** [format(options = {})] *)
Definition format (this : AssetAmount.t) (options : Options) : result string :=
  let showSymbol := Format.orElse (showSymbol options) false in
  let symbol := symbol options in
  let decimalPlaces :=
    Format.orElse (decimalPlaces options) (AssetAmount.decimals sigma this) in
  let showMicrounits := Format.orElse (showMicrounits options) false in
  let trimZeroes := Format.orElse (trimZeroes options) true in
  let formattedAmount :=
    Format.formatNumber host (Format.ANumber (AssetAmount.standardUnits sigma this))
      (Format.mkOptions None None (Some decimalPlaces) (Some trimZeroes)) in
  let formattedWithZeroHandling :=
    if trimZeroes && includes_point formattedAmount
    then replace_trailing_zeros formattedAmount
    else formattedAmount in
  let result :=
    if showSymbol then
      let symbolToUse :=
        or_string symbol (AssetInfo.unitName (sigma (AssetAmount._assetInfo this))) in
      match symbolToUse with
      | EmptyString => formattedWithZeroHandling
      | _ => (formattedWithZeroHandling ++ " " ++ symbolToUse)%string
      end
    else formattedWithZeroHandling in
  if showMicrounits then
    n <- AssetAmount.microUnits this ;;
    let formattedMicrounits :=
      Format.formatNumber host (Format.ABigInt n)
        (Format.mkOptions None None (Some 0%nat) (Some true)) in
    Ok (result ++ " (" ++ formattedMicrounits ++ " microunits)")%string
  else Ok result.

End WithHost.

End AssetAmountFormat.

(* ================================================================== *)
(** * What the properties are stated with *)
(* ================================================================== *)

(** The integer part of a rational: rounding towards zero. *)
Definition truncate (q : Q) : Z :=
  if Qle_bool 0 q then Qfloor q else Qceiling q.

(** The decimal is an integer, whatever its scale. *)
Definition is_integer (x : BigNumber.t) : bool :=
  BigNumber.coeff x mod BigNumber.pow10 (BigNumber.scale x) =? 0.

(** The integer of microunits [round] keeps when it drops digits: the
    raw value over [10^k], rounded, times [10^k]. *)
Definition rounded_units (x : BigNumber.t) (k : nat) (rm : BigNumber.RoundingMode) : Z :=
  BigNumber.round_quotient rm
    (BigNumber.coeff (BigNumber.quotient x (BigNumber.ofZ (10 ^ Z.of_nat k))))
    (BigNumber.pow10 20)
  * 10 ^ Z.of_nat k.

(** The amount holds the integer [n], and its integer accessor returns it
    unless [n] has more than 21 digits. *)
Definition holds_integer (a : AssetAmount.t) (n : Z) : Prop :=
  AssetAmount._microUnits a = BigNumber.ofZ n
  /\ AssetAmount.microUnits a
     = (if Z.abs n <? 10 ^ 21 then Ok n
        else Throw (SyntaxError (BigNumber.exponential (BigNumber.ofZ n)))).

(** [10^decimals], the number of microunits in a standard unit. *)
Definition unit_of (decimals : nat) : Q := inject_Z (10 ^ Z.of_nat decimals).

(** The asset of the test suite, and the same with 8 decimals. *)
Definition XYZ : AssetInfo.t :=
  AssetInfo.mk (IdNumber 123) 6 (Some "XYZ"%string) (Some "XYZ Token"%string).

Definition XYZ8 : AssetInfo.t :=
  AssetInfo.mk (IdNumber 123) 8 (Some "XYZ"%string) (Some "XYZ Token"%string).

(** Another asset, [{ id: 456, decimals: 6 }]. *)
Definition other_asset : AssetInfo.t := AssetInfo.mk (IdNumber 456) 6 None None.

(** The references the caller holds the three by, and the store. *)
Definition xyz : ref := 0%nat.
Definition other : ref := 1%nat.
Definition xyz8 : ref := 2%nat.

Definition heap : store :=
  fun r =>
    match r with
    | 0%nat => XYZ
    | 1%nat => other_asset
    | _ => XYZ8
    end.

(** Decimal literals: [dec c s] is [c / 10^s]. *)
Definition dec (c : Z) (s : nat) : BigNumber.t := BigNumber.mk c s.

(** [AssetAmount.MicroUnits(XYZ, "1.5")], ["0.5"], [1n], [3n]. *)
Definition one_and_a_half : AssetAmount.t :=
  AssetAmount.MicroUnits heap xyz (AssetAmount.OfDecimal (dec 15 1)).
Definition a_half : AssetAmount.t :=
  AssetAmount.MicroUnits heap xyz (AssetAmount.OfDecimal (dec 5 1)).
Definition one : AssetAmount.t :=
  AssetAmount.MicroUnits heap xyz (AssetAmount.OfBigInt 1).
Definition three : AssetAmount.t :=
  AssetAmount.MicroUnits heap xyz (AssetAmount.OfBigInt 3).

(** [formatNumber]'s options: none given, and [{ compact: true }]. *)
Definition no_options : Format.FormatOptions :=
  Format.mkOptions None None None None.
Definition compact_true : Format.FormatOptions :=
  Format.mkOptions None (Some (Format.compact_is true)) None None.

(** The tier [formatNumber] renders with, if it renders compactly. *)
Definition compacted (options : Format.FormatOptions) (v : Format.value)
  : option Format.Tier :=
  if Format.shouldUseCompact options v then Format.findTier v else None.

(** How the raw value of an amount compares with an integer. *)
Definition raw_compare (this : AssetAmount.t) (n : Z) : comparison :=
  (BigNumber.toQ (AssetAmount._microUnits this) ?= inject_Z n)%Q.

(** [R] is what the rounding mode makes of [n] among the multiples of
    [unit]: a multiple less than one unit away, on the side the mode
    names, or the nearest one, with a tie settled as the mode names. *)
Definition rounds_to (rm : BigNumber.RoundingMode) (n unit R : Z) : Prop :=
  R mod unit = 0
  /\ Z.abs (R - n) < unit
  /\ match rm with
     | BigNumber.ROUND_UP => Z.abs n <= Z.abs R
     | BigNumber.ROUND_DOWN => Z.abs R <= Z.abs n
     | BigNumber.ROUND_CEIL => n <= R
     | BigNumber.ROUND_FLOOR => R <= n
     | BigNumber.ROUND_HALF_UP =>
         2 * Z.abs (R - n) <= unit /\ (2 * Z.abs (R - n) = unit -> Z.abs n < Z.abs R)
     | BigNumber.ROUND_HALF_DOWN =>
         2 * Z.abs (R - n) <= unit /\ (2 * Z.abs (R - n) = unit -> Z.abs R < Z.abs n)
     | BigNumber.ROUND_HALF_EVEN =>
         2 * Z.abs (R - n) <= unit /\ (2 * Z.abs (R - n) = unit -> Z.even (R / unit) = true)
     | BigNumber.ROUND_HALF_CEIL =>
         2 * Z.abs (R - n) <= unit /\ (2 * Z.abs (R - n) = unit -> n < R)
     | BigNumber.ROUND_HALF_FLOOR =>
         2 * Z.abs (R - n) <= unit /\ (2 * Z.abs (R - n) = unit -> R < n)
     end.

(** The options of [format]: none given, and given ones with
    [showMicrounits] left out. *)
Definition default_options : AssetAmountFormat.Options :=
  AssetAmountFormat.mkOptions None None None None None.

Definition without_microunits (o : AssetAmountFormat.Options) : AssetAmountFormat.Options :=
  AssetAmountFormat.mkOptions (AssetAmountFormat.showSymbol o) (AssetAmountFormat.symbol o)
    (AssetAmountFormat.decimalPlaces o) None (AssetAmountFormat.trimZeroes o).

(** The store in which the second asset has the id [123n], a bigint. *)
Definition bigint_heap : store :=
  mutate heap other (AssetInfo.mk (IdBigInt 123) 6 None None).

(** What [formatNumber] is given is zero, or a number that is NaN. *)
Definition zero_or_NaN (v : Format.value) : Prop :=
  match v with
  | Format.VBigInt n => n = 0
  | Format.VNumber x => (x =? 0)%float = true \/ Prim2SF x = S754_nan
  end.

(** The address of the test suite. *)
Definition an_address : string :=
  "2UEQTE5QDNXPI7M3TU44G6SYKLFWLPQO7EBZM7K7MHMQQMFI4QJPLHQFHM"%string.

(* ================================================================== *)
(** * bignumber.js: facts *)
(* ================================================================== *)

Module BigNumberFacts.
Import BigNumber.

Lemma pow10_pos (n : nat) : 0 < pow10 n.
Proof. unfold pow10. apply Z.pow_pos_nonneg; lia. Qed.

Lemma pow10_0 : pow10 0 = 1.
Proof. reflexivity. Qed.

Lemma pow10_add (n m : nat) : pow10 (n + m) = pow10 n * pow10 m.
Proof. unfold pow10. rewrite Nat2Z.inj_add, Z.pow_add_r; lia. Qed.

(** A quotient that is exact is left alone by every rounding mode. *)
Lemma round_quotient_exact (rm : RoundingMode) (n d : Z) :
  0 < d -> round_quotient rm (n * d) d = n.
Proof.
  intros Hd. unfold round_quotient.
  rewrite Z.mod_mul by lia. simpl. apply Z.div_mul. lia.
Qed.

(** [ROUND_DOWN] is the truncating division. *)
Lemma round_down_quot (n d : Z) :
  0 < d -> round_quotient ROUND_DOWN n d = n ÷ d.
Proof.
  intros Hd. unfold round_quotient.
  pose proof (Z.div_mod n d ltac:(lia)) as E.
  pose proof (Z.mod_pos_bound n d Hd) as B.
  destruct (Z.eqb_spec (n mod d) 0) as [R0 | Rn].
  - destruct (Z.le_gt_cases 0 n) as [Hn | Hn].
    + now rewrite Z.quot_div_nonneg by lia.
    + replace n with (- (- n)) at 2 by lia.
      rewrite Z.quot_opp_l, Z.quot_div_nonneg by lia.
      assert (- n = d * - (n / d) + 0) as E' by lia.
      rewrite <- (Z.div_unique (- n) d (- (n / d)) 0); lia.
  - destruct (Z.leb_spec 0 n) as [Hn | Hn].
    + now rewrite Z.quot_div_nonneg by lia.
    + replace n with (- (- n)) at 2 by lia.
      rewrite Z.quot_opp_l, Z.quot_div_nonneg by lia.
      assert (- n = d * (- (n / d) - 1) + (d - n mod d)) as E' by lia.
      rewrite <- (Z.div_unique (- n) d (- (n / d) - 1) (d - n mod d)); lia.
Qed.

(** The truncating division is [truncate] on the rational quotient. *)
Lemma truncate_quot (n d : Z) :
  0 < d -> truncate (inject_Z n / inject_Z d) = n ÷ d.
Proof.
  destruct d as [ | p | p]; try lia. intros _.
  unfold truncate, Qle_bool, Qfloor, Qceiling, Qdiv, Qinv, Qmult, Qopp, inject_Z.
  cbn [Qnum Qden].
  rewrite Z.mul_1_r, Pos.mul_1_l.
  destruct (Z.leb_spec (0 * Z.pos p) (n * 1)) as [Hn | Hn]; rewrite Z.mul_1_r in *.
  - now rewrite Z.quot_div_nonneg by lia.
  - replace n with (- (- n)) at 2 by lia.
    now rewrite Z.quot_opp_l, Z.quot_div_nonneg by lia.
Qed.

(** ** What the operations denote *)

Lemma truncate_toQ (x : t) : truncate (toQ x) = coeff x ÷ pow10 (scale x).
Proof. apply truncate_quot, pow10_pos. Qed.

Lemma toQ_Qmake (x : t) : (toQ x == coeff x # Z.to_pos (pow10 (scale x)))%Q.
Proof.
  unfold toQ. rewrite Qmake_Qdiv, Z2Pos.id by apply pow10_pos. reflexivity.
Qed.

Lemma toQ_ofZ (z : Z) : (toQ (ofZ z) == inject_Z z)%Q.
Proof. unfold toQ, ofZ. cbn [coeff scale]. change (pow10 0) with 1. field. Qed.

Lemma pow10_max_l (n m : nat) :
  pow10 (Nat.max n m) = pow10 n * pow10 (Nat.max n m - n).
Proof. rewrite <- pow10_add. f_equal. lia. Qed.

Lemma pow10_max_r (n m : nat) :
  pow10 (Nat.max n m) = pow10 m * pow10 (Nat.max n m - m).
Proof. rewrite <- pow10_add. f_equal. lia. Qed.

(** [plus], [minus] and [multipliedBy] are exact. *)
Lemma toQ_plus (x y : t) : (toQ (plus x y) == toQ x + toQ y)%Q.
Proof.
  rewrite !toQ_Qmake. unfold plus, Qeq, Qplus. cbn [Qnum Qden coeff scale].
  rewrite Pos2Z.inj_mul, !Z2Pos.id by apply pow10_pos.
  pose proof (pow10_max_l (scale x) (scale y)) as L.
  pose proof (pow10_max_r (scale x) (scale y)) as R.
  set (a := pow10 (_ - scale x)) in *. set (b := pow10 (_ - scale y)) in *.
  set (P := pow10 (Nat.max _ _)) in *.
  transitivity (coeff x * pow10 (scale y) * P + coeff y * pow10 (scale x) * P);
    [ | ring].
  rewrite L at 1. rewrite R. ring.
Qed.

Lemma toQ_minus (x y : t) : (toQ (minus x y) == toQ x - toQ y)%Q.
Proof.
  rewrite !toQ_Qmake. unfold minus, Qeq, Qminus, Qplus, Qopp.
  cbn [Qnum Qden coeff scale].
  rewrite Pos2Z.inj_mul, !Z2Pos.id by apply pow10_pos.
  pose proof (pow10_max_l (scale x) (scale y)) as L.
  pose proof (pow10_max_r (scale x) (scale y)) as R.
  set (a := pow10 (_ - scale x)) in *. set (b := pow10 (_ - scale y)) in *.
  set (P := pow10 (Nat.max _ _)) in *.
  transitivity (coeff x * pow10 (scale y) * P + - coeff y * pow10 (scale x) * P);
    [ | ring].
  rewrite L at 1. rewrite R. ring.
Qed.

Lemma toQ_multipliedBy (x y : t) : (toQ (multipliedBy x y) == toQ x * toQ y)%Q.
Proof.
  rewrite !toQ_Qmake. unfold multipliedBy, Qeq, Qmult. cbn [Qnum Qden coeff scale].
  rewrite Pos2Z.inj_mul, !Z2Pos.id by apply pow10_pos.
  rewrite pow10_add. ring.
Qed.

(** [isEqualTo] is the equality of the values. *)
Lemma isEqualTo_iff (x y : t) : isEqualTo x y = true <-> (toQ x == toQ y)%Q.
Proof.
  rewrite !toQ_Qmake. unfold isEqualTo, compare, Qeq. cbn [Qnum Qden].
  rewrite !Z2Pos.id by apply pow10_pos.
  destruct (Z.compare_spec (coeff x * pow10 (scale y)) (coeff y * pow10 (scale x)));
    split; intros; try discriminate; try reflexivity; lia.
Qed.

End BigNumberFacts.

(* ================================================================== *)
(** * Text and the integer accessor *)
(* ================================================================== *)

Module TextFacts.
Import BigNumber BigNumberFacts.

(** The constructor reads back what [toString] wrote. *)
Lemma ofString_toString (x : t) : ofString (toString x) = x.
Proof. unfold toString. now destruct (_ || _). Qed.

(** An integer prints positionally up to 21 digits, and with an exponent
    from [10^21] on. *)
Lemma toString_ofZ (n : Z) :
  toString (ofZ n)
  = if Z.abs n <? 10 ^ 21 then Positional (ofZ n) else Exponential (ofZ n).
Proof.
  unfold toString, exponent_ge_21, exponent_le_m7, isZero, ofZ. cbn [coeff scale].
  rewrite Nat.add_0_r.
  change (pow10 21) with (10 ^ 21). change (pow10 6) with 1000000.
  change (pow10 0) with 1.
  destruct (Z.ltb_spec (Z.abs n) (10 ^ 21)) as [L | G].
  - destruct (Z.leb_spec (10 ^ 21) (Z.abs n)); [lia | ].
    destruct (Z.eqb_spec n 0); [reflexivity | ].
    destruct (Z.ltb_spec (Z.abs n * 1000000) 1); [lia | reflexivity].
  - destruct (Z.leb_spec (10 ^ 21) (Z.abs n)); [reflexivity | lia].
Qed.

(** A text with an "e" in it is no integer to [BigInt]. *)
Lemma uint_of_string_e (s1 s2 : string) :
  NilEmpty.uint_of_string (s1 ++ String "e" s2)%string = None.
Proof.
  induction s1 as [ | a s1 IH]; cbn.
  - now destruct (NilEmpty.uint_of_string s2).
  - now rewrite IH.
Qed.

Lemma int_of_string_e (s1 s2 : string) :
  NilZero.int_of_string (s1 ++ String "e" s2)%string = None.
Proof.
  destruct s1 as [ | a s1]; cbn.
  - now destruct (NilEmpty.uint_of_string s2).
  - destruct (Ascii.eqb a "-").
    + unfold NilZero.uint_of_string.
      destruct (s1 ++ String "e" s2)%string eqn:E; [reflexivity | ].
      now rewrite <- E, uint_of_string_e.
    + now rewrite uint_of_string_e.
Qed.

Lemma append_empty (s : string) : (s ++ EmptyString)%string = s.
Proof. induction s as [ | a s IH]; cbn; [reflexivity | now rewrite IH]. Qed.

(** An integer of scale 0 prints as its digits. *)
Lemma positional_ofZ (n : Z) :
  positional (ofZ n) = NilZero.string_of_int (Z.to_int n).
Proof.
  unfold positional, sign, ofZ. cbn [coeff scale]. change (pow10 0) with 1.
  rewrite Z.mod_1_r, Z.div_1_r.
  change (Digits.point _) with EmptyString. rewrite append_empty.
  now destruct n.
Qed.

Lemma BigInt_Positional_ofZ (n : Z) : BigInt (Positional (ofZ n)) = Ok n.
Proof.
  unfold BigInt. cbn [chars]. rewrite positional_ofZ, NilZero.isi.
  - now rewrite DecimalZ.of_to.
  - destruct n; cbn; intros [= E]; now apply DecimalPos.Unsigned.to_uint_nonnil in E.
  - destruct n; cbn; intros [= E]; now apply DecimalPos.Unsigned.to_uint_nonnil in E.
Qed.

Lemma BigInt_Exponential (x : t) :
  BigInt (Exponential x) = Throw (SyntaxError (exponential x)).
Proof. unfold BigInt. cbn [chars]. unfold exponential. now rewrite int_of_string_e. Qed.

(** [BigInt] of the text of an integer: the integer, unless the text has
    an exponent. *)
Lemma BigInt_toString_ofZ (n : Z) :
  BigInt (toString (ofZ n))
  = if Z.abs n <? 10 ^ 21 then Ok n else Throw (SyntaxError (exponential (ofZ n))).
Proof.
  rewrite toString_ofZ. destruct (Z.abs n <? 10 ^ 21).
  - apply BigInt_Positional_ofZ.
  - apply BigInt_Exponential.
Qed.

(** The text of a [bigint] always reads back. *)
Lemma ofString_bigint (n : Z) : ofString (bigint_toString n) = ofZ n.
Proof. reflexivity. Qed.

End TextFacts.

(* ================================================================== *)
(** * asset-amount.ts: facts *)
(* ================================================================== *)

Module AssetAmountFacts.
Import BigNumberFacts TextFacts AssetAmount.

Lemma AssetId_eqb_spec (a b : AssetId) : reflect (a = b) (AssetId_eqb a b).
Proof.
  destruct a as [n | n], b as [m | m]; cbn;
    try (destruct (Z.eqb_spec n m); constructor; congruence);
    constructor; discriminate.
Qed.

(** An amount built from microunits holds the value it was given. *)
Lemma MicroUnits_OfDecimal (sigma : store) (r : ref) (x : BigNumber.t) :
  MicroUnits sigma r (OfDecimal x) = mk x r.
Proof. unfold MicroUnits, new, amount_toString. now rewrite ofString_toString. Qed.

Lemma MicroUnits_OfBigInt (sigma : store) (r : ref) (n : Z) :
  MicroUnits sigma r (OfBigInt n) = mk (BigNumber.ofZ n) r.
Proof. reflexivity. Qed.

(** The integer accessor: the raw value truncated, as long as it prints
    without an exponent. *)
Lemma microUnits_spec (this : t) :
  microUnits this
  = let n := BigNumber.coeff (_microUnits this)
               ÷ BigNumber.pow10 (BigNumber.scale (_microUnits this)) in
    if Z.abs n <? 10 ^ 21 then Ok n
    else Throw (SyntaxError (BigNumber.exponential (BigNumber.ofZ n))).
Proof.
  unfold microUnits, BigNumber.integerValue.
  rewrite round_down_quot by apply pow10_pos.
  apply BigInt_toString_ofZ.
Qed.

Lemma operand_spec (other : t) :
  operand other
  = let n := BigNumber.coeff (_microUnits other)
               ÷ BigNumber.pow10 (BigNumber.scale (_microUnits other)) in
    if Z.abs n <? 10 ^ 21 then Ok (BigNumber.ofZ n)
    else Throw (SyntaxError (BigNumber.exponential (BigNumber.ofZ n))).
Proof.
  unfold operand. rewrite microUnits_spec. cbv zeta.
  now destruct (_ <? _).
Qed.

(** The two checks pass exactly on amounts of one id and one scale. *)
Lemma same_asset_spec (sigma : store) (verb : string) (this other : t) :
  same_asset sigma verb this other
  = if AssetId_eqb (assetId sigma this) (assetId sigma other) then
      if Nat.eqb (decimals sigma this) (decimals sigma other) then Ok tt
      else Throw (DecimalsMismatch verb)
    else Throw (AssetIdentityMismatch verb (assetId sigma this) (assetId sigma other)).
Proof.
  unfold same_asset.
  destruct (AssetId_eqb _ _); [ | reflexivity].
  now destruct (Nat.eqb _ _).
Qed.

(** The raw value [fromStandardUnits] stores. *)
Lemma StandardUnits_raw (sigma : store) (r : ref) (x : BigNumber.t) :
  _microUnits (StandardUnits sigma r x)
  = BigNumber.ofZ
      ((BigNumber.coeff x * 10 ^ Z.of_nat (AssetInfo.decimals (sigma r)))
         ÷ BigNumber.pow10 (BigNumber.scale x)).
Proof.
  unfold StandardUnits, new, BigNumber.integerValue, BigNumber.multipliedBy,
    BigNumber.pow, BigNumber.ofZ.
  cbn [_microUnits BigNumber.coeff BigNumber.scale].
  rewrite Nat.mul_0_l, Nat.add_0_r.
  now rewrite round_down_quot by apply pow10_pos.
Qed.

Lemma StandardUnits_truncate (sigma : store) (r : ref) (x : BigNumber.t) :
  (BigNumber.coeff x * 10 ^ Z.of_nat (AssetInfo.decimals (sigma r)))
    ÷ BigNumber.pow10 (BigNumber.scale x)
  = truncate (BigNumber.toQ x * unit_of (AssetInfo.decimals (sigma r))).
Proof.
  rewrite <- truncate_quot by apply pow10_pos.
  unfold truncate, BigNumber.toQ, unit_of.
  set (u := 10 ^ Z.of_nat _).
  assert (inject_Z (BigNumber.coeff x * u) / inject_Z (BigNumber.pow10 (BigNumber.scale x))
          == inject_Z (BigNumber.coeff x) / inject_Z (BigNumber.pow10 (BigNumber.scale x))
             * inject_Z u)%Q as E.
  { rewrite inject_Z_mult. unfold Qdiv. ring. }
  now rewrite (Qleb_comp _ _ (Qeq_refl 0) _ _ E), (Qfloor_comp _ _ E),
    (Qceiling_comp _ _ E).
Qed.

(** An amount built on an integer holds it. *)
Lemma holds_integer_mk (n : Z) (r : ref) : holds_integer (mk (BigNumber.ofZ n) r) n.
Proof.
  split; [reflexivity | ].
  rewrite microUnits_spec. cbv zeta.
  cbn [_microUnits BigNumber.coeff BigNumber.scale BigNumber.ofZ].
  change (BigNumber.pow10 0) with 1. now rewrite Z.quot_1_r.
Qed.

Lemma StandardUnits_holds_integer (sigma : store) (r : ref) (x : BigNumber.t) :
  holds_integer (StandardUnits sigma r x)
    (truncate (BigNumber.toQ x * unit_of (AssetInfo.decimals (sigma r)))).
Proof.
  rewrite <- StandardUnits_truncate.
  pose proof (StandardUnits_raw sigma r x) as E.
  destruct (StandardUnits sigma r x) as [raw i]. cbn [_microUnits] in E. subst raw.
  apply holds_integer_mk.
Qed.

(** An exact quotient comes out of [dividedBy] unrounded. *)
Lemma quotient_exact (q c : Z) :
  0 < c ->
  BigNumber.quotient (BigNumber.ofZ (q * c)) (BigNumber.ofZ c)
  = BigNumber.mk (q * BigNumber.pow10 20) 20.
Proof.
  intros Hc. unfold BigNumber.quotient, BigNumber.ofZ.
  cbn [BigNumber.coeff BigNumber.scale].
  change (BigNumber.pow10 0) with 1. change (0 + BigNumber.DECIMAL_PLACES)%nat with 20%nat.
  destruct (Z.ltb_spec (c * 1) 0); [lia | ].
  replace (q * c * BigNumber.pow10 20) with (q * BigNumber.pow10 20 * (c * 1)) by ring.
  rewrite round_quotient_exact by lia. reflexivity.
Qed.

Lemma round_spec (sigma : store) (this : t) (d : Z) (rm : BigNumber.RoundingMode) :
  round sigma this d rm
  = if Z.of_nat (decimals sigma this) <=? d then this
    else mk (BigNumber.ofZ
               (rounded_units (_microUnits this)
                  (Z.to_nat (Z.of_nat (decimals sigma this) - d)) rm))
            (_assetInfo this).
Proof.
  unfold round. destruct (_ <=? _); [reflexivity | ].
  now rewrite MicroUnits_OfDecimal.
Qed.

Lemma rounded_units_idempotent (x : BigNumber.t) (k : nat) (rm : BigNumber.RoundingMode) :
  rounded_units (BigNumber.ofZ (rounded_units x k rm)) k rm = rounded_units x k rm.
Proof.
  unfold rounded_units.
  rewrite quotient_exact by (apply Z.pow_pos_nonneg; lia).
  cbn [BigNumber.coeff].
  now rewrite round_quotient_exact by apply pow10_pos.
Qed.

End AssetAmountFacts.

(* ================================================================== *)
(** * Doubles: facts *)
(* ================================================================== *)

Module FloatFacts.
Import Format.

(** The order of doubles is transitive. *)
Lemma SFleb_trans (a b c : spec_float) :
  SFleb a b = true -> SFleb b c = true -> SFleb a c = true.
Proof.
  unfold SFleb, SFcompare.
  destruct a as [sa | sa | | sa ma ea], b as [sb | sb | | sb mb eb],
    c as [sc | sc | | sc mc ec];
    repeat match goal with s : bool |- _ => destruct s end;
    try discriminate; try reflexivity;
    change (Pos.compare_cont Eq) with Pos.compare;
    destruct (Z.compare_spec ea eb), (Z.compare_spec eb ec), (Z.compare_spec ea ec);
    try lia; try discriminate; try reflexivity; subst;
    destruct (Pos.compare_spec ma mb), (Pos.compare_spec mb mc), (Pos.compare_spec ma mc);
    cbn; try lia; try discriminate; try reflexivity.
Qed.

Lemma leb_trans (x y z : float) :
  (x <=? y)%float = true -> (y <=? z)%float = true -> (x <=? z)%float = true.
Proof. rewrite !leb_spec. apply SFleb_trans. Qed.

Lemma digits2_pos_bound (m : positive) : Zpos m < 2 ^ Zpos (digits2_pos m).
Proof.
  induction m as [m IH | m IH | ]; cbn [digits2_pos]; [ | | reflexivity];
    rewrite Pos2Z.inj_succ, Z.pow_succ_r by lia; lia.
Qed.

(** The mantissa of a double has at most 53 bits. *)
Lemma mantissa_bound (x : float) (s : bool) (m : positive) (e : Z) :
  Prim2SF x = S754_finite s m e -> Zpos m < 2 ^ 53.
Proof.
  intros E. pose proof (Prim2SF_valid x) as V. rewrite E in V.
  unfold valid_binary, bounded, canonical_mantissa, fexp in V.
  apply andb_prop in V. destruct V as [V _]. apply Z.eqb_eq in V.
  pose proof (digits2_pos_bound m) as B.
  assert (Zpos (digits2_pos m) <= 53) as L by (unfold prec in V; lia).
  eapply Z.lt_le_trans; [exact B | ]. apply Z.pow_le_mono_r; lia.
Qed.

Lemma Prim2SF_1e5 : Prim2SF 100000 = S754_finite false 6871947673600000 (-36).
Proof. vm_compute. reflexivity. Qed.

(** What the exact comparison says of a double that is at least [n]. *)
Lemma float_ge_Z_finite (y : float) (n : Z) (s : bool) (m : positive) (e : Z) :
  0 < n -> Prim2SF y = S754_finite s m e -> float_ge_Z y n = true ->
  s = false /\ (0 <= e -> n <= Zpos m * 2 ^ e) /\ (e < 0 -> n * 2 ^ (- e) <= Zpos m).
Proof.
  intros Hn E. unfold float_ge_Z, compare_float_Z. rewrite E.
  destruct s; cbv beta iota zeta.
  - destruct (Z.leb_spec 0 e) as [P | N].
    + assert (0 < 2 ^ e) by (apply Z.pow_pos_nonneg; lia).
      assert (Z.neg m * 2 ^ e < n) as L by nia.
      apply Z.compare_lt_iff in L. rewrite L. discriminate.
    + assert (0 < 2 ^ (- e)) by (apply Z.pow_pos_nonneg; lia).
      assert (Z.neg m < n * 2 ^ (- e)) as L by nia.
      apply Z.compare_lt_iff in L. rewrite L. discriminate.
  - intros H. split; [reflexivity | ].
    destruct (Z.leb_spec 0 e) as [P | N]; split; intros ?; try lia.
    + destruct (Z.compare_spec (Z.pos m * 2 ^ e) n); try discriminate; lia.
    + destruct (Z.compare_spec (Z.pos m) (n * 2 ^ (- e))); try discriminate; lia.
Qed.

(** Against 100000, which is a double, the exact comparison of a number
    with the bigint is the comparison of doubles. *)
Lemma float_ge_Z_threshold (y : float) :
  float_ge_Z y DEFAULT_COMPACT_THRESHOLD = true -> (100000 <=? y)%float = true.
Proof.
  intros H. rewrite leb_spec, Prim2SF_1e5.
  destruct (Prim2SF y) as [s | s | | s m e] eqn:E.
  - unfold float_ge_Z, compare_float_Z in H. rewrite E in H. discriminate.
  - unfold float_ge_Z, compare_float_Z in H. rewrite E in H. now destruct s.
  - unfold float_ge_Z, compare_float_Z in H. rewrite E in H. discriminate.
  - pose proof (mantissa_bound y s m e E) as B.
    destruct (float_ge_Z_finite y DEFAULT_COMPACT_THRESHOLD s m e ltac:(reflexivity) E H) as (-> & P & N).
    unfold DEFAULT_COMPACT_THRESHOLD in *.
    unfold SFleb, SFcompare. change (Pos.compare_cont Eq) with Pos.compare.
    destruct (Z.compare_spec (-36) e) as [Ee | Ee | Ee]; [ | reflexivity | ].
    + subst e. specialize (N ltac:(lia)). change (2 ^ (- -36)) with 68719476736 in N.
      destruct (Pos.compare_spec 6871947673600000 m) as [ | | G]; try reflexivity.
      apply Pos2Z.pos_lt_pos in G. lia.
    + exfalso. specialize (N ltac:(lia)).
      assert (2 ^ 37 <= 2 ^ (- e)) as M by (apply Z.pow_le_mono_r; lia).
      change (2 ^ 37) with 137438953472 in M. change (2 ^ 53) with 9007199254740992 in B.
      nia.
Qed.

Lemma ge_number_bigint (n : Z) :
  ge_number (VBigInt n) 1e3 = (1000 <=? n)
  /\ ge_number (VBigInt n) 1e6 = (1000000 <=? n)
  /\ ge_number (VBigInt n) 1e9 = (1000000000 <=? n)
  /\ ge_number (VBigInt n) 1e12 = (1000000000000 <=? n).
Proof.
  unfold ge_number, Z_ge_float, compare_float_Z.
  replace (Prim2SF 1e3) with (S754_finite false 8796093022208000 (-43))
    by (vm_compute; reflexivity).
  replace (Prim2SF 1e6) with (S754_finite false 8589934592000000 (-33))
    by (vm_compute; reflexivity).
  replace (Prim2SF 1e9) with (S754_finite false 8388608000000000 (-23))
    by (vm_compute; reflexivity).
  replace (Prim2SF 1e12) with (S754_finite false 8192000000000000 (-13))
    by (vm_compute; reflexivity).
  cbv beta iota zeta.
  change (0 <=? -43) with false. change (0 <=? -33) with false.
  change (0 <=? -23) with false. change (0 <=? -13) with false.
  cbv beta iota.
  change (2 ^ (- -43)) with 8796093022208. change (2 ^ (- -33)) with 8589934592.
  change (2 ^ (- -23)) with 8388608. change (2 ^ (- -13)) with 8192.
  repeat split.
  - destruct (Z.compare_spec 8796093022208000 (n * 8796093022208));
      destruct (Z.leb_spec 1000 n); try reflexivity; lia.
  - destruct (Z.compare_spec 8589934592000000 (n * 8589934592));
      destruct (Z.leb_spec 1000000 n); try reflexivity; lia.
  - destruct (Z.compare_spec 8388608000000000 (n * 8388608));
      destruct (Z.leb_spec 1000000000 n); try reflexivity; lia.
  - destruct (Z.compare_spec 8192000000000000 (n * 8192));
      destruct (Z.leb_spec 1000000000000 n); try reflexivity; lia.
Qed.

(** A value at or above the threshold of a tier, or at or above the
    threshold of the automatic mode, is at or above 1000. *)
Lemma tiers_ge_1e3 (w : value) (t : Tier) :
  In t tiers -> ge_number w (threshold t) = true -> ge_number w 1e3 = true.
Proof.
  intros I H. destruct w as [y | n].
  - cbn [ge_number] in *.
    apply (leb_trans _ (threshold t)); [ | exact H].
    cbn in I. now destruct I as [<- | [<- | [<- | [<- | []]]]].
  - destruct (ge_number_bigint n) as (K & M & B & T).
    rewrite K. apply Z.leb_le.
    cbn in I. destruct I as [<- | [<- | [<- | [<- | []]]]]; cbn [threshold] in H;
      rewrite ?K, ?M, ?B, ?T in H; apply Z.leb_le in H; lia.
Qed.

Lemma threshold_ge_1e3 (w : value) :
  ge_bigint w DEFAULT_COMPACT_THRESHOLD = true -> ge_number w 1e3 = true.
Proof.
  destruct w as [y | n]; cbn [ge_bigint]; intros H.
  - cbn [ge_number].
    apply (leb_trans _ 100000); [reflexivity | now apply float_ge_Z_threshold].
  - destruct (ge_number_bigint n) as (K & _). rewrite K.
    unfold DEFAULT_COMPACT_THRESHOLD in H. apply Z.leb_le in H. apply Z.leb_le. lia.
Qed.

(** A tier is found exactly from 1000 on. *)
Lemma findTier_iff (v : value) :
  findTier v <> None <-> ge_number (absValue v) 1e3 = true.
Proof.
  unfold findTier. split.
  - destruct (find _ tiers) as [t | ] eqn:F; [intros _ | congruence].
    apply find_some in F. destruct F as [I H]. exact (tiers_ge_1e3 _ t I H).
  - intros H F.
    pose proof (find_none _ _ F (mkTier 1e3 "K" 1e3)) as N.
    cbn [threshold] in N. rewrite N in H; [discriminate | ].
    cbn. tauto.
Qed.

(** The tier found is one whose threshold the value reaches, and no tier
    the value reaches has a higher threshold. *)
Lemma findTier_largest (v : value) (tier : Tier) :
  findTier v = Some tier ->
  In tier tiers
  /\ ge_number (absValue v) (threshold tier) = true
  /\ (forall t', In t' tiers -> ge_number (absValue v) (threshold t') = true ->
       (threshold t' <=? threshold tier)%float = true).
Proof.
  intros F. pose proof (find_some _ _ F) as [I H]. repeat split; [exact I | exact H | ].
  revert F. unfold findTier, tiers. cbn [find threshold].
  destruct (ge_number (absValue v) 1e12) eqn:T;
    [ | destruct (ge_number (absValue v) 1e9) eqn:B;
        [ | destruct (ge_number (absValue v) 1e6) eqn:M;
            [ | destruct (ge_number (absValue v) 1e3) eqn:K ] ] ];
    intros [= <-] t' [<- | [<- | [<- | [<- | []]]]] H'; cbn [threshold] in *;
    try reflexivity; congruence.
Qed.

End FloatFacts.

(* ================================================================== *)
(** * The test suite, run on the model *)
(* ================================================================== *)

Module Tests.
Import AssetAmount.

(** The texts of bignumber.js. *)

Example toString_examples :
  map (fun x => BigNumber.chars (BigNumber.toString x))
    [dec 55 1; dec (-1) 6; dec 5500000 0; dec 0 0; dec 1 7; dec (-123) 10;
     dec (10 ^ 21 - 1) 0; dec (10 ^ 21) 0; dec (15 * 10 ^ 20) 0]
  = ["5.5"; "-0.000001"; "5500000"; "0"; "1e-7"; "-1.23e-8";
     "999999999999999999999"; "1e+21"; "1.5e+21"]%string.
Proof. reflexivity. Qed.

Example BigInt_examples :
  map (fun x => BigInt (BigNumber.toString x))
    [dec 5500000 0; dec (-7) 0; dec 55 1; dec (10 ^ 21) 0]
  = [Ok 5500000; Ok (-7); Throw (SyntaxError "5.5"); Throw (SyntaxError "1e+21")].
Proof. reflexivity. Qed.

(** [tests/asset-amount.test.ts] *)

Example test_create_from_standard_units :
  microUnits (StandardUnits heap xyz (dec 55 1)) = Ok 5500000
  /\ standardUnits heap (StandardUnits heap xyz (dec 55 1)) = 5.5%float
  /\ assetId heap (StandardUnits heap xyz (dec 55 1)) = IdNumber 123
  /\ decimals heap (StandardUnits heap xyz (dec 55 1)) = 6%nat.
Proof. repeat split; vm_compute; reflexivity. Qed.

Example test_round_down_fractional_microunits :
  microUnits (StandardUnits heap xyz (dec 55123456 7)) = Ok 5512345.
Proof. reflexivity. Qed.

Example test_from_currency :
  fromCurrency heap xyz (dec 100 0) (dec 10 0)
  = Ok (StandardUnits heap xyz (dec 10 0))
  /\ microUnits (StandardUnits heap xyz (BigNumber.quotient (dec 100 0) (dec 10 0)))
     = Ok 10000000
  /\ fromCurrency heap xyz (dec 100 0) (dec 0 0) = Throw ZeroPrice.
Proof. repeat split; vm_compute; reflexivity. Qed.

Example test_extreme_values :
  microUnits (StandardUnits heap xyz (dec (10 ^ 12) 0)) = Ok (10 ^ 18)
  /\ microUnits (StandardUnits heap xyz (dec 1 6)) = Ok 1.
Proof. split; reflexivity. Qed.

Example test_serialize :
  toJSON (StandardUnits heap xyz (dec 55 1))
  = mkjson xyz (BigNumber.Positional (BigNumber.ofZ 5500000))
  /\ BigNumber.chars (json_microUnits (toJSON (StandardUnits heap xyz (dec 55 1))))
     = "5500000"%string
  /\ microUnits (fromJSON heap (mkjson xyz (bigint_toString 5500000))) = Ok 5500000.
Proof. repeat split; reflexivity. Qed.

Example test_add :
  (r <- add heap (StandardUnits heap xyz (dec 55 1)) (StandardUnits heap xyz (dec 10 0)) ;;
   microUnits r) = Ok 15500000
  /\ add heap (StandardUnits heap xyz (dec 55 1)) (StandardUnits heap other (dec 10 0))
     = Throw (AssetIdentityMismatch "add" (IdNumber 123) (IdNumber 456))
  /\ add heap (StandardUnits heap xyz (dec 55 1)) (StandardUnits heap xyz8 (dec 10 0))
     = Throw (DecimalsMismatch "add").
Proof. repeat split; reflexivity. Qed.

Example test_error_messages :
  message (AssetIdentityMismatch "add" (IdNumber 123) (IdNumber 456))
  = "Cannot add AssetAmounts with different asset IDs (123 and 456)"%string
  /\ message (DecimalsMismatch "subtract")
     = "Cannot subtract AssetAmounts with different decimals"%string.
Proof. split; reflexivity. Qed.

Example test_subtract :
  (r <- subtract heap (StandardUnits heap xyz (dec 10 0)) (StandardUnits heap xyz (dec 55 1)) ;;
   microUnits r) = Ok 4500000
  /\ (r <- subtract heap (StandardUnits heap xyz (dec 5 0)) (StandardUnits heap xyz (dec 10 0)) ;;
      microUnits r) = Ok (-5000000)
  /\ subtract heap (StandardUnits heap xyz (dec 10 0)) (StandardUnits heap other (dec 55 1))
     = Throw (AssetIdentityMismatch "subtract" (IdNumber 123) (IdNumber 456)).
Proof. repeat split; reflexivity. Qed.

Example test_multiply_divide :
  microUnits (multiply heap (StandardUnits heap xyz (dec 55 1)) (dec 2 0)) = Ok 11000000
  /\ (r <- divide heap (StandardUnits heap xyz (dec 11 0)) (dec 2 0) ;; microUnits r)
     = Ok 5500000
  /\ divide heap (StandardUnits heap xyz (dec 11 0)) (dec 0 0) = Throw DivisionByZero.
Proof. repeat split; reflexivity. Qed.

Example test_round :
  microUnits (round heap (StandardUnits heap xyz (dec 555555 5)) 2 BigNumber.ROUND_HALF_UP)
  = Ok 5560000
  /\ microUnits (round heap (StandardUnits heap xyz (dec 555555 5)) 8 BigNumber.ROUND_HALF_UP)
     = Ok 5555550.
Proof. split; reflexivity. Qed.

Example test_percentage :
  percentageOf heap (StandardUnits heap xyz (dec 25 0)) (StandardUnits heap xyz (dec 100 0))
  = Ok 25%float
  /\ percentageOf heap (StandardUnits heap xyz (dec 25 0)) (zero heap xyz)
     = Throw ZeroPercentageBase
  /\ percentageOf heap (StandardUnits heap xyz (dec 25 0)) (StandardUnits heap other (dec 100 0))
     = Throw (AssetIdentityMismatch "compare" (IdNumber 123) (IdNumber 456)).
Proof. repeat split; vm_compute; reflexivity. Qed.

Example test_chain :
  (r <- add heap (StandardUnits heap xyz (dec 10 0)) (StandardUnits heap xyz (dec 5 0)) ;;
   q <- divide heap (multiply heap r (dec 2 0)) (dec 3 0) ;;
   microUnits (round heap q 2 BigNumber.ROUND_HALF_UP))
  = Ok 10000000.
Proof. reflexivity. Qed.

Example test_comparisons :
  isGreaterThan heap (StandardUnits heap xyz (dec 10 0)) (StandardUnits heap xyz (dec 5 0))
  = Ok true
  /\ isLessThan heap (StandardUnits heap xyz (dec 10 0)) (StandardUnits heap xyz (dec 5 0))
     = Ok false
  /\ isGreaterThanOrEqualTo heap (StandardUnits heap xyz (dec 10 0))
       (StandardUnits heap xyz (dec 10 0)) = Ok true
  /\ isLessThanOrEqualTo heap (StandardUnits heap xyz (dec 10 0))
       (StandardUnits heap xyz (dec 5 0)) = Ok false
  /\ isGreaterThan heap (StandardUnits heap xyz (dec 10 0)) (StandardUnits heap other (dec 5 0))
     = Throw (AssetIdentityMismatch "compare" (IdNumber 123) (IdNumber 456)).
Proof. repeat split; reflexivity. Qed.

Example test_equals :
  equals heap (StandardUnits heap xyz (dec 10 0)) (StandardUnits heap xyz (dec 10 0)) = Ok true
  /\ equals heap (StandardUnits heap xyz (dec 10 0)) (StandardUnits heap xyz (dec 5 0)) = Ok false
  /\ equals heap (StandardUnits heap xyz (dec 10 0)) (StandardUnits heap other (dec 10 0))
     = Ok false
  /\ equals heap (StandardUnits heap xyz (dec 10 0)) (StandardUnits heap xyz8 (dec 10 0))
     = Ok false.
Proof. repeat split; reflexivity. Qed.

(** [tests/format.test.ts] *)

#[local] Open Scope string_scope.

Example test_basic_formatting :
  map (fun a => ReferenceHost.formatNumber a no_options)
    [Format.ANumber 1234; Format.ANumber 0; Format.ANumber (-5678);
     Format.ANumber 0.5; Format.AString "1234"; Format.AString "1234.56";
     Format.ABigInt 1234; Format.ABigInt (-5678)]
  = ["1,234.00"; "0.00"; "-5,678.00"; "0.50"; "1,234.00"; "1,234.56";
     "1,234.00"; "-5,678.00"].
Proof. vm_compute. reflexivity. Qed.

Example test_fractionDigits :
  ReferenceHost.formatNumber (Format.AString "1234.5678")
    (Format.mkOptions None None (Some 4%nat) None) = "1,234.5678"
  /\ ReferenceHost.formatNumber (Format.ANumber 1234)
       (Format.mkOptions None None (Some 0%nat) None) = "1,234"
  /\ ReferenceHost.formatNumber (Format.ANumber 1234.5)
       (Format.mkOptions None None (Some 3%nat) None) = "1,234.500".
Proof. repeat split; vm_compute; reflexivity. Qed.

Example test_adaptiveDecimals :
  ReferenceHost.formatNumber (Format.AString "0.00001")
    (Format.mkOptions None None None (Some true)) = "0.00001"
  /\ ReferenceHost.formatNumber (Format.AString "0.000001")
       (Format.mkOptions None None (Some 3%nat) (Some true)) = "0.000001"
  /\ ReferenceHost.formatNumber (Format.AString "0.00001")
       (Format.mkOptions None None (Some 2%nat) (Some false)) = "0.00".
Proof. repeat split; vm_compute; reflexivity. Qed.

Example test_compact :
  map (fun a => ReferenceHost.formatNumber a compact_true)
    [Format.ANumber 1500; Format.ANumber 15000; Format.ANumber 1500000;
     Format.ANumber 15000000; Format.ANumber 1500000000; Format.ANumber 15000000000;
     Format.ANumber 1500000000000; Format.ANumber 15000000000000;
     Format.ANumber (-1500); Format.ANumber (-1500000);
     Format.ABigInt 1500000; Format.ABigInt (-1500000000)]
  = ["1.5K"; "15.0K"; "1.5M"; "15.0M"; "1.5B"; "15.0B"; "1.5T"; "15.0T";
     "-1.5K"; "-1.5M"; "1.5M"; "-1.5B"].
Proof. vm_compute. reflexivity. Qed.

Example test_compact_fractionDigits :
  ReferenceHost.formatNumber (Format.ANumber 1500)
    (Format.mkOptions None (Some (Format.compact_is true)) (Some 2%nat) None) = "1.50K"
  /\ ReferenceHost.formatNumber (Format.ANumber 1500000)
       (Format.mkOptions None (Some (Format.compact_is true)) (Some 0%nat) None) = "2M".
Proof. split; vm_compute; reflexivity. Qed.

Example test_readme :
  ReferenceHost.formatNumber (Format.AString "123.456")
    (Format.mkOptions None None (Some 1%nat) None) = "123.5"
  /\ ReferenceHost.formatNumber (Format.ANumber 123)
       (Format.mkOptions None None (Some 4%nat) None) = "123.0000"
  /\ ReferenceHost.formatNumber (Format.ANumber 1200000000) compact_true = "1.2B".
Proof. repeat split; vm_compute; reflexivity. Qed.

Example test_compact_auto :
  ReferenceHost.formatNumber (Format.ANumber 1000)
    (Format.mkOptions None (Some Format.auto) None None) = "1,000.00"
  /\ ReferenceHost.formatNumber (Format.ANumber 100000)
       (Format.mkOptions None (Some Format.auto) None None) = "100.0K".
Proof. split; vm_compute; reflexivity. Qed.

Example test_roundToFirstNonZeroDecimal :
  map ReferenceHost.roundToFirstNonZeroDecimal
    [0; ReferenceHost.Number_ofString "0.001234"; ReferenceHost.Number_ofString "0.0005678";
     ReferenceHost.Number_ofString "0.0000123"; 123;
     ReferenceHost.Number_ofString "123.456"]%float
  = [0; ReferenceHost.Number_ofString "0.001"; ReferenceHost.Number_ofString "0.0006";
     ReferenceHost.Number_ofString "0.00001"; 123;
     ReferenceHost.Number_ofString "123.46"]%float.
Proof. vm_compute. reflexivity. Qed.

Example test_formatShortAddress :
  Format.formatShortAddress (Some an_address) None None = "2UEQT...HQFHM"
  /\ Format.formatShortAddress (Some an_address) (Some 3) (Some 4) = "2UE...QFHM"
  /\ Format.formatShortAddress (Some an_address) (Some 10) (Some 10)
     = "2UEQTE5QDN...4QJPLHQFHM"
  /\ Format.formatShortAddress None None None = ""
  /\ Format.formatShortAddress (Some "") None None = "".
Proof. repeat split; reflexivity. Qed.

(** [tests/asset-amount.test.ts]: formatting and the sign *)

Example test_format :
  map (AssetAmountFormat.format ReferenceHost.host heap (StandardUnits heap xyz (dec 55 1)))
    [default_options;
     AssetAmountFormat.mkOptions None None None None (Some false);
     AssetAmountFormat.mkOptions (Some true) None None None None;
     AssetAmountFormat.mkOptions (Some true) None None None (Some false);
     AssetAmountFormat.mkOptions (Some true) (Some "ABC") None None None;
     AssetAmountFormat.mkOptions None None None (Some true) None;
     AssetAmountFormat.mkOptions None None (Some 3%nat) None (Some false)]
  = [Ok "5.5"; Ok "5.500000"; Ok "5.5 XYZ"; Ok "5.500000 XYZ"; Ok "5.5 ABC";
     Ok "5.5 (5,500,000 microunits)"; Ok "5.500"]
  /\ AssetAmountFormat.format ReferenceHost.host heap (StandardUnits heap xyz (dec 5543 3))
       (AssetAmountFormat.mkOptions None None (Some 3%nat) None None)
     = Ok "5.543".
Proof. split; vm_compute; reflexivity. Qed.

Example test_sign :
  isPositive (StandardUnits heap xyz (dec 5 0)) = true
  /\ isPositive (zero heap xyz) = true
  /\ isNegative (StandardUnits heap xyz (dec 5 0)) = false
  /\ isNegative (zero heap xyz) = false
  /\ (r <- subtract heap (StandardUnits heap xyz (dec 5 0)) (StandardUnits heap xyz (dec 10 0)) ;;
      Ok (isPositive r, isNegative r)) = Ok (false, true)
  /\ isZero (zero heap xyz) = true
  /\ isZero (StandardUnits heap xyz (dec 5 0)) = false
  /\ valueOf (MicroUnits heap xyz (OfBigInt 5500000)) = 5500000%float.
Proof. repeat split; vm_compute; reflexivity. Qed.

End Tests.

(* ================================================================== *)
(** * The properties of the design document *)
(* ================================================================== *)

Import BigNumberFacts TextFacts AssetAmountFacts.

(** ** The integer accessor *)

(** The integer accessor returns the raw value truncated towards zero,
    for every amount whose truncated value has at most 21 digits; from
    [10^21] on, where [toString] switches to exponential notation and
    [BigInt] rejects the text, it throws. *)
Theorem microUnits_truncates (this : AssetAmount.t) :
  AssetAmount.microUnits this
  = (if Z.abs (truncate (BigNumber.toQ (AssetAmount._microUnits this))) <? 10 ^ 21
     then Ok (truncate (BigNumber.toQ (AssetAmount._microUnits this)))
     else Throw
            (SyntaxError
               (BigNumber.exponential
                  (BigNumber.ofZ
                     (truncate (BigNumber.toQ (AssetAmount._microUnits this))))))).
Proof. rewrite truncate_toQ. apply microUnits_spec. Qed.

(** ** Construction from standard units (C1) *)

(** For every identity and every decimal [x], [fromStandardUnits] stores
    [x * 10^decimals] truncated towards zero, for a negative [x] as for a
    positive one; the integer accessor returns that integer as long as it
    has at most 21 digits, and throws from [10^21] on, where [toString]
    switches to exponential notation and [BigInt] rejects the text. *)
Theorem StandardUnits_stores_the_truncation
    (sigma : store) (r : ref) (x : BigNumber.t) :
  AssetAmount._microUnits (AssetAmount.StandardUnits sigma r x)
  = BigNumber.ofZ (truncate (BigNumber.toQ x * unit_of (AssetInfo.decimals (sigma r))))
  /\ AssetAmount.microUnits (AssetAmount.StandardUnits sigma r x)
     = (if Z.abs (truncate (BigNumber.toQ x * unit_of (AssetInfo.decimals (sigma r))))
             <? 10 ^ 21
        then Ok (truncate (BigNumber.toQ x * unit_of (AssetInfo.decimals (sigma r))))
        else Throw
               (SyntaxError
                  (BigNumber.exponential
                     (BigNumber.ofZ
                        (truncate
                           (BigNumber.toQ x * unit_of (AssetInfo.decimals (sigma r)))))))).
Proof. exact (StandardUnits_holds_integer sigma r x). Qed.

(** Truncation is towards zero: -5.5123456 XYZ are -5512345 microunits,
    where the floor would be -5512346. *)
Example StandardUnits_of_a_negative_amount :
  AssetAmount.microUnits (AssetAmount.StandardUnits heap xyz (dec (-55123456) 7))
  = Ok (-5512345)
  /\ Qfloor (BigNumber.toQ (dec (-55123456) 7) * unit_of 6) = -5512346.
Proof. split; reflexivity. Qed.

(** C1, where the code departs from it: 10^15 XYZ are stored as 10^21
    microunits, the truncation of [x * 10^6], and the integer accessor
    throws on that amount instead of returning 10^21. *)
Theorem C1_microUnits_throws_from_1e21 :
  AssetAmount._microUnits (AssetAmount.StandardUnits heap xyz (dec (10 ^ 15) 0))
  = BigNumber.ofZ (truncate (BigNumber.toQ (dec (10 ^ 15) 0) * unit_of 6))
  /\ truncate (BigNumber.toQ (dec (10 ^ 15) 0) * unit_of 6) = 10 ^ 21
  /\ AssetAmount.microUnits (AssetAmount.StandardUnits heap xyz (dec (10 ^ 15) 0))
     = Throw (SyntaxError "1e+21").
Proof. repeat split; reflexivity. Qed.

(** ** Addition and subtraction (C2) *)

(** [add] and [subtract] throw the asset-id error, naming the two ids,
    exactly when the ids differ, and the decimals error exactly when the
    ids agree and the decimals differ. Otherwise they take the integer
    microunits of [other] (which throws from [10^21] on) and return the
    raw value of [this] plus or minus that integer, under the identity of
    [this]. *)
Theorem add_subtract_spec (sigma : store) (this other : AssetAmount.t) :
  (AssetAmount.assetId sigma this <> AssetAmount.assetId sigma other ->
   AssetAmount.add sigma this other
   = Throw (AssetIdentityMismatch "add" (AssetAmount.assetId sigma this)
              (AssetAmount.assetId sigma other))
   /\ AssetAmount.subtract sigma this other
      = Throw (AssetIdentityMismatch "subtract" (AssetAmount.assetId sigma this)
                 (AssetAmount.assetId sigma other)))
  /\ (AssetAmount.assetId sigma this = AssetAmount.assetId sigma other ->
      AssetAmount.decimals sigma this <> AssetAmount.decimals sigma other ->
      AssetAmount.add sigma this other = Throw (DecimalsMismatch "add")
      /\ AssetAmount.subtract sigma this other = Throw (DecimalsMismatch "subtract"))
  /\ (AssetAmount.assetId sigma this = AssetAmount.assetId sigma other ->
      AssetAmount.decimals sigma this = AssetAmount.decimals sigma other ->
      AssetAmount.add sigma this other
      = (n <- AssetAmount.microUnits other ;;
         Ok (AssetAmount.mk
               (BigNumber.plus (AssetAmount._microUnits this) (BigNumber.ofZ n))
               (AssetAmount._assetInfo this)))
      /\ AssetAmount.subtract sigma this other
         = (n <- AssetAmount.microUnits other ;;
            Ok (AssetAmount.mk
                  (BigNumber.minus (AssetAmount._microUnits this) (BigNumber.ofZ n))
                  (AssetAmount._assetInfo this)))).
Proof.
  unfold AssetAmount.add, AssetAmount.subtract, AssetAmount.operand.
  rewrite !same_asset_spec.
  destruct (AssetId_eqb_spec (AssetAmount.assetId sigma this)
              (AssetAmount.assetId sigma other)) as [I | I];
    destruct (Nat.eqb_spec (AssetAmount.decimals sigma this)
                (AssetAmount.decimals sigma other)) as [D | D];
    repeat split; intros; try congruence; cbn [bind];
    destruct (AssetAmount.microUnits other); cbn [bind];
    now rewrite ?MicroUnits_OfDecimal.
Qed.

(** In values: the amount [add] returns is worth the raw value of [this]
    plus the integer part of the raw value of [other], and the amount
    [subtract] returns the raw value of [this] minus that integer part. *)
Theorem add_subtract_value (sigma : store) (this other r : AssetAmount.t) :
  (AssetAmount.add sigma this other = Ok r ->
   (BigNumber.toQ (AssetAmount._microUnits r)
    == BigNumber.toQ (AssetAmount._microUnits this)
       + inject_Z (truncate (BigNumber.toQ (AssetAmount._microUnits other))))%Q)
  /\ (AssetAmount.subtract sigma this other = Ok r ->
      (BigNumber.toQ (AssetAmount._microUnits r)
       == BigNumber.toQ (AssetAmount._microUnits this)
          - inject_Z (truncate (BigNumber.toQ (AssetAmount._microUnits other))))%Q).
Proof.
  unfold AssetAmount.add, AssetAmount.subtract.
  rewrite !same_asset_spec, operand_spec, truncate_toQ. cbv zeta.
  destruct (AssetId_eqb _ _); [ | split; discriminate].
  destruct (Nat.eqb _ _); [ | split; discriminate].
  destruct (_ <? _); [ | split; discriminate].
  cbn [bind]. rewrite !MicroUnits_OfDecimal.
  split; intros [= <-]; cbn [AssetAmount._microUnits].
  - now rewrite toQ_plus, toQ_ofZ.
  - now rewrite toQ_minus, toQ_ofZ.
Qed.

(** C2, where the code departs from it: 1 microunit plus 0.5 microunit
    is 1 microunit. The sum of the raw values is 1.5. *)
Theorem C2_add_drops_the_fraction_of_other :
  AssetAmount.add heap one a_half = Ok one
  /\ (BigNumber.toQ (BigNumber.plus (AssetAmount._microUnits one)
                       (AssetAmount._microUnits a_half)) == 3 # 2)%Q.
Proof. split; reflexivity. Qed.

(** ** Equality (C4) *)

(** [equals] answers [false], and evaluates nothing else, when the ids or
    the decimals differ. On one identity it takes the integer microunits
    of [other] (which throws from [10^21] on) and compares the raw value
    of [this] with that integer. *)
Theorem equals_spec (sigma : store) (this other : AssetAmount.t) :
  (AssetAmount.assetId sigma this <> AssetAmount.assetId sigma other
   \/ AssetAmount.decimals sigma this <> AssetAmount.decimals sigma other ->
   AssetAmount.equals sigma this other = Ok false)
  /\ (AssetAmount.assetId sigma this = AssetAmount.assetId sigma other ->
      AssetAmount.decimals sigma this = AssetAmount.decimals sigma other ->
      AssetAmount.equals sigma this other
      = (n <- AssetAmount.microUnits other ;;
         Ok (BigNumber.isEqualTo (AssetAmount._microUnits this) (BigNumber.ofZ n)))).
Proof.
  unfold AssetAmount.equals, AssetAmount.operand.
  destruct (AssetId_eqb_spec (AssetAmount.assetId sigma this)
              (AssetAmount.assetId sigma other)) as [I | I];
    destruct (Nat.eqb_spec (AssetAmount.decimals sigma this)
                (AssetAmount.decimals sigma other)) as [D | D];
    split; intros; try tauto; try reflexivity.
  now destruct (AssetAmount.microUnits other).
Qed.

(** C4, where the code departs from it: an amount of 1.5 microunits does
    not equal itself, and 1 microunit equals 1.5 microunits, although the
    comparison of the raw values says the opposite in both cases. *)
Theorem C4_equals_truncates_other :
  AssetAmount.equals heap one_and_a_half one_and_a_half = Ok false
  /\ BigNumber.isEqualTo (AssetAmount._microUnits one_and_a_half)
       (AssetAmount._microUnits one_and_a_half) = true
  /\ AssetAmount.equals heap one one_and_a_half = Ok true
  /\ BigNumber.isEqualTo (AssetAmount._microUnits one)
       (AssetAmount._microUnits one_and_a_half) = false.
Proof. repeat split; reflexivity. Qed.

(** [equals] can fail: on one identity, it throws when [other] holds
    [10^21] microunits or more. *)
Example equals_throws_from_1e21 :
  AssetAmount.equals heap one
    (AssetAmount.MicroUnits heap xyz (AssetAmount.OfBigInt (10 ^ 21)))
  = Throw (SyntaxError "1e+21").
Proof. reflexivity. Qed.

(** ** Serialization (C3) *)


(** C3, where the code departs from it: the amount rebuilt from the JSON
    of 1.5 microunits is that amount, and [equals] denies it. *)
Theorem C3_round_trip_is_not_equals :
  AssetAmount.fromJSON heap (AssetAmount.toJSON one_and_a_half) = one_and_a_half
  /\ AssetAmount.equals heap
       (AssetAmount.fromJSON heap (AssetAmount.toJSON one_and_a_half))
       one_and_a_half
     = Ok false.
Proof. split; reflexivity. Qed.

(** ** The identity of an amount (C5) *)

(** C5 as stated fails: the amount of 5.5 XYZ built on the caller's
    identity object has 6 decimals, and 8 once the caller has written 8
    into that object. *)
Lemma C5_a_later_mutation_is_visible :
  AssetAmount.decimals heap (AssetAmount.StandardUnits heap xyz (dec 55 1)) = 6%nat
  /\ AssetAmount.decimals (mutate heap xyz XYZ8)
       (AssetAmount.StandardUnits heap xyz (dec 55 1)) = 8%nat
  /\ AssetAmount.assetInfo_value (mutate heap xyz XYZ8)
       (AssetAmount.StandardUnits heap xyz (dec 55 1))
     <> AssetAmount.assetInfo_value heap
          (AssetAmount.StandardUnits heap xyz (dec 55 1)).
Proof. repeat split; try reflexivity. discriminate. Qed.

(** C5, amended: the constructor keeps the caller's reference, not a copy.
    The identity of the amount is the object behind that reference as it
    is when it is read: the one supplied for as long as the caller leaves
    it alone, whatever is written to other objects, and the new contents
    once the caller writes to it. *)
Theorem C5_identity_is_held_by_reference
    (sigma : store) (r : ref) (p : AssetAmount.params) (r' : ref) (o : AssetInfo.t) :
  AssetAmount.assetInfo (AssetAmount.new sigma r p) = r
  /\ AssetAmount.assetInfo_value sigma (AssetAmount.new sigma r p) = sigma r
  /\ AssetAmount.assetInfo_value (mutate sigma r' o) (AssetAmount.new sigma r p)
     = (if Nat.eqb r r' then o else sigma r).
Proof.
  unfold AssetAmount.assetInfo, AssetAmount.assetInfo_value, mutate.
  now destruct p.
Qed.

(** ** Addition then subtraction (C6) *)

(** Whenever [a.add(b)] returns, subtracting [b] again returns [a]
    itself: its raw value to the last digit, under its identity. *)
Theorem add_then_subtract (sigma : store) (a b : AssetAmount.t) :
  (r <- AssetAmount.add sigma a b ;; AssetAmount.subtract sigma r b)
  = (_ <- AssetAmount.add sigma a b ;; Ok a).
Proof.
  unfold AssetAmount.add, AssetAmount.subtract.
  rewrite same_asset_spec.
  destruct (AssetId_eqb_spec (AssetAmount.assetId sigma a)
              (AssetAmount.assetId sigma b)) as [I | I]; [ | reflexivity].
  destruct (Nat.eqb_spec (AssetAmount.decimals sigma a)
              (AssetAmount.decimals sigma b)) as [D | D]; [ | reflexivity].
  cbn [bind]. rewrite operand_spec. cbv zeta.
  destruct (_ <? _) eqn:B; [ | reflexivity].
  cbn [bind]. rewrite !MicroUnits_OfDecimal, same_asset_spec.
  unfold AssetAmount.assetId, AssetAmount.decimals in *.
  cbn [AssetAmount._assetInfo].
  destruct (AssetId_eqb_spec (AssetInfo.id (sigma (AssetAmount._assetInfo a)))
              (AssetInfo.id (sigma (AssetAmount._assetInfo b)))); [ | congruence].
  rewrite D, Nat.eqb_refl. cbn [bind].
  destruct a as [[c s] i]. cbn [AssetAmount._microUnits AssetAmount._assetInfo].
  unfold BigNumber.plus, BigNumber.minus, BigNumber.ofZ.
  cbn [BigNumber.coeff BigNumber.scale].
  rewrite !Nat.max_0_r, !Nat.sub_diag, !Nat.sub_0_r.
  change (BigNumber.pow10 0) with 1.
  do 3 f_equal. ring.
Qed.

(** C6, where the code departs from it: half a microunit plus zero minus
    zero is half a microunit again, and [equals] denies it. *)
Theorem C6_add_subtract_is_not_equals :
  (r <- AssetAmount.add heap a_half (AssetAmount.zero heap xyz) ;;
   AssetAmount.subtract heap r (AssetAmount.zero heap xyz))
  = Ok a_half
  /\ (r <- AssetAmount.add heap a_half (AssetAmount.zero heap xyz) ;;
      r' <- AssetAmount.subtract heap r (AssetAmount.zero heap xyz) ;;
      AssetAmount.equals heap r' a_half)
     = Ok false.
Proof. split; reflexivity. Qed.

(** [add] itself throws when [b] holds [10^21] microunits or more. *)
Example add_throws_from_1e21 :
  AssetAmount.add heap one
    (AssetAmount.MicroUnits heap xyz (AssetAmount.OfBigInt (10 ^ 21)))
  = Throw (SyntaxError "1e+21").
Proof. reflexivity. Qed.

(** ** Rounding (C7) *)

(** C7: rounding twice to [d] places in one mode is rounding once, for
    every amount, every [d] and each of the nine modes of the library,
    half-up, down, up, ceiling and floor among them; and with [d] at or
    above the decimals of the asset, [round] returns the amount itself. *)
Theorem C7_round_is_idempotent
    (sigma : store) (a : AssetAmount.t) (d : Z) (rm : BigNumber.RoundingMode) :
  AssetAmount.round sigma (AssetAmount.round sigma a d rm) d rm
  = AssetAmount.round sigma a d rm
  /\ (Z.of_nat (AssetAmount.decimals sigma a) <= d ->
      AssetAmount.round sigma a d rm = a).
Proof.
  split.
  - rewrite (round_spec sigma a).
    destruct (Z.of_nat (AssetAmount.decimals sigma a) <=? d) eqn:E.
    + now rewrite round_spec, E.
    + rewrite round_spec.
      unfold AssetAmount.decimals in *. cbn [AssetAmount._assetInfo AssetAmount._microUnits].
      rewrite E. now rewrite rounded_units_idempotent.
  - intros H. rewrite round_spec.
    now destruct (Z.leb_spec (Z.of_nat (AssetAmount.decimals sigma a)) d); [ | lia].
Qed.

(** The rounding of the test suite: 5.55555 XYZ to two places. *)
Example round_5_55555 :
  map (fun rm =>
         AssetAmount.microUnits
           (AssetAmount.round heap (AssetAmount.StandardUnits heap xyz (dec 555555 5)) 2 rm))
    [BigNumber.ROUND_HALF_UP; BigNumber.ROUND_DOWN; BigNumber.ROUND_UP;
     BigNumber.ROUND_CEIL; BigNumber.ROUND_FLOOR]
  = [Ok 5560000; Ok 5550000; Ok 5560000; Ok 5560000; Ok 5550000].
Proof. reflexivity. Qed.

(** ** Percentage (C8) *)

(** [percentageOf] throws as the orderings do on two identities; on one
    identity it throws the zero-base error exactly when the raw value of
    [other] is zero, and otherwise divides the raw value of [this] by the
    integer microunits of [other], to 20 decimal places, times 100, as a
    double. *)
Theorem percentageOf_spec (sigma : store) (this other : AssetAmount.t) :
  (AssetAmount.assetId sigma this <> AssetAmount.assetId sigma other ->
   AssetAmount.percentageOf sigma this other
   = Throw (AssetIdentityMismatch "compare" (AssetAmount.assetId sigma this)
              (AssetAmount.assetId sigma other)))
  /\ (AssetAmount.assetId sigma this = AssetAmount.assetId sigma other ->
      AssetAmount.decimals sigma this <> AssetAmount.decimals sigma other ->
      AssetAmount.percentageOf sigma this other = Throw (DecimalsMismatch "compare"))
  /\ (AssetAmount.assetId sigma this = AssetAmount.assetId sigma other ->
      AssetAmount.decimals sigma this = AssetAmount.decimals sigma other ->
      AssetAmount.percentageOf sigma this other
      = if BigNumber.isZero (AssetAmount._microUnits other)
        then Throw ZeroPercentageBase
        else
          n <- AssetAmount.microUnits other ;;
          Ok (BigNumber.xtoNumber
                (BigNumber.xmultipliedBy
                   (BigNumber.dividedBy (AssetAmount._microUnits this) (BigNumber.ofZ n))
                   (BigNumber.ofZ 100)))).
Proof.
  unfold AssetAmount.percentageOf, AssetAmount.operand, AssetAmount.isZero.
  rewrite same_asset_spec.
  destruct (AssetId_eqb_spec (AssetAmount.assetId sigma this)
              (AssetAmount.assetId sigma other)) as [I | I];
    destruct (Nat.eqb_spec (AssetAmount.decimals sigma this)
                (AssetAmount.decimals sigma other)) as [D | D];
    repeat split; intros; try congruence; cbn [bind].
  destruct (BigNumber.isZero _); [reflexivity | ].
  now destruct (AssetAmount.microUnits other).
Qed.

(** C8, where the code departs from it: 3 microunits are 300 percent of
    1.5 microunits, where the raw values give 200; and 1 microunit is
    Infinity percent of half a microunit, which is not zero, where the
    raw values give 200 as well. *)
Theorem C8_percentageOf_truncates_other :
  AssetAmount.percentageOf heap three one_and_a_half = Ok 300%float
  /\ BigNumber.toNumber
       (BigNumber.multipliedBy
          (BigNumber.quotient (AssetAmount._microUnits three)
             (AssetAmount._microUnits one_and_a_half))
          (BigNumber.ofZ 100))
     = 200%float
  /\ AssetAmount.isZero a_half = false
  /\ AssetAmount.percentageOf heap one a_half = Ok infinity
  /\ BigNumber.toNumber
       (BigNumber.multipliedBy
          (BigNumber.quotient (AssetAmount._microUnits one)
             (AssetAmount._microUnits a_half))
          (BigNumber.ofZ 100))
     = 200%float.
Proof. repeat split; vm_compute; reflexivity. Qed.

(** ** Integer raw values (C10) *)

(** C10 as stated fails: [round] to 6 places, the decimals of the asset,
    returns an amount of 1.5 microunits as it is, with its fraction. *)
Lemma C10_round_returns_a_fraction :
  AssetAmount.round heap one_and_a_half 6 BigNumber.ROUND_HALF_UP = one_and_a_half
  /\ is_integer
       (AssetAmount._microUnits
          (AssetAmount.round heap one_and_a_half 6 BigNumber.ROUND_HALF_UP))
     = false.
Proof. split; reflexivity. Qed.

(** C10, amended: [fromStandardUnits], [multiply], [divide] by a scalar
    other than zero, and [round] to fewer places than the asset has, each
    return an amount that holds an integer, which the integer accessor
    returns whole when it has at most 21 digits. [round] to as many
    places as the asset has, or more, returns the amount it was given,
    and [fromMicroUnits] stores the decimal it was given: these keep a
    fraction. *)
Theorem C10_which_results_hold_an_integer
    (sigma : store) (r : ref) (x : BigNumber.t)
    (this : AssetAmount.t) (scalar : BigNumber.t)
    (d : Z) (rm : BigNumber.RoundingMode) :
  holds_integer (AssetAmount.StandardUnits sigma r x)
    (truncate (BigNumber.toQ x * unit_of (AssetInfo.decimals (sigma r))))
  /\ holds_integer (AssetAmount.multiply sigma this scalar)
       (truncate
          (BigNumber.toQ (BigNumber.multipliedBy (AssetAmount._microUnits this) scalar)))
  /\ (BigNumber.isZero scalar = false ->
      exists q,
        AssetAmount.divide sigma this scalar = Ok q
        /\ holds_integer q
             (truncate
                (BigNumber.toQ (BigNumber.quotient (AssetAmount._microUnits this) scalar))))
  /\ (d < Z.of_nat (AssetAmount.decimals sigma this) ->
      holds_integer (AssetAmount.round sigma this d rm)
        (rounded_units (AssetAmount._microUnits this)
           (Z.to_nat (Z.of_nat (AssetAmount.decimals sigma this) - d)) rm))
  /\ (Z.of_nat (AssetAmount.decimals sigma this) <= d ->
      AssetAmount.round sigma this d rm = this)
  /\ AssetAmount._microUnits (AssetAmount.MicroUnits sigma r (AssetAmount.OfDecimal x)) = x.
Proof.
  split; [ | split; [ | split; [ | split; [ | split]]]].
  - apply StandardUnits_holds_integer.
  - unfold AssetAmount.multiply. rewrite MicroUnits_OfDecimal, truncate_toQ.
    unfold BigNumber.integerValue. rewrite round_down_quot by apply pow10_pos.
    apply holds_integer_mk.
  - intros Z0. unfold AssetAmount.divide. rewrite Z0, MicroUnits_OfDecimal, truncate_toQ.
    unfold BigNumber.integerValue. rewrite round_down_quot by apply pow10_pos.
    eexists. split; [reflexivity | apply holds_integer_mk].
  - intros L. rewrite round_spec.
    destruct (Z.leb_spec (Z.of_nat (AssetAmount.decimals sigma this)) d);
      [lia | apply holds_integer_mk].
  - intros L. rewrite round_spec.
    now destruct (Z.leb_spec (Z.of_nat (AssetAmount.decimals sigma this)) d); [ | lia].
  - now rewrite MicroUnits_OfDecimal.
Qed.

(** ** Compact notation (C9) *)

Import FloatFacts.

(** [formatNumber] by the tier it renders with. *)
Lemma formatNumber_compacted
    (host : Format.Host) (a : Format.amount) (options : Format.FormatOptions) :
  Format.formatNumber host a options
  = match compacted options (Format.value_of host a) with
    | Some tier =>
        (Format.NumberFormat_format host (Format.compactFormatter options)
           (Format.VNumber
              (Format.Number (Format.value_of host a) / Format.divisor tier))
           ++ Format.suffix tier)%string
    | None => Format.formatBase host options (Format.value_of host a)
    end.
Proof.
  unfold Format.formatNumber, compacted.
  destruct (Format.shouldUseCompact options _); [ | reflexivity].
  cbn [negb]. now destruct (Format.findTier _).
Qed.

(** C9 as stated fails: with [compact: true], 500 reaches no tier and is
    rendered without a suffix, with the two fraction digits of the
    non-compact rendering. *)
Lemma C9_compact_true_below_1000 :
  Format.shouldUseCompact compact_true (Format.VNumber 500) = true
  /\ compacted compact_true (Format.VNumber 500) = None
  /\ ReferenceHost.formatNumber (Format.ANumber 500) compact_true = "500.00"%string.
Proof. repeat split; vm_compute; reflexivity. Qed.

(** C9, amended. With [compact: true], [formatNumber] renders compactly
    exactly when [|value| >= 1000], and with [compact: "auto"] exactly when
    [|value| >= 100000]. When it does, the tier is the one of the highest
    threshold at or below [|value|] among 1e12 T, 1e9 B, 1e6 M and 1e3 K,
    and the result is the value over the divisor of the tier, rendered
    with [fractionDigits] fixed fraction digits (1 by default), followed by
    the suffix. When it does not, the result is the non-compact rendering.
    [formatNumber(1_500_000, { compact: true })] is "1.5M". *)
Theorem C9_compact_rendering
    (host : Format.Host) (a : Format.amount) (options : Format.FormatOptions) :
  (Format.compact options = Some (Format.compact_is true) ->
   (compacted options (Format.value_of host a) <> None
    <-> Format.ge_number (Format.absValue (Format.value_of host a)) 1e3 = true))
  /\ (Format.compact options = Some Format.auto ->
      (compacted options (Format.value_of host a) <> None
       <-> Format.ge_bigint (Format.absValue (Format.value_of host a)) 100000 = true))
  /\ (forall tier : Format.Tier,
      compacted options (Format.value_of host a) = Some tier ->
      In tier Format.tiers
      /\ Format.ge_number (Format.absValue (Format.value_of host a))
           (Format.threshold tier) = true
      /\ (forall t' : Format.Tier,
          In t' Format.tiers ->
          Format.ge_number (Format.absValue (Format.value_of host a))
            (Format.threshold t') = true ->
          (Format.threshold t' <=? Format.threshold tier)%float = true)
      /\ Format.formatNumber host a options
         = (Format.NumberFormat_format host
              (Format.mkNumberFormat
                 (Format.orElse (Format.style options) Format.decimal)
                 (Format.orElse (Format.fractionDigits options) 1%nat)
                 (Format.orElse (Format.fractionDigits options) 1%nat))
              (Format.VNumber
                 (Format.Number (Format.value_of host a) / Format.divisor tier))
              ++ Format.suffix tier)%string)
  /\ (compacted options (Format.value_of host a) = None ->
      Format.formatNumber host a options
      = Format.formatBase host options (Format.value_of host a))
  /\ Format.formatNumber host (Format.ANumber 1500000) compact_true
     = (Format.NumberFormat_format host
          (Format.mkNumberFormat Format.decimal 1 1) (Format.VNumber 1.5)
          ++ "M")%string
  /\ ReferenceHost.formatNumber (Format.ANumber 1500000) compact_true
     = "1.5M"%string.
Proof.
  rewrite formatNumber_compacted.
  set (v := Format.value_of host a).
  repeat apply conj.
  - intros C. unfold compacted, Format.shouldUseCompact. rewrite C.
    cbn [Format.orElse]. apply findTier_iff.
  - intros C. unfold compacted, Format.shouldUseCompact. rewrite C.
    cbn [Format.orElse]. fold Format.DEFAULT_COMPACT_THRESHOLD.
    destruct (Format.ge_bigint (Format.absValue v) Format.DEFAULT_COMPACT_THRESHOLD) eqn:G.
    + split; [reflexivity | intros _].
      apply findTier_iff. now apply threshold_ge_1e3.
    + split; [congruence | discriminate].
  - intros tier C. rewrite C.
    unfold compacted in C.
    destruct (Format.shouldUseCompact options v); [ | discriminate].
    destruct (findTier_largest v tier C) as (I & H & L).
    repeat split; assumption.
  - intros C. now rewrite C.
  - vm_compute. reflexivity.
  - vm_compute. reflexivity.
Qed.

(* ================================================================== *)
(** * The rest of the two files: facts *)
(* ================================================================== *)

Module ArithmeticFacts.
Import BigNumber.

(** What the truncating division leaves. *)
Lemma quot_rem_facts (c p : Z) :
  0 < p ->
  c = c ÷ p * p + Z.rem c p
  /\ (Z.rem c p = 0 <-> c mod p = 0)
  /\ (0 <= c -> 0 <= Z.rem c p < p)
  /\ (c <= 0 -> - p < Z.rem c p <= 0).
Proof.
  intros Hp. repeat split.
  - pose proof (Z.quot_rem' c p). lia.
  - now apply Z.rem_mod_eq_0; lia.
  - now apply Z.rem_mod_eq_0; lia.
  - now apply Z.rem_bound_pos.
  - now apply Z.rem_bound_pos.
  - now apply Z.rem_bound_pos_neg.
  - now apply Z.rem_bound_pos_neg.
Qed.

(** Rounding does not depend on the scale of the fraction. *)
Lemma round_quotient_scale (rm : RoundingMode) (n d c : Z) :
  0 < d -> 0 < c -> round_quotient rm (n * c) (d * c) = round_quotient rm n d.
Proof.
  intros Hd Hc. unfold round_quotient.
  rewrite Z.div_mul_cancel_r, Z.mul_mod_distr_r by lia.
  assert ((n mod d * c =? 0) = (n mod d =? 0)) as ->.
  { destruct (Z.eqb_spec (n mod d) 0) as [-> | N]; [reflexivity | ].
    apply Z.eqb_neq. nia. }
  assert ((0 <=? n * c) = (0 <=? n)) as ->.
  { destruct (Z.leb_spec 0 n); [apply Z.leb_le | apply Z.leb_gt]; nia. }
  assert ((2 * (n mod d * c) ?= d * c) = (2 * (n mod d) ?= d)) as ->.
  { destruct (Z.compare_spec (2 * (n mod d)) d);
      [apply Z.compare_eq_iff | apply Z.compare_lt_iff | apply Z.compare_gt_iff]; nia. }
  reflexivity.
Qed.

(** To nearest: at most half a unit away. *)
Lemma round_half_up_error (n d : Z) :
  0 < d -> - d <= 2 * (round_quotient ROUND_HALF_UP n d * d - n) <= d.
Proof.
  intros Hd. unfold round_quotient.
  pose proof (Z.div_mod n d ltac:(lia)) as E.
  pose proof (Z.mod_pos_bound n d Hd) as B.
  destruct (Z.eqb_spec (n mod d) 0); [lia | ].
  destruct (Z.compare_spec (2 * (n mod d)) d); cbn [tie_up];
    try destruct (0 <=? n); lia.
Qed.

(** An integer within half a unit of [m * P / K] has the integer part
    of [m / K] as its own over [P], for [K] below [2 * P]. *)
Lemma near_quot_nonneg (R m K P : Z) :
  0 < K -> K < 2 * P -> 0 <= m ->
  - K <= 2 * (R * K - m * P) <= K -> R ÷ P = m ÷ K.
Proof.
  intros HK HP Hm B.
  rewrite (Z.quot_div_nonneg m K) by lia.
  pose proof (Z.div_mod m K ltac:(lia)) as E.
  pose proof (Z.mod_pos_bound m K HK) as Br.
  set (q := m / K) in *. set (r := m mod K) in *.
  assert (0 <= q) as Hq by (apply Z.div_pos; lia).
  assert (0 <= R - q * P < P) as D.
  { set (D := R - q * P).
    assert (2 * (K * D) = 2 * (R * K - m * P) + 2 * (r * P)) as F
      by (unfold D; rewrite E; ring).
    assert (0 <= r * P <= (K - 1) * P) as G by nia.
    split.
    - destruct (Z.le_gt_cases 0 D) as [ | L]; [assumption | exfalso].
      assert (K * D <= - K) by nia. lia.
    - destruct (Z.lt_ge_cases D P) as [ | L]; [assumption | exfalso].
      assert (K * P <= K * D) by nia. nia. }
  assert (0 <= R) by nia.
  rewrite Z.quot_div_nonneg by lia.
  symmetry. apply (Z.div_unique R P q (R - q * P)); [lia | ring].
Qed.

Lemma near_quot (R m K P : Z) :
  0 < K -> K < 2 * P ->
  - K <= 2 * (R * K - m * P) <= K -> R ÷ P = m ÷ K.
Proof.
  intros HK HP B. destruct (Z.le_gt_cases 0 m) as [Hm | Hm].
  - now apply near_quot_nonneg.
  - assert (- R ÷ P = - m ÷ K) as E by (apply near_quot_nonneg; lia).
    rewrite !Z.quot_opp_l in E by lia. lia.
Qed.

Lemma sgn_mul_abs (k : Z) : Z.sgn k * k = Z.abs k.
Proof. destruct k; reflexivity || (cbn; lia). Qed.

Lemma quot_sgn_abs (n k : Z) : (Z.sgn k * n) ÷ Z.abs k = n ÷ k.
Proof.
  destruct k as [ | p | p]; cbn [Z.sgn Z.abs].
  - now destruct n.
  - now rewrite Z.mul_1_l.
  - replace (-1 * n) with (- n) by ring.
    change (Z.pos p) with (- Z.neg p). now rewrite Z.quot_opp_opp by lia.
Qed.

(** The rounded quotient is what the mode makes of the numerator among
    the multiples of the denominator. *)
Lemma round_quotient_rounds_to (rm : RoundingMode) (n d : Z) :
  0 < d -> rounds_to rm n d (round_quotient rm n d * d).
Proof.
  intros Hd. unfold rounds_to.
  rewrite Z.mod_mul, Z.div_mul by lia.
  split; [reflexivity | ].
  pose proof (Z.div_mod n d ltac:(lia)) as E.
  pose proof (Z.mod_pos_bound n d Hd) as B.
  assert (0 <= n -> 0 <= n / d * d) as P.
  { intros Hn. pose proof (Z.div_pos n d Hn Hd). nia. }
  assert (n < 0 -> n / d * d + d <= 0) as N.
  { intros Hn. assert (n / d < 0) by (apply Z.div_lt_upper_bound; lia). nia. }
  unfold round_quotient.
  set (q := n / d) in *. set (r := n mod d) in *.
  destruct (Z.eqb_spec r 0) as [R0 | R0].
  - replace (q * d - n) with 0 by lia. replace (q * d) with n by lia.
    destruct rm; cbn; lia.
  - destruct rm; cbn [tie_up];
      try destruct (Z.leb_spec 0 n);
      try destruct (Z.compare_spec (2 * r) d);
      try (destruct (Z.odd q) eqn:O);
      cbn [negb];
      rewrite ?Z.mul_add_distr_r, ?Z.mul_1_l;
      repeat split; intros; try lia;
      rewrite ?Z.even_add, <- ?Z.negb_odd, ?O; reflexivity.
Qed.

(** ** [dividedBy] where it is exact *)

(** On two integers, the sign of the divisor goes to the numerator. *)
Lemma quotient_ofZ (n k : Z) :
  k <> 0 ->
  quotient (ofZ n) (ofZ k)
  = mk (round_quotient ROUND_HALF_UP (Z.sgn k * n * pow10 20) (Z.abs k)) 20.
Proof.
  intros Hk. unfold quotient, ofZ. cbn [coeff scale].
  change (pow10 0) with 1. change (0 + DECIMAL_PLACES)%nat with 20%nat.
  rewrite Z.mul_1_r. unfold ROUNDING_MODE.
  destruct (Z.ltb_spec k 0) as [L | L]; f_equal; f_equal;
    destruct k; cbn [Z.sgn Z.abs]; lia.
Qed.

Lemma integerValue_down (c : Z) (s : nat) :
  integerValue ROUND_DOWN (mk c s) = ofZ (c ÷ pow10 s).
Proof.
  unfold integerValue. cbn [coeff scale].
  now rewrite BigNumberFacts.round_down_quot by apply BigNumberFacts.pow10_pos.
Qed.

Lemma isZero_ofZ (k : Z) : isZero (ofZ k) = (k =? 0).
Proof. reflexivity. Qed.

(** By a power of ten, while the digits fit in the 20 decimal places. *)
Lemma quotient_pow10 (x : t) (k : nat) :
  (scale x + k <= 20)%nat ->
  quotient x (ofZ (10 ^ Z.of_nat k))
  = mk (coeff x * pow10 (20 - (scale x + k))) 20.
Proof.
  intros L. unfold quotient, ofZ. cbn [coeff scale].
  change (0 + DECIMAL_PLACES)%nat with 20%nat. fold (pow10 k).
  pose proof (BigNumberFacts.pow10_pos k).
  pose proof (BigNumberFacts.pow10_pos (scale x)).
  destruct (Z.ltb_spec (pow10 k * pow10 (scale x)) 0); [nia | ].
  f_equal.
  replace (coeff x * pow10 20)
    with (coeff x * pow10 (20 - (scale x + k)) * (pow10 k * pow10 (scale x))).
  - apply BigNumberFacts.round_quotient_exact. nia.
  - rewrite <- Z.mul_assoc. f_equal.
    rewrite <- !BigNumberFacts.pow10_add. f_equal. lia.
Qed.

(** The price comes out of [units * price / price]. *)
Lemma quotient_multipliedBy (u p : t) :
  isZero p = false -> (scale u <= 20)%nat ->
  quotient (multipliedBy u p) p = mk (coeff u * pow10 (20 - scale u)) 20.
Proof.
  intros Z0 L. unfold isZero in Z0. apply Z.eqb_neq in Z0.
  unfold quotient, multipliedBy. cbn [coeff scale].
  change DECIMAL_PLACES with 20%nat. unfold ROUNDING_MODE.
  pose proof (BigNumberFacts.pow10_pos (scale u + scale p)) as P.
  assert (coeff u * coeff p * pow10 (scale p + 20)
          = coeff u * pow10 (20 - scale u) * (coeff p * pow10 (scale u + scale p))) as E.
  { replace (pow10 (scale p + 20)) with (pow10 (20 - scale u) * pow10 (scale u + scale p))
      by (rewrite <- BigNumberFacts.pow10_add; f_equal; lia).
    ring. }
  f_equal. rewrite E.
  destruct (Z.ltb_spec (coeff p * pow10 (scale u + scale p)) 0).
  - rewrite <- Z.mul_opp_r. apply BigNumberFacts.round_quotient_exact. lia.
  - apply BigNumberFacts.round_quotient_exact. nia.
Qed.

(** The integer of microunits [round] keeps, on an integer. *)
Lemma rounded_units_ofZ (n : Z) (k : nat) (rm : RoundingMode) :
  (k <= 20)%nat ->
  rounded_units (ofZ n) k rm = round_quotient rm n (10 ^ Z.of_nat k) * 10 ^ Z.of_nat k.
Proof.
  intros L. unfold rounded_units.
  rewrite quotient_pow10 by (cbn [scale ofZ]; lia).
  cbn [coeff scale ofZ Nat.add]. f_equal.
  replace (pow10 20) with (10 ^ Z.of_nat k * pow10 (20 - k))
    by (fold (pow10 k); rewrite <- BigNumberFacts.pow10_add; f_equal; lia).
  apply round_quotient_scale;
    [apply Z.pow_pos_nonneg; lia | apply BigNumberFacts.pow10_pos].
Qed.

(** ** Values *)

(** [truncate] goes by the value. *)
Lemma truncate_comp (p q : Q) : (p == q)%Q -> truncate p = truncate q.
Proof.
  intros E. unfold truncate.
  now rewrite (Qleb_comp _ _ (Qeq_refl 0) _ _ E), (Qfloor_comp _ _ E), (Qceiling_comp _ _ E).
Qed.

Lemma truncate_inject_Z (n : Z) : truncate (inject_Z n) = n.
Proof.
  unfold truncate. rewrite Qfloor_Z, Qceiling_Z. now destruct (Qle_bool _ _).
Qed.

Lemma inject_Z_pow10_nonzero (n : nat) : ~ (inject_Z (pow10 n) == 0)%Q.
Proof.
  pose proof (BigNumberFacts.pow10_pos n) as P. unfold Qeq. cbn. lia.
Qed.

(** A decimal with zeros appended is worth the same. *)
Lemma toQ_scaled (c : Z) (s k : nat) : (toQ (mk (c * pow10 k) (s + k)) == toQ (mk c s))%Q.
Proof.
  unfold toQ. cbn [coeff scale]. rewrite BigNumberFacts.pow10_add, !inject_Z_mult.
  field. split; apply inject_Z_pow10_nonzero.
Qed.

(** The order of two decimals is the order of their values, and the
    sign of a decimal the sign of its coefficient. *)
Lemma compare_toQ (x y : t) : compare x y = (toQ x ?= toQ y)%Q.
Proof.
  rewrite (Qcompare_comp _ _ (BigNumberFacts.toQ_Qmake x) _ _ (BigNumberFacts.toQ_Qmake y)).
  unfold compare, Qcompare. cbn [Qnum Qden].
  now rewrite !Z2Pos.id by apply BigNumberFacts.pow10_pos.
Qed.


Lemma plus_ofZ (n m : Z) : plus (ofZ n) (ofZ m) = ofZ (n + m).
Proof. unfold plus, ofZ. cbn. f_equal. lia. Qed.

Lemma minus_ofZ (n m : Z) : minus (ofZ n) (ofZ m) = ofZ (n - m).
Proof. unfold minus, ofZ. cbn. f_equal. lia. Qed.

Lemma compare_ofZ_ofZ (n m : Z) : compare (ofZ n) (ofZ m) = (n ?= m).
Proof.
  unfold compare, ofZ. cbn [coeff scale]. change (pow10 0) with 1.
  now rewrite !Z.mul_1_r.
Qed.

End ArithmeticFacts.

Module AmountFacts.
Import ArithmeticFacts AssetAmount.

Lemma AssetId_eqb_refl (a : AssetId) : AssetId_eqb a a = true.
Proof. now destruct (AssetId_eqb_spec a a). Qed.

Lemma compare_ofZ (this : t) (n : Z) :
  BigNumber.compare (_microUnits this) (BigNumber.ofZ n) = raw_compare this n.
Proof.
  unfold raw_compare. rewrite compare_toQ.
  apply Qcompare_comp; [reflexivity | apply toQ_ofZ].
Qed.

(** What [fromStandardUnits] builds goes by the value it is given. *)
Lemma StandardUnits_mk (sigma : store) (r : ref) (x : BigNumber.t) :
  StandardUnits sigma r x
  = mk (BigNumber.ofZ (truncate (BigNumber.toQ x * unit_of (AssetInfo.decimals (sigma r))))) r.
Proof.
  pose proof (StandardUnits_raw sigma r x) as E.
  rewrite StandardUnits_truncate in E.
  assert (_assetInfo (StandardUnits sigma r x) = r) as I by reflexivity.
  destruct (StandardUnits sigma r x) as [raw i]. cbn [_microUnits _assetInfo] in *.
  now subst.
Qed.

Lemma StandardUnits_comp (sigma : store) (r : ref) (x y : BigNumber.t) :
  (BigNumber.toQ x == BigNumber.toQ y)%Q -> StandardUnits sigma r x = StandardUnits sigma r y.
Proof.
  intros E. rewrite !StandardUnits_mk. do 2 f_equal.
  apply truncate_comp. now rewrite E.
Qed.

Lemma standardBigNum_pow10 (sigma : store) (this : t) :
  standardBigNum sigma this
  = BigNumber.quotient (_microUnits this)
      (BigNumber.ofZ (10 ^ Z.of_nat (decimals sigma this))).
Proof.
  unfold standardBigNum, BigNumber.pow, BigNumber.ofZ.
  cbn [BigNumber.coeff BigNumber.scale]. now rewrite Nat.mul_0_l.
Qed.

Lemma zero_mk (sigma : store) (r : ref) : zero sigma r = mk (BigNumber.ofZ 0) r.
Proof. reflexivity. Qed.

(** ** Amounts that hold an integer *)

Lemma operand_ofZ (b : t) (m : Z) :
  _microUnits b = BigNumber.ofZ m -> Z.abs m < 10 ^ 21 ->
  operand b = Ok (BigNumber.ofZ m).
Proof.
  intros E B. rewrite operand_spec, E.
  cbn [BigNumber.coeff BigNumber.scale BigNumber.ofZ].
  change (BigNumber.pow10 0) with 1. rewrite Z.quot_1_r. cbv zeta.
  now destruct (Z.ltb_spec (Z.abs m) (10 ^ 21)); [ | lia].
Qed.

Lemma add_ofZ (sigma : store) (a b : t) (n m : Z) :
  _microUnits a = BigNumber.ofZ n ->
  _microUnits b = BigNumber.ofZ m -> Z.abs m < 10 ^ 21 ->
  assetId sigma a = assetId sigma b ->
  decimals sigma a = decimals sigma b ->
  add sigma a b = Ok (mk (BigNumber.ofZ (n + m)) (_assetInfo a))
  /\ subtract sigma a b = Ok (mk (BigNumber.ofZ (n - m)) (_assetInfo a)).
Proof.
  intros Ea Eb B I D. unfold add, subtract.
  rewrite !same_asset_spec, I, D, AssetId_eqb_refl, Nat.eqb_refl. cbn [bind].
  rewrite (operand_ofZ b m Eb B). cbn [bind].
  now rewrite !MicroUnits_OfDecimal, Ea, plus_ofZ, minus_ofZ.
Qed.

Lemma equals_ofZ (sigma : store) (a b : t) (n m : Z) :
  _microUnits a = BigNumber.ofZ n ->
  _microUnits b = BigNumber.ofZ m -> Z.abs m < 10 ^ 21 ->
  equals sigma a b
  = Ok (AssetId_eqb (assetId sigma a) (assetId sigma b)
        && Nat.eqb (decimals sigma a) (decimals sigma b)
        && (n =? m)).
Proof.
  intros Ea Eb B. unfold equals.
  destruct (AssetId_eqb _ _); [ | reflexivity].
  destruct (Nat.eqb _ _); [ | reflexivity].
  rewrite (operand_ofZ b m Eb B). cbn [bind andb].
  rewrite Ea. unfold BigNumber.isEqualTo. rewrite compare_ofZ_ofZ.
  destruct (Z.compare_spec n m); destruct (Z.eqb_spec n m); try reflexivity; lia.
Qed.

Lemma multiply_ofZ (sigma : store) (this : t) (n k : Z) :
  _microUnits this = BigNumber.ofZ n ->
  multiply sigma this (BigNumber.ofZ k) = mk (BigNumber.ofZ (n * k)) (_assetInfo this).
Proof.
  intros E. unfold multiply. rewrite MicroUnits_OfDecimal, E.
  unfold BigNumber.multipliedBy, BigNumber.ofZ.
  cbn [BigNumber.coeff BigNumber.scale Nat.add]. rewrite integerValue_down.
  change (BigNumber.pow10 0) with 1. now rewrite Z.quot_1_r.
Qed.

Lemma divide_ofZ (sigma : store) (this : t) (n k : Z) :
  _microUnits this = BigNumber.ofZ n -> k <> 0 -> Z.abs k < 2 * 10 ^ 20 ->
  divide sigma this (BigNumber.ofZ k) = Ok (mk (BigNumber.ofZ (n ÷ k)) (_assetInfo this)).
Proof.
  intros E Hk B. unfold divide. rewrite isZero_ofZ, E.
  destruct (Z.eqb_spec k 0) as [ | _]; [contradiction | ].
  rewrite MicroUnits_OfDecimal, quotient_ofZ, integerValue_down by assumption.
  do 3 f_equal. rewrite <- (quot_sgn_abs n k).
  apply near_quot; [lia | change (BigNumber.pow10 20) with (10 ^ 20); lia | ].
  rewrite <- Z.mul_assoc. apply round_half_up_error. lia.
Qed.

End AmountFacts.

Module StringFacts.
Import Format.

Lemma length_units (s : string) : List.length (units s) = String.length s.
Proof. induction s as [ | c s IH]; cbn; [reflexivity | now rewrite <- IH]. Qed.

Lemma length_of_units (l : list ascii) :
  String.length (string_of_list_ascii l) = List.length l.
Proof. induction l as [ | c l IH]; cbn; [reflexivity | now rewrite IH]. Qed.

Lemma length_append (s1 s2 : string) :
  String.length (s1 ++ s2) = (String.length s1 + String.length s2)%nat.
Proof. induction s1 as [ | c s1 IH]; cbn; [reflexivity | now rewrite IH]. Qed.

(** The code units from [n] on, [m] of them at most. *)
Lemma units_substring (s : string) (n m : nat) :
  string_of_list_ascii (firstn m (skipn n (units s))) = substring n m s.
Proof.
  revert n m. induction s as [ | c s IH]; intros n m.
  - destruct n, m; reflexivity.
  - destruct n as [ | n].
    + destruct m as [ | m]; [reflexivity | ].
      cbn. f_equal. apply (IH 0%nat m).
    + cbn. apply IH.
Qed.

Lemma length_substring (s : string) (n m : nat) :
  (n + m <= String.length s)%nat -> String.length (substring n m s) = m.
Proof.
  intros L.
  rewrite <- units_substring, length_of_units, length_firstn, length_skipn, length_units.
  lia.
Qed.

Lemma substring_all (s : string) : substring 0 (String.length s) s = s.
Proof. induction s as [ | c s IH]; cbn; [reflexivity | now rewrite IH]. Qed.

(** [slice] within the string. *)
Lemma slice_prefix (s : string) (p : Z) :
  0 <= p <= Z.of_nat (String.length s) ->
  slice s 0 (Some p) = substring 0 (Z.to_nat p) s.
Proof.
  intros B. unfold slice, relative.
  destruct (Z.ltb_spec p 0); [lia | ]. cbn [Z.ltb Z.compare].
  rewrite (Z.min_l 0), Z.min_l, Z.sub_0_r, Z.max_l by lia.
  apply units_substring.
Qed.

Lemma slice_suffix (s : string) (k : Z) :
  0 < k <= Z.of_nat (String.length s) ->
  slice s (- k) None
  = substring (String.length s - Z.to_nat k) (Z.to_nat k) s.
Proof.
  intros B. unfold slice, relative.
  destruct (Z.ltb_spec (- k) 0); [ | lia].
  rewrite !(Z.max_l _ 0) by lia.
  replace (Z.of_nat (String.length s) - (Z.of_nat (String.length s) + - k)) with k by ring.
  replace (Z.to_nat (Z.of_nat (String.length s) + - k))
    with (String.length s - Z.to_nat k)%nat by lia.
  apply units_substring.
Qed.

Lemma slice_from (s : string) (k : Z) :
  0 <= k ->
  slice s k None = substring (Z.to_nat k) (String.length s) s.
Proof.
  intros B. unfold slice, relative.
  destruct (Z.ltb_spec k 0); [lia | ].
  rewrite <- !units_substring.
  f_equal.
  destruct (Z.le_gt_cases k (Z.of_nat (String.length s))).
  - rewrite Z.min_l, Z.max_l by lia.
    rewrite !firstn_all2; [reflexivity | | ]; rewrite length_skipn, length_units; lia.
  - rewrite Z.min_r by lia. rewrite Z.sub_diag. cbn [Z.max Z.to_nat Z.compare firstn].
    rewrite (skipn_all2 (n := Z.to_nat k)) by (rewrite length_units; lia).
    now destruct (String.length s).
Qed.

End StringFacts.

Module TrimFacts.
Import Format AssetAmountFormat StringFacts.

Lemma units_append (s1 s2 : string) : units (s1 ++ s2) = units s1 ++ units s2.
Proof.
  unfold units. induction s1 as [ | c s1 IH]; cbn; [reflexivity | now rewrite IH].
Qed.

Lemma of_units_app (l1 l2 : list ascii) :
  string_of_list_ascii (l1 ++ l2)
  = (string_of_list_ascii l1 ++ string_of_list_ascii l2)%string.
Proof. induction l1 as [ | c l1 IH]; cbn; [reflexivity | now rewrite IH]. Qed.

Lemma of_units (s : string) : string_of_list_ascii (units s) = s.
Proof. apply string_of_list_ascii_of_string. Qed.

(** [Digits.strip 0] drops every zero the text ends with. *)
Lemma strip_rev_0 (l : list ascii) : Digits.strip_rev 0 l = drop_zeros l.
Proof.
  induction l as [ | c l IH]; [reflexivity | ].
  cbn [Digits.strip_rev drop_zeros List.length Nat.ltb Nat.leb].
  rewrite andb_true_r. now rewrite IH.
Qed.

(** The zeros dropped are those of the first part, when it is not zeros
    throughout. *)
Lemma drop_zeros_app (l1 l2 : list ascii) :
  drop_zeros l1 <> [] -> drop_zeros (l1 ++ l2) = drop_zeros l1 ++ l2.
Proof.
  induction l1 as [ | c l1 IH]; cbn; [congruence | ].
  destruct (Ascii.eqb c "0"); [exact IH | reflexivity].
Qed.

Lemma drop_zeros_app_nil (l1 l2 : list ascii) :
  drop_zeros l1 = [] -> drop_zeros (l1 ++ l2) = drop_zeros l2.
Proof.
  induction l1 as [ | c l1 IH]; cbn; [reflexivity | ].
  destruct (Ascii.eqb c "0"); [exact IH | discriminate].
Qed.

(** What is left after the zeros starts with a character of the text
    that is no zero. *)
Lemma drop_zeros_head (l : list ascii) (c : ascii) (t : list ascii) :
  drop_zeros l = c :: t -> In c l /\ Ascii.eqb c "0" = false.
Proof.
  induction l as [ | a l IH]; cbn; [discriminate | ].
  destruct (Ascii.eqb a "0") eqn:E.
  - intros H. destruct (IH H). tauto.
  - intros [= <- <-]. tauto.
Qed.

Lemma drop_zeros_fixed (l : list ascii) (c : ascii) :
  Ascii.eqb c "0" = false -> drop_zeros (c :: l) = c :: l.
Proof. intros E. cbn. now rewrite E. Qed.

Lemma includes_point_spec (s : string) :
  includes_point s = true <-> In "."%char (units s).
Proof.
  unfold includes_point. rewrite existsb_exists. split.
  - intros (c & I & E). apply Ascii.eqb_eq in E. now subst.
  - intros I. exists "."%char. split; [exact I | apply Ascii.eqb_refl].
Qed.

(** The zeros of the fraction go, and the point with them when nothing
    is left of the fraction; the integer part stays. *)
Lemma replace_trailing_zeros_fraction (ip fp : string) :
  fp <> EmptyString -> includes_point fp = false ->
  includes_point (ip ++ "." ++ fp) = true
  /\ replace_trailing_zeros (ip ++ "." ++ fp)
     = (ip ++ Digits.point (Digits.strip 0 fp))%string.
Proof.
  intros Hne Hp. split.
  - apply includes_point_spec. rewrite units_append. apply in_or_app. right. now left.
  - assert (~ In "."%char (units fp)) as NP.
    { intros I. apply includes_point_spec in I. congruence. }
    unfold replace_trailing_zeros, Digits.strip.
    fold (units fp). rewrite strip_rev_0.
    rewrite units_append. change (units ("." ++ fp)) with ("."%char :: units fp).
    rewrite rev_app_distr. cbn [rev]. rewrite <- app_assoc. cbn [app].
    assert (rev (units fp) <> []) as Hr.
    { intros E. apply (f_equal (@List.length ascii)) in E.
      rewrite length_rev, length_units in E. destruct fp; [congruence | discriminate]. }
    destruct (drop_zeros (rev (units fp))) as [ | c t] eqn:D.
    + (* the fraction is zeros throughout *)
      destruct (rev (units fp)) as [ | a l] eqn:R; [congruence | ].
      cbn [app]. cbn [drop_zeros] in D.
      destruct (Ascii.eqb a "0"); [ | discriminate].
      rewrite (drop_zeros_app_nil l _ D). cbn [drop_zeros drop_point rev].
      change (Ascii.eqb "." "0") with false. cbn [drop_point].
      change (Ascii.eqb "." ".") with true. cbv iota.
      rewrite rev_involutive, of_units. cbn [Digits.point].
      now rewrite TextFacts.append_empty.
    + destruct (drop_zeros_head _ _ _ D) as [I N].
      assert (Ascii.eqb c "." = false) as Nd.
      { apply Ascii.eqb_neq. intros ->. apply NP. now apply in_rev. }
      assert (string_of_list_ascii (rev (c :: t)) <> EmptyString) as Ns.
      { intros E. apply (f_equal String.length) in E.
        rewrite length_of_units, length_rev in E. discriminate. }
      assert (forall l : list ascii,
                 drop_zeros l = c :: t ->
                 string_of_list_ascii
                   (rev (drop_point (drop_zeros (l ++ "."%char :: rev (units ip)))))
                 = (ip ++ Digits.point (string_of_list_ascii (rev (c :: t))))%string) as K.
      { intros l Dl. rewrite drop_zeros_app by congruence. rewrite Dl.
        cbn [app drop_point]. rewrite Nd.
        change (c :: t ++ "."%char :: rev (units ip))
          with ((c :: t) ++ "."%char :: rev (units ip)).
        rewrite rev_app_distr. cbn [rev]. rewrite <- app_assoc. cbn [app].
        rewrite rev_involutive, of_units_app, of_units.
        change (rev t ++ [c]) with (rev (c :: t)).
        change (string_of_list_ascii ("."%char :: rev (c :: t)))
          with (String "." (string_of_list_ascii (rev (c :: t)))).
        destruct (string_of_list_ascii (rev (c :: t))) eqn:S; [congruence | ].
        reflexivity. }
      destruct (rev (units fp)) as [ | a l] eqn:R; [congruence | ].
      cbn [app]. destruct (Ascii.eqb a "0") eqn:A.
      * cbn [drop_zeros] in D. rewrite A in D. now apply K.
      * rewrite (drop_zeros_fixed l a A) in D. injection D as <- <-.
        rewrite <- R, rev_involutive, of_units.
        destruct fp; [congruence | reflexivity].
Qed.

End TrimFacts.

(* ================================================================== *)
(** * The rest of [asset-amount.ts]: properties *)
(* ================================================================== *)

Import ArithmeticFacts AmountFacts.

(** ** The orderings *)

(** [isGreaterThan], [isLessThan], [isGreaterThanOrEqualTo] and
    [isLessThanOrEqualTo] throw the asset-id error of a comparison, naming
    the two ids, exactly when the ids differ, and the decimals error
    exactly when the ids agree and the decimals differ. On one identity
    they take the integer microunits of [other] (which throws from
    [10^21] on) and answer by the order of the raw value of [this] and
    that integer. *)
Theorem orderings_spec (sigma : store) (this other : AssetAmount.t) :
  (AssetAmount.assetId sigma this <> AssetAmount.assetId sigma other ->
   Forall (fun method : store -> AssetAmount.t -> AssetAmount.t -> result bool =>
             method sigma this other
             = Throw (AssetIdentityMismatch "compare" (AssetAmount.assetId sigma this)
                        (AssetAmount.assetId sigma other)))
     [AssetAmount.isGreaterThan; AssetAmount.isLessThan;
      AssetAmount.isGreaterThanOrEqualTo; AssetAmount.isLessThanOrEqualTo])
  /\ (AssetAmount.assetId sigma this = AssetAmount.assetId sigma other ->
      AssetAmount.decimals sigma this <> AssetAmount.decimals sigma other ->
      Forall (fun method : store -> AssetAmount.t -> AssetAmount.t -> result bool =>
                method sigma this other = Throw (DecimalsMismatch "compare"))
        [AssetAmount.isGreaterThan; AssetAmount.isLessThan;
         AssetAmount.isGreaterThanOrEqualTo; AssetAmount.isLessThanOrEqualTo])
  /\ (AssetAmount.assetId sigma this = AssetAmount.assetId sigma other ->
      AssetAmount.decimals sigma this = AssetAmount.decimals sigma other ->
      AssetAmount.isGreaterThan sigma this other
      = (n <- AssetAmount.microUnits other ;;
         Ok (match raw_compare this n with Gt => true | _ => false end))
      /\ AssetAmount.isLessThan sigma this other
         = (n <- AssetAmount.microUnits other ;;
            Ok (match raw_compare this n with Lt => true | _ => false end))
      /\ AssetAmount.isGreaterThanOrEqualTo sigma this other
         = (n <- AssetAmount.microUnits other ;;
            Ok (match raw_compare this n with Lt => false | _ => true end))
      /\ AssetAmount.isLessThanOrEqualTo sigma this other
         = (n <- AssetAmount.microUnits other ;;
            Ok (match raw_compare this n with Gt => false | _ => true end))).
Proof.
  unfold AssetAmount.isGreaterThan, AssetAmount.isLessThan,
    AssetAmount.isGreaterThanOrEqualTo, AssetAmount.isLessThanOrEqualTo,
    AssetAmount.operand.
  repeat rewrite !Forall_cons_iff. rewrite !same_asset_spec.
  destruct (AssetId_eqb_spec (AssetAmount.assetId sigma this)
              (AssetAmount.assetId sigma other)) as [I | I];
    destruct (Nat.eqb_spec (AssetAmount.decimals sigma this)
                (AssetAmount.decimals sigma other)) as [D | D];
    repeat split; intros; try congruence; try apply Forall_nil; cbn [bind];
    destruct (AssetAmount.microUnits other) as [n | e]; cbn [bind]; try reflexivity;
    unfold BigNumber.isGreaterThanOrEqualTo, BigNumber.isLessThanOrEqualTo,
      BigNumber.isGreaterThan, BigNumber.isLessThan;
    rewrite ofString_bigint, compare_ofZ; now destruct (raw_compare this n).
Qed.

(** Whenever [isGreaterThan] returns, so do the three other orderings
    and [equals], on one comparison: exactly one of greater, less and
    equal holds, [isGreaterThanOrEqualTo] is greater or equal and
    [isLessThanOrEqualTo] less or equal. *)
Theorem orderings_trichotomy (sigma : store) (this other : AssetAmount.t) (g : bool) :
  AssetAmount.isGreaterThan sigma this other = Ok g ->
  exists l e : bool,
    AssetAmount.isLessThan sigma this other = Ok l
    /\ AssetAmount.equals sigma this other = Ok e
    /\ AssetAmount.isGreaterThanOrEqualTo sigma this other = Ok (g || e)
    /\ AssetAmount.isLessThanOrEqualTo sigma this other = Ok (l || e)
    /\ (g = true /\ l = false /\ e = false
        \/ g = false /\ l = true /\ e = false
        \/ g = false /\ l = false /\ e = true).
Proof.
  unfold AssetAmount.isGreaterThan, AssetAmount.isLessThan,
    AssetAmount.isGreaterThanOrEqualTo, AssetAmount.isLessThanOrEqualTo,
    AssetAmount.equals.
  rewrite !same_asset_spec.
  destruct (AssetId_eqb _ _); [ | discriminate].
  destruct (Nat.eqb _ _); [ | discriminate].
  cbn [bind]. destruct (AssetAmount.operand other) as [o | e]; [ | discriminate].
  cbn [bind]. intros [= <-].
  unfold BigNumber.isGreaterThanOrEqualTo, BigNumber.isLessThanOrEqualTo,
    BigNumber.isGreaterThan, BigNumber.isLessThan, BigNumber.isEqualTo.
  do 2 eexists. repeat split; try reflexivity;
    destruct (BigNumber.compare _ o); cbn; tauto.
Qed.

Lemma orderings_trichotomy_witness :
  exists l e : bool,
    AssetAmount.isLessThan heap three one_and_a_half = Ok l
    /\ AssetAmount.equals heap three one_and_a_half = Ok e
    /\ AssetAmount.isGreaterThanOrEqualTo heap three one_and_a_half = Ok (true || e)
    /\ AssetAmount.isLessThanOrEqualTo heap three one_and_a_half = Ok (l || e)
    /\ (true = true /\ l = false /\ e = false
        \/ true = false /\ l = true /\ e = false
        \/ true = false /\ l = false /\ e = true).
Proof. apply (orderings_trichotomy heap three one_and_a_half true). reflexivity. Defined.

(** An amount compared with itself, when its integer accessor returns:
    it equals itself exactly when its raw value is an integer; one with a
    fraction is greater than itself when positive and less than itself
    when negative. *)
Theorem comparing_an_amount_with_itself (sigma : store) (a : AssetAmount.t) :
  AssetAmount.equals sigma a a
  = (_ <- AssetAmount.microUnits a ;; Ok (is_integer (AssetAmount._microUnits a)))
  /\ AssetAmount.isGreaterThan sigma a a
     = (_ <- AssetAmount.microUnits a ;;
        Ok (negb (is_integer (AssetAmount._microUnits a)) && AssetAmount.isPositive a))
  /\ AssetAmount.isLessThan sigma a a
     = (_ <- AssetAmount.microUnits a ;;
        Ok (negb (is_integer (AssetAmount._microUnits a)) && AssetAmount.isNegative a)).
Proof.
  unfold AssetAmount.equals, AssetAmount.isGreaterThan, AssetAmount.isLessThan.
  rewrite !same_asset_spec, AssetId_eqb_refl, Nat.eqb_refl, operand_spec, microUnits_spec.
  cbv zeta. destruct a as [[c s] i].
  cbn [AssetAmount._microUnits BigNumber.coeff BigNumber.scale].
  destruct (_ <? 10 ^ 21); cbn [bind]; [ | now repeat split].
  unfold BigNumber.isEqualTo, BigNumber.isGreaterThan, BigNumber.isLessThan,
    BigNumber.compare, is_integer, AssetAmount.isPositive, AssetAmount.isNegative,
    BigNumber.isPositive, BigNumber.isNegative, BigNumber.ofZ.
  cbn [AssetAmount._microUnits BigNumber.coeff BigNumber.scale].
  change (BigNumber.pow10 0) with 1. rewrite Z.mul_1_r.
  destruct (quot_rem_facts c (BigNumber.pow10 s) (pow10_pos s)) as (E & Z0 & P & N).
  set (q := c ÷ BigNumber.pow10 s) in *. set (p := BigNumber.pow10 s) in *.
  set (r := Z.rem c p) in *.
  destruct (Z.compare_spec c (q * p)) as [H | H | H];
    destruct (Z.eqb_spec (c mod p) 0) as [M | M];
    destruct (Z.ltb_spec c 0) as [L | L]; cbn;
    repeat split; try reflexivity; exfalso; lia.
Qed.

(** ** Amounts that hold an integer *)

(** On two amounts that hold integers [n] and [m], [m] below [10^21] in
    magnitude: [equals] answers whether the identities agree and [n = m],
    and the same both ways round; on one identity the orderings are those
    of [n] and [m]. *)
Theorem comparisons_of_integer_amounts (sigma : store) (a b : AssetAmount.t) (n m : Z) :
  AssetAmount._microUnits a = BigNumber.ofZ n ->
  AssetAmount._microUnits b = BigNumber.ofZ m -> Z.abs m < 10 ^ 21 ->
  AssetAmount.equals sigma a b
  = Ok (AssetId_eqb (AssetAmount.assetId sigma a) (AssetAmount.assetId sigma b)
        && Nat.eqb (AssetAmount.decimals sigma a) (AssetAmount.decimals sigma b)
        && (n =? m))
  /\ (Z.abs n < 10 ^ 21 ->
      AssetAmount.equals sigma b a = AssetAmount.equals sigma a b)
  /\ (AssetAmount.assetId sigma a = AssetAmount.assetId sigma b ->
      AssetAmount.decimals sigma a = AssetAmount.decimals sigma b ->
      AssetAmount.isGreaterThan sigma a b = Ok (m <? n)
      /\ AssetAmount.isLessThan sigma a b = Ok (n <? m)
      /\ AssetAmount.isGreaterThanOrEqualTo sigma a b = Ok (m <=? n)
      /\ AssetAmount.isLessThanOrEqualTo sigma a b = Ok (n <=? m)).
Proof.
  intros Ea Eb B. split; [now apply equals_ofZ | split].
  - intros Bn.
    rewrite (equals_ofZ sigma a b n m), (equals_ofZ sigma b a m n) by assumption.
    f_equal. rewrite (Z.eqb_sym m n), (Nat.eqb_sym (AssetAmount.decimals sigma b)).
    do 2 f_equal.
    destruct (AssetId_eqb_spec (AssetAmount.assetId sigma a) (AssetAmount.assetId sigma b));
      destruct (AssetId_eqb_spec (AssetAmount.assetId sigma b) (AssetAmount.assetId sigma a));
      congruence.
  - intros I D.
    unfold AssetAmount.isGreaterThan, AssetAmount.isLessThan,
      AssetAmount.isGreaterThanOrEqualTo, AssetAmount.isLessThanOrEqualTo.
    rewrite !same_asset_spec, I, D, AssetId_eqb_refl, Nat.eqb_refl. cbn [bind].
    rewrite (operand_ofZ b m Eb B), Ea. cbn [bind].
    unfold BigNumber.isGreaterThanOrEqualTo, BigNumber.isLessThanOrEqualTo,
      BigNumber.isGreaterThan, BigNumber.isLessThan.
    rewrite compare_ofZ_ofZ.
    destruct (Z.compare_spec n m); destruct (Z.ltb_spec m n); destruct (Z.ltb_spec n m);
      destruct (Z.leb_spec m n); destruct (Z.leb_spec n m);
      repeat split; try reflexivity; lia.
Qed.

Lemma comparisons_of_integer_amounts_witness :
  AssetAmount.equals heap three one
  = Ok (AssetId_eqb (AssetAmount.assetId heap three) (AssetAmount.assetId heap one)
        && Nat.eqb (AssetAmount.decimals heap three) (AssetAmount.decimals heap one)
        && (3 =? 1))
  /\ (Z.abs 3 < 10 ^ 21 ->
      AssetAmount.equals heap one three = AssetAmount.equals heap three one)
  /\ (AssetAmount.assetId heap three = AssetAmount.assetId heap one ->
      AssetAmount.decimals heap three = AssetAmount.decimals heap one ->
      AssetAmount.isGreaterThan heap three one = Ok (1 <? 3)
      /\ AssetAmount.isLessThan heap three one = Ok (3 <? 1)
      /\ AssetAmount.isGreaterThanOrEqualTo heap three one = Ok (1 <=? 3)
      /\ AssetAmount.isLessThanOrEqualTo heap three one = Ok (3 <=? 1)).
Proof. apply (comparisons_of_integer_amounts heap three one 3 1); reflexivity. Defined.

(** On two amounts of one identity that hold integers [n] and [m], [m]
    below [10^21] in magnitude, [add] returns the amount that holds
    [n + m] and [subtract] the one that holds [n - m], under the identity
    of the first. *)
Theorem sums_of_integer_amounts (sigma : store) (a b : AssetAmount.t) (n m : Z) :
  AssetAmount._microUnits a = BigNumber.ofZ n ->
  AssetAmount._microUnits b = BigNumber.ofZ m -> Z.abs m < 10 ^ 21 ->
  AssetAmount.assetId sigma a = AssetAmount.assetId sigma b ->
  AssetAmount.decimals sigma a = AssetAmount.decimals sigma b ->
  AssetAmount.add sigma a b
  = Ok (AssetAmount.mk (BigNumber.ofZ (n + m)) (AssetAmount._assetInfo a))
  /\ AssetAmount.subtract sigma a b
     = Ok (AssetAmount.mk (BigNumber.ofZ (n - m)) (AssetAmount._assetInfo a)).
Proof. apply add_ofZ. Qed.

Lemma sums_of_integer_amounts_witness :
  AssetAmount.add heap three one
  = Ok (AssetAmount.mk (BigNumber.ofZ (3 + 1)) (AssetAmount._assetInfo three))
  /\ AssetAmount.subtract heap three one
     = Ok (AssetAmount.mk (BigNumber.ofZ (3 - 1)) (AssetAmount._assetInfo three)).
Proof. apply (sums_of_integer_amounts heap three one 3 1); reflexivity. Defined.

(** An amount that holds an integer below [10^21] in magnitude equals
    itself, equals what [fromJSON] rebuilds from its [toJSON], and equals
    what is left when an amount of its kind is added to it and subtracted
    again. *)
Theorem round_trips_of_integer_amounts (sigma : store) (a b : AssetAmount.t) (n m : Z) :
  AssetAmount._microUnits a = BigNumber.ofZ n -> Z.abs n < 10 ^ 21 ->
  AssetAmount.equals sigma a a = Ok true
  /\ AssetAmount.equals sigma (AssetAmount.fromJSON sigma (AssetAmount.toJSON a)) a = Ok true
  /\ (AssetAmount._microUnits b = BigNumber.ofZ m -> Z.abs m < 10 ^ 21 ->
      AssetAmount.assetId sigma a = AssetAmount.assetId sigma b ->
      AssetAmount.decimals sigma a = AssetAmount.decimals sigma b ->
      (r <- AssetAmount.add sigma a b ;;
       r' <- AssetAmount.subtract sigma r b ;;
       AssetAmount.equals sigma r' a) = Ok true).
Proof.
  intros Ea Bn.
  assert (AssetAmount.equals sigma a a = Ok true) as R.
  { rewrite (equals_ofZ sigma a a n n Ea Ea Bn), AssetId_eqb_refl, Nat.eqb_refl, Z.eqb_refl.
    reflexivity. }
  repeat split; [exact R | | ].
  - unfold AssetAmount.fromJSON, AssetAmount.toJSON.
    cbn [AssetAmount.json_assetInfo AssetAmount.json_microUnits].
    rewrite MicroUnits_OfDecimal, ofString_toString.
    destruct a as [raw i]. exact R.
  - intros Eb Bm I D.
    destruct (add_ofZ sigma a b n m Ea Eb Bm I D) as [-> _]. cbn [bind].
    destruct (add_ofZ sigma
                (AssetAmount.mk (BigNumber.ofZ (n + m)) (AssetAmount._assetInfo a))
                b (n + m) m eq_refl Eb Bm I D) as [_ ->].
    cbn [bind AssetAmount._assetInfo].
    replace (n + m - m) with n by ring.
    destruct a as [raw i]. cbn [AssetAmount._microUnits AssetAmount._assetInfo] in *.
    subst raw. exact R.
Qed.

Lemma round_trips_of_integer_amounts_witness :
  AssetAmount.equals heap three three = Ok true
  /\ AssetAmount.equals heap (AssetAmount.fromJSON heap (AssetAmount.toJSON three)) three
     = Ok true
  /\ (AssetAmount._microUnits one = BigNumber.ofZ 1 -> Z.abs 1 < 10 ^ 21 ->
      AssetAmount.assetId heap three = AssetAmount.assetId heap one ->
      AssetAmount.decimals heap three = AssetAmount.decimals heap one ->
      (r <- AssetAmount.add heap three one ;;
       r' <- AssetAmount.subtract heap r one ;;
       AssetAmount.equals heap r' three) = Ok true).
Proof. apply (round_trips_of_integer_amounts heap three one 3 1); reflexivity. Defined.

(** ** Zero and the sign *)

(** The zero amount of an asset added to, or subtracted from, an amount
    of that asset gives the amount back, fraction included. *)
Theorem zero_is_neutral (sigma : store) (a : AssetAmount.t) :
  AssetAmount.add sigma a (AssetAmount.zero sigma (AssetAmount._assetInfo a)) = Ok a
  /\ AssetAmount.subtract sigma a (AssetAmount.zero sigma (AssetAmount._assetInfo a)) = Ok a
  /\ AssetAmount.isZero (AssetAmount.zero sigma (AssetAmount._assetInfo a)) = true.
Proof.
  unfold AssetAmount.add, AssetAmount.subtract. rewrite !same_asset_spec.
  rewrite zero_mk. unfold AssetAmount.assetId, AssetAmount.decimals.
  cbn [AssetAmount._assetInfo]. rewrite AssetId_eqb_refl, Nat.eqb_refl. cbn [bind].
  rewrite operand_spec.
  cbn [AssetAmount._microUnits BigNumber.coeff BigNumber.scale BigNumber.ofZ].
  change (0 ÷ BigNumber.pow10 0) with 0. change (Z.abs 0 <? 10 ^ 21) with true.
  cbn [bind]. rewrite !MicroUnits_OfDecimal.
  destruct a as [[c s] i]. cbn [AssetAmount._microUnits AssetAmount._assetInfo].
  unfold BigNumber.plus, BigNumber.minus, BigNumber.ofZ.
  cbn [BigNumber.coeff BigNumber.scale].
  rewrite Nat.max_0_r, Nat.sub_diag. change (BigNumber.pow10 0) with 1.
  repeat split; do 3 f_equal; ring.
Qed.


(** ** Asset ids of two kinds *)

(** An id that is the number [n] and an id that is the bigint [n] are
    two ids: [add], [subtract], the orderings and [percentageOf] throw the
    asset-id error on such a pair, with a message that shows the same
    digits twice, and [equals] answers [false]. *)
Theorem number_and_bigint_ids_never_match
    (sigma : store) (this other : AssetAmount.t) (n : Z) :
  0 <= n < 2 ^ 53 ->
  AssetAmount.assetId sigma this = IdNumber n ->
  AssetAmount.assetId sigma other = IdBigInt n ->
  AssetAmount.add sigma this other
  = Throw (AssetIdentityMismatch "add" (IdNumber n) (IdBigInt n))
  /\ AssetAmount.subtract sigma this other
     = Throw (AssetIdentityMismatch "subtract" (IdNumber n) (IdBigInt n))
  /\ AssetAmount.isGreaterThan sigma this other
     = Throw (AssetIdentityMismatch "compare" (IdNumber n) (IdBigInt n))
  /\ AssetAmount.percentageOf sigma this other
     = Throw (AssetIdentityMismatch "compare" (IdNumber n) (IdBigInt n))
  /\ AssetAmount.equals sigma this other = Ok false
  /\ message (AssetIdentityMismatch "add" (IdNumber n) (IdBigInt n))
     = ("Cannot add AssetAmounts with different asset IDs ("
          ++ Digits.digits n ++ " and " ++ Digits.digits n ++ ")")%string.
Proof.
  intros B I J.
  unfold AssetAmount.add, AssetAmount.subtract, AssetAmount.isGreaterThan,
    AssetAmount.percentageOf, AssetAmount.equals.
  rewrite !same_asset_spec, I, J. repeat split.
  unfold message, AssetId_toString, Digits.digits. now destruct n.
Qed.

Lemma number_and_bigint_ids_never_match_witness :
  AssetAmount.add bigint_heap one
    (AssetAmount.zero heap other)
  = Throw (AssetIdentityMismatch "add" (IdNumber 123) (IdBigInt 123))
  /\ AssetAmount.subtract bigint_heap one
       (AssetAmount.zero heap other)
     = Throw (AssetIdentityMismatch "subtract" (IdNumber 123) (IdBigInt 123))
  /\ AssetAmount.isGreaterThan bigint_heap one (AssetAmount.zero heap other)
     = Throw (AssetIdentityMismatch "compare" (IdNumber 123) (IdBigInt 123))
  /\ AssetAmount.percentageOf bigint_heap one (AssetAmount.zero heap other)
     = Throw (AssetIdentityMismatch "compare" (IdNumber 123) (IdBigInt 123))
  /\ AssetAmount.equals bigint_heap one
       (AssetAmount.zero heap other)
     = Ok false
  /\ message (AssetIdentityMismatch "add" (IdNumber 123) (IdBigInt 123))
     = ("Cannot add AssetAmounts with different asset IDs ("
          ++ Digits.digits 123 ++ " and " ++ Digits.digits 123 ++ ")")%string.
Proof.
  apply (number_and_bigint_ids_never_match bigint_heap one
           (AssetAmount.zero heap other) 123);
    [lia | reflexivity | reflexivity].
Defined.

(** ** Multiplication and division by an integer *)

(** [divide] throws "Division by zero" on the scalar zero. On an amount
    that holds the integer [n], by an integer [k] other than zero and
    below [2 * 10^20] in magnitude, it returns the amount that holds the
    integer part of [n / k]: the rounding of the quotient to 20 decimal
    places cannot reach the next integer. *)
Theorem divide_by_an_integer (sigma : store) (this : AssetAmount.t) (n k : Z) :
  AssetAmount._microUnits this = BigNumber.ofZ n ->
  (k = 0 -> AssetAmount.divide sigma this (BigNumber.ofZ k) = Throw DivisionByZero)
  /\ (k <> 0 -> Z.abs k < 2 * 10 ^ 20 ->
      AssetAmount.divide sigma this (BigNumber.ofZ k)
      = Ok (AssetAmount.mk (BigNumber.ofZ (n ÷ k)) (AssetAmount._assetInfo this))).
Proof.
  intros E. split.
  - now intros ->.
  - now apply divide_ofZ.
Qed.

Lemma divide_by_an_integer_witness :
  (3 = 0 ->
   AssetAmount.divide heap (AssetAmount.MicroUnits heap xyz (AssetAmount.OfBigInt 10))
     (BigNumber.ofZ 3)
   = Throw DivisionByZero)
  /\ (3 <> 0 -> Z.abs 3 < 2 * 10 ^ 20 ->
      AssetAmount.divide heap (AssetAmount.MicroUnits heap xyz (AssetAmount.OfBigInt 10))
        (BigNumber.ofZ 3)
      = Ok (AssetAmount.mk (BigNumber.ofZ (10 ÷ 3))
              (AssetAmount._assetInfo
                 (AssetAmount.MicroUnits heap xyz (AssetAmount.OfBigInt 10))))).
Proof.
  apply (divide_by_an_integer heap
           (AssetAmount.MicroUnits heap xyz (AssetAmount.OfBigInt 10)) 10 3).
  reflexivity.
Defined.

(** The bound is the least: [2 * 10^20 - 1] microunits divided by
    [2 * 10^20] are 1 microunit, where the integer part of the quotient
    is 0. *)
Example divide_rounds_up_at_2e20 :
  AssetAmount.divide heap
    (AssetAmount.MicroUnits heap xyz (AssetAmount.OfBigInt (2 * 10 ^ 20 - 1)))
    (BigNumber.ofZ (2 * 10 ^ 20))
  = Ok (AssetAmount.MicroUnits heap xyz (AssetAmount.OfBigInt 1))
  /\ (2 * 10 ^ 20 - 1) ÷ (2 * 10 ^ 20) = 0.
Proof. split; reflexivity. Qed.

(** On an amount that holds the integer [n], [multiply] by an integer
    [k] returns the amount that holds [n * k]; dividing that by [k] again
    gives the amount back; and dividing first, then multiplying, gives
    the amount less the remainder of [n] by [k]. *)
Theorem multiply_then_divide (sigma : store) (this : AssetAmount.t) (n k : Z) :
  AssetAmount._microUnits this = BigNumber.ofZ n ->
  AssetAmount.multiply sigma this (BigNumber.ofZ k)
  = AssetAmount.mk (BigNumber.ofZ (n * k)) (AssetAmount._assetInfo this)
  /\ (k <> 0 ->
      AssetAmount.divide sigma (AssetAmount.multiply sigma this (BigNumber.ofZ k))
        (BigNumber.ofZ k)
      = Ok this)
  /\ (k <> 0 -> Z.abs k < 2 * 10 ^ 20 ->
      (q <- AssetAmount.divide sigma this (BigNumber.ofZ k) ;;
       Ok (AssetAmount.multiply sigma q (BigNumber.ofZ k)))
      = Ok (AssetAmount.mk (BigNumber.ofZ (n - Z.rem n k)) (AssetAmount._assetInfo this))).
Proof.
  intros E. rewrite (multiply_ofZ sigma this n k E). repeat split.
  - intros Hk. unfold AssetAmount.divide. rewrite isZero_ofZ.
    destruct (Z.eqb_spec k 0) as [ | _]; [contradiction | ].
    cbn [AssetAmount._microUnits AssetAmount._assetInfo].
    rewrite MicroUnits_OfDecimal, quotient_ofZ, integerValue_down by assumption.
    replace (Z.sgn k * (n * k) * BigNumber.pow10 20)
      with (n * BigNumber.pow10 20 * Z.abs k)
      by (rewrite <- sgn_mul_abs; ring).
    rewrite round_quotient_exact by lia.
    rewrite Z.quot_mul by (pose proof (pow10_pos 20); lia).
    destruct this as [raw i]. cbn [AssetAmount._microUnits AssetAmount._assetInfo] in *.
    now subst raw.
  - intros Hk B. rewrite (divide_ofZ sigma this n k E Hk B). cbn [bind].
    rewrite (multiply_ofZ sigma
               (AssetAmount.mk (BigNumber.ofZ (n ÷ k)) (AssetAmount._assetInfo this))
               (n ÷ k) k eq_refl).
    cbn [AssetAmount._assetInfo].
    do 3 f_equal. pose proof (Z.quot_rem' n k). lia.
Qed.

Lemma multiply_then_divide_witness :
  AssetAmount.multiply heap three (BigNumber.ofZ 7)
  = AssetAmount.mk (BigNumber.ofZ (3 * 7)) (AssetAmount._assetInfo three)
  /\ (7 <> 0 ->
      AssetAmount.divide heap (AssetAmount.multiply heap three (BigNumber.ofZ 7))
        (BigNumber.ofZ 7)
      = Ok three)
  /\ (7 <> 0 -> Z.abs 7 < 2 * 10 ^ 20 ->
      (q <- AssetAmount.divide heap three (BigNumber.ofZ 7) ;;
       Ok (AssetAmount.multiply heap q (BigNumber.ofZ 7)))
      = Ok (AssetAmount.mk (BigNumber.ofZ (3 - Z.rem 3 7)) (AssetAmount._assetInfo three))).
Proof. apply (multiply_then_divide heap three 3 7). reflexivity. Defined.

(** ** Rounding an integer of microunits *)

(** On an amount that holds the integer [n], [round] to fewer places
    than the asset has, with at most 20 digits to remove, returns the
    amount that holds what the rounding mode makes of [n] among the
    multiples of [10^(decimals - decimalPlaces)]: the division to 20
    decimal places that comes first is exact. *)
Theorem round_of_an_integer
    (sigma : store) (this : AssetAmount.t) (n d : Z) (rm : BigNumber.RoundingMode) :
  AssetAmount._microUnits this = BigNumber.ofZ n ->
  d < Z.of_nat (AssetAmount.decimals sigma this) ->
  Z.of_nat (AssetAmount.decimals sigma this) - d <= 20 ->
  exists R : Z,
    AssetAmount.round sigma this d rm
    = AssetAmount.mk (BigNumber.ofZ R) (AssetAmount._assetInfo this)
    /\ rounds_to rm n (10 ^ (Z.of_nat (AssetAmount.decimals sigma this) - d)) R.
Proof.
  intros E L B.
  exists (BigNumber.round_quotient rm n (10 ^ (Z.of_nat (AssetAmount.decimals sigma this) - d))
          * 10 ^ (Z.of_nat (AssetAmount.decimals sigma this) - d)).
  split.
  - rewrite round_spec.
    destruct (Z.leb_spec (Z.of_nat (AssetAmount.decimals sigma this)) d); [lia | ].
    rewrite E, rounded_units_ofZ by lia.
    now rewrite Z2Nat.id by lia.
  - apply round_quotient_rounds_to. apply Z.pow_pos_nonneg; lia.
Qed.

Lemma round_of_an_integer_witness :
  exists R : Z,
    AssetAmount.round heap (AssetAmount.MicroUnits heap xyz (AssetAmount.OfBigInt 5555550))
      2 BigNumber.ROUND_HALF_UP
    = AssetAmount.mk (BigNumber.ofZ R)
        (AssetAmount._assetInfo
           (AssetAmount.MicroUnits heap xyz (AssetAmount.OfBigInt 5555550)))
    /\ rounds_to BigNumber.ROUND_HALF_UP 5555550
         (10 ^ (Z.of_nat
                  (AssetAmount.decimals heap
                     (AssetAmount.MicroUnits heap xyz (AssetAmount.OfBigInt 5555550)))
                - 2))
         R.
Proof.
  apply (round_of_an_integer heap
           (AssetAmount.MicroUnits heap xyz (AssetAmount.OfBigInt 5555550)) 5555550 2
           BigNumber.ROUND_HALF_UP);
    [reflexivity | reflexivity | simpl; lia].
Defined.

(** ** Standard units *)

(** While the decimal places of the raw value and the decimals of the
    asset are 20 together at most, [standardBigNum] is the raw value
    over [10^decimals] exactly, and [fromStandardUnits] of it holds the
    integer part of the raw value: the amount itself, when it holds an
    integer. *)
Theorem standardBigNum_is_exact (sigma : store) (this : AssetAmount.t) :
  (BigNumber.scale (AssetAmount._microUnits this) + AssetAmount.decimals sigma this
   <= 20)%nat ->
  (BigNumber.toQ (AssetAmount.standardBigNum sigma this)
   == BigNumber.toQ (AssetAmount._microUnits this)
      / unit_of (AssetAmount.decimals sigma this))%Q
  /\ AssetAmount.StandardUnits sigma (AssetAmount._assetInfo this)
       (AssetAmount.standardBigNum sigma this)
     = AssetAmount.mk
         (BigNumber.ofZ (truncate (BigNumber.toQ (AssetAmount._microUnits this))))
         (AssetAmount._assetInfo this)
  /\ (forall n : Z,
      AssetAmount._microUnits this = BigNumber.ofZ n ->
      AssetAmount.StandardUnits sigma (AssetAmount._assetInfo this)
        (AssetAmount.standardBigNum sigma this)
      = this).
Proof.
  intros L.
  assert (BigNumber.toQ (AssetAmount.standardBigNum sigma this)
          == BigNumber.toQ (AssetAmount._microUnits this)
             / unit_of (AssetAmount.decimals sigma this))%Q as V.
  { rewrite standardBigNum_pow10, quotient_pow10 by exact L.
    destruct (AssetAmount._microUnits this) as [c s].
    cbn [BigNumber.coeff BigNumber.scale] in *.
    unfold BigNumber.toQ, unit_of. cbn [BigNumber.coeff BigNumber.scale].
    fold (BigNumber.pow10 (AssetAmount.decimals sigma this)).
    replace (BigNumber.pow10 20)
      with (BigNumber.pow10 (20 - (s + AssetAmount.decimals sigma this))
            * BigNumber.pow10 s * BigNumber.pow10 (AssetAmount.decimals sigma this))
      by (rewrite <- !pow10_add; f_equal; lia).
    rewrite !inject_Z_mult. field. repeat split; apply inject_Z_pow10_nonzero. }
  assert (AssetAmount.StandardUnits sigma (AssetAmount._assetInfo this)
            (AssetAmount.standardBigNum sigma this)
          = AssetAmount.mk
              (BigNumber.ofZ (truncate (BigNumber.toQ (AssetAmount._microUnits this))))
              (AssetAmount._assetInfo this)) as R.
  { rewrite StandardUnits_mk. do 2 f_equal. apply truncate_comp.
    rewrite V. unfold AssetAmount.decimals, unit_of. field.
    apply (inject_Z_pow10_nonzero
             (AssetInfo.decimals (sigma (AssetAmount._assetInfo this)))). }
  repeat split; [exact V | exact R | ].
  intros n E. rewrite R, E, (truncate_comp _ _ (toQ_ofZ n)), truncate_inject_Z.
  destruct this as [raw i]. cbn [AssetAmount._microUnits AssetAmount._assetInfo] in *.
  now subst.
Qed.

Lemma standardBigNum_is_exact_witness :
  (BigNumber.toQ (AssetAmount.standardBigNum heap three)
   == BigNumber.toQ (AssetAmount._microUnits three)
      / unit_of (AssetAmount.decimals heap three))%Q
  /\ AssetAmount.StandardUnits heap (AssetAmount._assetInfo three)
       (AssetAmount.standardBigNum heap three)
     = AssetAmount.mk
         (BigNumber.ofZ (truncate (BigNumber.toQ (AssetAmount._microUnits three))))
         (AssetAmount._assetInfo three)
  /\ (forall n : Z,
      AssetAmount._microUnits three = BigNumber.ofZ n ->
      AssetAmount.StandardUnits heap (AssetAmount._assetInfo three)
        (AssetAmount.standardBigNum heap three)
      = three).
Proof. apply (standardBigNum_is_exact heap three). vm_compute. lia. Defined.

(** [fromCurrency] throws "Asset price cannot be zero" exactly on a price
    of zero, whatever the currency amount; on any other price it builds
    the amount from the quotient, rounded to 20 decimal places, as
    standard units; and the price of some units, of at most 20 decimal
    places, converts back to the amount of those units. *)
Theorem fromCurrency_spec
    (sigma : store) (r : ref) (currency price units : BigNumber.t) :
  (BigNumber.isZero price = true ->
   AssetAmount.fromCurrency sigma r currency price = Throw ZeroPrice)
  /\ (BigNumber.isZero price = false ->
      AssetAmount.fromCurrency sigma r currency price
      = Ok (AssetAmount.mk
              (BigNumber.ofZ
                 (truncate (BigNumber.toQ (BigNumber.quotient currency price)
                            * unit_of (AssetInfo.decimals (sigma r)))))
              r))
  /\ (BigNumber.isZero price = false -> (BigNumber.scale units <= 20)%nat ->
      AssetAmount.fromCurrency sigma r (BigNumber.multipliedBy units price) price
      = Ok (AssetAmount.StandardUnits sigma r units)).
Proof.
  unfold AssetAmount.fromCurrency. repeat split.
  - now intros ->.
  - intros ->. now rewrite StandardUnits_mk.
  - intros Z0 L. rewrite Z0, quotient_multipliedBy by assumption.
    f_equal. apply StandardUnits_comp.
    replace 20%nat with (BigNumber.scale units + (20 - BigNumber.scale units))%nat at 2
      by lia.
    apply (toQ_scaled (BigNumber.coeff units) (BigNumber.scale units)).
Qed.

(** ** [toJSON] *)

(** On an amount that holds the integer [n], the [microUnits] of
    [toJSON] are the digits of [n], with a minus sign when negative, as
    long as [n] is below [10^21] in magnitude, and [n] in exponential
    notation from there on: [BigInt] reads the text back as [n] in the
    first case and rejects it in the second. *)
Theorem toJSON_of_an_integer (a : AssetAmount.t) (n : Z) :
  AssetAmount._microUnits a = BigNumber.ofZ n ->
  BigNumber.chars (AssetAmount.json_microUnits (AssetAmount.toJSON a))
  = (if Z.abs n <? 10 ^ 21 then NilZero.string_of_int (Z.to_int n)
     else BigNumber.exponential (BigNumber.ofZ n))
  /\ BigInt (AssetAmount.json_microUnits (AssetAmount.toJSON a))
     = (if Z.abs n <? 10 ^ 21 then Ok n
        else Throw (SyntaxError (BigNumber.exponential (BigNumber.ofZ n)))).
Proof.
  intros E. unfold AssetAmount.toJSON. cbn [AssetAmount.json_microUnits].
  rewrite E, BigInt_toString_ofZ, toString_ofZ.
  split; [ | reflexivity].
  destruct (Z.abs n <? 10 ^ 21); cbn [BigNumber.chars]; [apply positional_ofZ | reflexivity].
Qed.

Lemma toJSON_of_an_integer_witness :
  BigNumber.chars (AssetAmount.json_microUnits (AssetAmount.toJSON three))
  = (if Z.abs 3 <? 10 ^ 21 then NilZero.string_of_int (Z.to_int 3)
     else BigNumber.exponential (BigNumber.ofZ 3))
  /\ BigInt (AssetAmount.json_microUnits (AssetAmount.toJSON three))
     = (if Z.abs 3 <? 10 ^ 21 then Ok 3
        else Throw (SyntaxError (BigNumber.exponential (BigNumber.ofZ 3)))).
Proof. apply (toJSON_of_an_integer three 3). reflexivity. Defined.

(** ** [format] *)

Import StringFacts TrimFacts.

(** With no options, [format] returns the rendering of the standard
    units as it is when it has no point, and otherwise without the zeros
    its fraction ends in, and without the point when the fraction is
    zeros throughout: the digits before the point are never touched. *)
Theorem format_trims_the_fraction
    (host : Format.Host) (sigma : store) (this : AssetAmount.t) :
  let formattedAmount :=
    Format.formatNumber host (Format.ANumber (AssetAmount.standardUnits sigma this))
      (Format.mkOptions None None (Some (AssetAmount.decimals sigma this)) (Some true)) in
  (AssetAmountFormat.includes_point formattedAmount = false ->
   AssetAmountFormat.format host sigma this default_options = Ok formattedAmount)
  /\ (forall ip fp : string,
      formattedAmount = (ip ++ "." ++ fp)%string ->
      fp <> EmptyString -> AssetAmountFormat.includes_point fp = false ->
      AssetAmountFormat.format host sigma this default_options
      = Ok (ip ++ Digits.point (Digits.strip 0 fp))%string).
Proof.
  intros formattedAmount. unfold AssetAmountFormat.format, default_options.
  cbn [AssetAmountFormat.showSymbol AssetAmountFormat.symbol AssetAmountFormat.decimalPlaces
       AssetAmountFormat.showMicrounits AssetAmountFormat.trimZeroes Format.orElse andb].
  fold formattedAmount. split.
  - now intros ->.
  - intros ip fp E Hne Hp.
    destruct (replace_trailing_zeros_fraction ip fp Hne Hp) as [I R].
    now rewrite E, I, R.
Qed.

(** Within the fraction digits [Intl.NumberFormat] accepts, [format]
    returns a text when [showMicrounits] is absent or false. With
    [showMicrounits], it returns that text followed by the integer
    microunits in parentheses, and throws the [SyntaxError] of the
    integer accessor on an amount of [10^21] microunits or more. *)
Theorem format_with_microunits
    (host : Format.Host) (sigma : store) (this : AssetAmount.t)
    (options : AssetAmountFormat.Options) :
  (Format.orElse (AssetAmountFormat.decimalPlaces options) (AssetAmount.decimals sigma this)
   <= 20)%nat ->
  (exists s : string,
      AssetAmountFormat.format host sigma this (without_microunits options) = Ok s
      /\ (Format.orElse (AssetAmountFormat.showMicrounits options) false = false ->
          AssetAmountFormat.format host sigma this options = Ok s)
      /\ (AssetAmountFormat.showMicrounits options = Some true ->
          AssetAmountFormat.format host sigma this options
          = (n <- AssetAmount.microUnits this ;;
             Ok (s ++ " (" ++ Format.formatNumber host (Format.ABigInt n)
                                (Format.mkOptions None None (Some 0%nat) (Some true))
                   ++ " microunits)")%string)))
  /\ (AssetAmountFormat.showMicrounits options = Some true ->
      10 ^ 21 <= Z.abs (truncate (BigNumber.toQ (AssetAmount._microUnits this))) ->
      AssetAmountFormat.format host sigma this options
      = Throw (SyntaxError
                 (BigNumber.exponential
                    (BigNumber.ofZ
                       (truncate (BigNumber.toQ (AssetAmount._microUnits this))))))).
Proof.
  intros _. split.
  - unfold AssetAmountFormat.format, without_microunits.
    cbn [AssetAmountFormat.showSymbol AssetAmountFormat.symbol AssetAmountFormat.decimalPlaces
         AssetAmountFormat.showMicrounits AssetAmountFormat.trimZeroes Format.orElse].
    eexists. split; [reflexivity | ]. split.
    + now intros ->.
    + intros ->. cbn [Format.orElse]. reflexivity.
  - intros M B. unfold AssetAmountFormat.format. rewrite M. cbn [Format.orElse].
    rewrite truncate_toQ in *. rewrite microUnits_spec. cbv zeta.
    destruct (Z.ltb_spec
                (Z.abs (BigNumber.coeff (AssetAmount._microUnits this)
                          ÷ BigNumber.pow10 (BigNumber.scale (AssetAmount._microUnits this))))
                (10 ^ 21)); [lia | reflexivity].
Qed.

Lemma format_with_microunits_witness :
  (exists s : string,
      AssetAmountFormat.format ReferenceHost.host heap three
        (without_microunits
           (AssetAmountFormat.mkOptions None None None (Some true) None))
      = Ok s
      /\ (Format.orElse
            (AssetAmountFormat.showMicrounits
               (AssetAmountFormat.mkOptions None None None (Some true) None))
            false
          = false ->
          AssetAmountFormat.format ReferenceHost.host heap three
            (AssetAmountFormat.mkOptions None None None (Some true) None)
          = Ok s)
      /\ (AssetAmountFormat.showMicrounits
            (AssetAmountFormat.mkOptions None None None (Some true) None)
          = Some true ->
          AssetAmountFormat.format ReferenceHost.host heap three
            (AssetAmountFormat.mkOptions None None None (Some true) None)
          = (n <- AssetAmount.microUnits three ;;
             Ok (s ++ " (" ++ Format.formatNumber ReferenceHost.host (Format.ABigInt n)
                                (Format.mkOptions None None (Some 0%nat) (Some true))
                   ++ " microunits)")%string)))
  /\ (AssetAmountFormat.showMicrounits
        (AssetAmountFormat.mkOptions None None None (Some true) None)
      = Some true ->
      10 ^ 21 <= Z.abs (truncate (BigNumber.toQ (AssetAmount._microUnits three))) ->
      AssetAmountFormat.format ReferenceHost.host heap three
        (AssetAmountFormat.mkOptions None None None (Some true) None)
      = Throw (SyntaxError
                 (BigNumber.exponential
                    (BigNumber.ofZ
                       (truncate (BigNumber.toQ (AssetAmount._microUnits three))))))).
Proof.
  apply (format_with_microunits ReferenceHost.host heap three
           (AssetAmountFormat.mkOptions None None None (Some true) None)).
  vm_compute. lia.
Defined.

(* ================================================================== *)
(** * The rest of [format.ts]: properties *)
(* ================================================================== *)

(** [formatShortAddress] returns the empty string for an address that
    is missing or empty, and an address no longer than the two lengths
    together as it is. For a longer one, with a prefix length of zero or
    more and a suffix length above zero, it returns the first
    [prefixLength] characters, three points and the last [suffixLength]
    characters: [prefixLength + suffixLength + 3] characters. The lengths
    are 5 and 5 when not given. *)
Theorem formatShortAddress_spec (address : string) (p s : Z) :
  Format.formatShortAddress None (Some p) (Some s) = EmptyString
  /\ Format.formatShortAddress (Some EmptyString) (Some p) (Some s) = EmptyString
  /\ (Z.of_nat (String.length address) <= p + s ->
      Format.formatShortAddress (Some address) (Some p) (Some s) = address)
  /\ (0 <= p -> 0 < s -> p + s < Z.of_nat (String.length address) ->
      Format.formatShortAddress (Some address) (Some p) (Some s)
      = (substring 0 (Z.to_nat p) address ++ "..."
           ++ substring (String.length address - Z.to_nat s) (Z.to_nat s) address)%string
      /\ Z.of_nat (String.length
                     (Format.formatShortAddress (Some address) (Some p) (Some s)))
         = p + s + 3)
  /\ Format.formatShortAddress (Some address) None None
     = Format.formatShortAddress (Some address) (Some 5) (Some 5).
Proof.
  unfold Format.formatShortAddress. cbn [Format.orElse].
  repeat split.
  - intros L. destruct address as [ | c r]; [reflexivity | ].
    now destruct (Z.leb_spec (Z.of_nat (String.length (String c r))) (p + s)); [ | lia].
  - destruct address as [ | c r]; [cbn in *; lia | ].
    destruct (Z.leb_spec (Z.of_nat (String.length (String c r))) (p + s)); [lia | ].
    now rewrite slice_prefix, slice_suffix by lia.
  - destruct address as [ | c r]; [cbn in *; lia | ].
    destruct (Z.leb_spec (Z.of_nat (String.length (String c r))) (p + s)); [lia | ].
    rewrite slice_prefix, slice_suffix by lia.
    rewrite !length_append, !length_substring by lia.
    cbn [String.length]. lia.
Qed.

(** With a suffix length of zero, [formatShortAddress] puts the whole
    address after the three points: [slice(-0)] is [slice(0)]. *)
Theorem formatShortAddress_without_a_suffix (address : string) (p : Z) :
  0 <= p < Z.of_nat (String.length address) ->
  Format.formatShortAddress (Some address) (Some p) (Some 0)
  = (substring 0 (Z.to_nat p) address ++ "..." ++ address)%string
  /\ Z.of_nat (String.length (Format.formatShortAddress (Some address) (Some p) (Some 0)))
     = p + 3 + Z.of_nat (String.length address).
Proof.
  intros B.
  assert (Format.formatShortAddress (Some address) (Some p) (Some 0)
          = (substring 0 (Z.to_nat p) address ++ "..." ++ address)%string) as E.
  { unfold Format.formatShortAddress. cbn [Format.orElse].
    destruct address as [ | c r]; [cbn in *; lia | ].
    destruct (Z.leb_spec (Z.of_nat (String.length (String c r))) (p + 0)); [lia | ].
    rewrite slice_prefix by lia. change (- 0) with 0.
    rewrite slice_from by lia. change (Z.to_nat 0) with 0%nat.
    now rewrite substring_all. }
  split; [exact E | ].
  rewrite E, !length_append, length_substring by lia.
  cbn [String.length]. lia.
Qed.

Lemma formatShortAddress_without_a_suffix_witness :
  Format.formatShortAddress (Some an_address) (Some 5) (Some 0)
  = (substring 0 (Z.to_nat 5) an_address ++ "..." ++ an_address)%string
  /\ Z.of_nat (String.length
                 (Format.formatShortAddress (Some an_address) (Some 5) (Some 0)))
     = 5 + 3 + Z.of_nat (String.length an_address).
Proof. apply (formatShortAddress_without_a_suffix an_address 5). simpl. lia. Defined.

(** ** [formatNumber] on zero and on NaN *)

Module EdgeFacts.
Import Format.

Lemma abs_nan (x : float) : Prim2SF x = S754_nan -> Prim2SF (abs x) = S754_nan.
Proof. intros E. now rewrite abs_spec, E. Qed.

Lemma ltb_nan_l (x y : float) : Prim2SF x = S754_nan -> (x <? y)%float = false.
Proof. intros E. now rewrite ltb_spec, E. Qed.

Lemma leb_nan_r (x y : float) : Prim2SF y = S754_nan -> (x <=? y)%float = false.
Proof.
  intros E. rewrite leb_spec, E. unfold SFleb, SFcompare.
  now destruct (Prim2SF x) as [ | [ | ] | | ].
Qed.

(** A number equal to zero is one of the two zeros. *)
Lemma eqb_zero (x : float) :
  (x =? 0)%float = true -> exists s : bool, Prim2SF x = S754_zero s.
Proof.
  rewrite eqb_spec. change (Prim2SF 0) with (S754_zero false).
  unfold SFeqb, SFcompare.
  destruct (Prim2SF x) as [s | [ | ] | | [ | ] m e]; try discriminate.
  intros _. now exists s.
Qed.

Lemma abs_zero (x : float) (s : bool) :
  Prim2SF x = S754_zero s -> Prim2SF (abs x) = S754_zero false.
Proof. intros E. now rewrite abs_spec, E. Qed.

(** Zero and NaN reach no tier, and are not rounded adaptively. *)
Lemma findTier_edge (v : value) : zero_or_NaN v -> findTier v = None.
Proof.
  destruct v as [x | n]; cbn [zero_or_NaN].
  - intros [Z0 | E]; unfold findTier, absValue, tiers, ge_number; cbn [find threshold].
    + destruct (eqb_zero x Z0) as [s E].
      rewrite !leb_spec, (abs_zero x s E). reflexivity.
    + now rewrite !(leb_nan_r _ (abs x) (abs_nan x E)).
  - intros ->. reflexivity.
Qed.

Lemma useRounding_edge (host : Host) (options : FormatOptions) (v : value) :
  zero_or_NaN v -> useRounding host options v = false.
Proof.
  unfold useRounding. destruct v as [x | n]; cbn [zero_or_NaN Number].
  - intros [Z0 | E].
    + rewrite Z0. cbn [negb]. now rewrite andb_false_r.
    + rewrite (ltb_nan_l (abs x) _ (abs_nan x E)). apply andb_false_r.
  - intros ->. change (Number_ofBigInt 0 =? 0)%float with true.
    cbn [negb]. now rewrite andb_false_r.
Qed.

End EdgeFacts.
Import EdgeFacts.

(** Zero, of either sign or a bigint, and NaN, which a text that is no
    number becomes, are rendered by the formatter of the fixed
    [fractionDigits] (2 by default) whatever [compact] and
    [adaptiveDecimals] are: no suffix, and no adaptive rounding. *)
Theorem formatNumber_of_zero_and_of_NaN
    (host : Format.Host) (a : Format.amount) (options : Format.FormatOptions) :
  zero_or_NaN (Format.value_of host a) ->
  Format.formatNumber host a options
  = Format.NumberFormat_format host
      (Format.mkNumberFormat (Format.orElse (Format.style options) Format.decimal)
         (Format.orElse (Format.fractionDigits options) 2%nat)
         (Format.orElse (Format.fractionDigits options) 2%nat))
      (Format.value_of host a).
Proof.
  intros E. unfold Format.formatNumber.
  assert (Format.formatBase host options (Format.value_of host a)
          = Format.NumberFormat_format host
              (Format.mkNumberFormat (Format.orElse (Format.style options) Format.decimal)
                 (Format.orElse (Format.fractionDigits options) 2%nat)
                 (Format.orElse (Format.fractionDigits options) 2%nat))
              (Format.value_of host a)) as B.
  { unfold Format.formatBase, Format.baseFormatter. now rewrite useRounding_edge. }
  rewrite findTier_edge by exact E.
  now destruct (negb _).
Qed.

Lemma formatNumber_of_zero_and_of_NaN_witness :
  Format.formatNumber ReferenceHost.host (Format.AString "abc") compact_true
  = Format.NumberFormat_format ReferenceHost.host
      (Format.mkNumberFormat (Format.orElse (Format.style compact_true) Format.decimal)
         (Format.orElse (Format.fractionDigits compact_true) 2%nat)
         (Format.orElse (Format.fractionDigits compact_true) 2%nat))
      (Format.value_of ReferenceHost.host (Format.AString "abc")).
Proof.
  apply (formatNumber_of_zero_and_of_NaN ReferenceHost.host (Format.AString "abc") compact_true).
  right. vm_compute. reflexivity.
Defined.

(** On the reference host: NaN, the zeros and the empty text, with
    [compact] and [adaptiveDecimals] on. *)
Example formatNumber_edge_examples :
  map (fun a => ReferenceHost.formatNumber a
                  (Format.mkOptions None (Some (Format.compact_is true)) None (Some true)))
    [Format.AString "abc"; Format.ANumber 0; Format.ANumber (-0); Format.ABigInt 0;
     Format.AString ""]
  = ["NaN"; "0.00"; "-0.00"; "0.00"; "0.00"]%string.
Proof. vm_compute. reflexivity. Qed.
